(** * gemini-cli-sdk: the JSON output parser and the orchestrating client

    A shallow embedding of
    - [src/gemini_cli_sdk/_internal/parser/json_parser.py] (class [JSONParser]) and
    - [src/gemini_cli_sdk/_internal/client.py] ([InternalClient.process_query]),
    followed by the properties of the specification that concern them.

    Conventions of the embedding.
    - A Python [str] is a [string], one character per code point (the code
      points below 256).
    - A value produced by [json.loads] is a [value]: Python is dynamically
      typed, so every field read from a payload stays a [value], and the
      operations the parser applies to it ([.get], truth value, [+=], slicing,
      [==]) raise or answer as Python does on each shape.
    - [json.loads] itself and the IEEE double arithmetic belong to the Python
      runtime, not to the repository: they are parameters of the embedding
      (Section variables).  A reference decoder for the examples is given in
      [Module Ref].
    - Exceptions are an error result [exn + A]; the wall clock read by
      [_generate_session_id] is an oracle [now_ms] indexed by the number of
      reads made so far, and that counter is threaded through the parser. *)

From Stdlib Require Import String Ascii List ZArith Bool Lia DecimalString.
From Stdlib Require Import QArith.
Import ListNotations.
Local Open Scope Z_scope.
Local Open Scope string_scope.
Local Open Scope list_scope.

Set Implicit Arguments.
Set Warnings "-notation-for-abbreviation".

(* ===================================================================== *)
(** ** Python string primitives used by the parser *)
(* ===================================================================== *)

Module PyStr.

(** The line feed, Python's ["\n"]. *)
Definition LF : ascii := "010"%char.

(** The double quote character. *)
Definition DQ : ascii := "034"%char.

(** [str.isspace] on one character: TAB..CR, FS..US, space, NEL, NBSP. *)
Definition is_space (c : ascii) : bool :=
  let n := N_of_ascii c in
  ((9 <=? n) && (n <=? 13) || (28 <=? n) && (n <=? 32)
   || (n =? 133) || (n =? 160))%N.

Definition is_empty (s : string) : bool :=
  match s with "" => true | _ => false end.

(** [s.lstrip()] *)
Fixpoint lstrip (s : string) : string :=
  match s with
  | "" => ""
  | String c s' => if is_space c then lstrip s' else s
  end.

(** [s.rstrip()] *)
Fixpoint rstrip (s : string) : string :=
  match s with
  | "" => ""
  | String c s' =>
      let r := rstrip s' in
      if is_space c && is_empty r then "" else String c r
  end.

(** [s.strip()] *)
Definition strip (s : string) : string := rstrip (lstrip s).

(** [s.startswith(p)] *)
Definition startswith (p s : string) : bool := prefix p s.

(** [sub in s] *)
Fixpoint contains (sub s : string) : bool :=
  prefix sub s
  || match s with
     | "" => false
     | String _ s' => contains sub s'
     end.

(** [s.split("\n")]: never the empty list, [""] splits to [[""]]. *)
Fixpoint split_nl (s : string) : list string :=
  match s with
  | "" => [""]
  | String c s' =>
      if (c =? LF)%char then "" :: split_nl s'
      else match split_nl s' with
           | h :: t => String c h :: t
           | [] => [String c ""]
           end
  end.

(** ["\n".join(ls)] *)
Fixpoint join_nl (ls : list string) : string :=
  match ls with
  | [] => ""
  | l :: ls' =>
      match ls' with
      | [] => l
      | _ :: _ => l ++ String LF (join_nl ls')
      end
  end.

(** [s[:n]] on a string *)
Fixpoint take (n : nat) (s : string) : string :=
  match n, s with
  | S n', String c s' => String c (take n' s')
  | _, _ => ""
  end.

(** [str(z)] for an integer, as the f-string of [_generate_session_id]
    formats it. *)
Definition str_of_int (z : Z) : string := NilZero.string_of_int (Z.to_int z).

(** A line of text: it holds no line feed. *)
Fixpoint no_LF (s : string) : bool :=
  match s with
  | "" => true
  | String c s' => negb (c =? LF)%char && no_LF s'
  end.

(** Writing JSON text: [q] turns every apostrophe into a double quote. *)
Fixpoint q (s : string) : string :=
  match s with
  | "" => ""
  | String c s' => String (if (c =? "'")%char then DQ else c) (q s')
  end.

End PyStr.
Import PyStr.

(* ===================================================================== *)
(** ** Exceptions *)
(* ===================================================================== *)

(** The exception classes that can leave the parser's code.  [_errors.py] is
    not among the sources: [CLIJSONDecodeError] and [ParsingError] keep the
    constructor arguments the parser passes them. *)
Inductive exn : Type :=
| JSONDecodeError                         (* json.JSONDecodeError *)
| CLIJSONDecodeError (json_str : string)  (* raised by _parse_single_json *)
| AttributeError                          (* [.get] / [.items] on a non-dict *)
| TypeError                               (* [+=] or slicing on a wrong shape *)
| OverflowError                           (* int too large for a float *)
| RecursionError                          (* json.loads, nesting too deep *)
| ValueError.                             (* json.loads, other than a decode error *)

(** [ParsingError("Failed to parse Gemini CLI JSON output",
                  raw_output=..., original_error=...)] *)
Inductive parsing_error : Type :=
| ParsingError (message raw_output : string) (original_error : exn).

Definition is_JSONDecodeError (e : exn) : bool :=
  match e with JSONDecodeError => true | _ => false end.

(* ===================================================================== *)
(** ** Python values, messages and the parser *)
(* ===================================================================== *)

Section Parser.

(** The Python runtime the parser runs on. *)
Variable float : Type.                          (* IEEE doubles *)
Variable float_add : float -> float -> float.   (* x + y *)
Variable float_of_int : Z -> option float.      (* float(n); None: OverflowError *)
Variable float_bool : float -> bool.            (* bool(x), x != 0.0 *)

(** What [json.loads] can return: [None], [True]/[False], an [int], a
    [float], a [str], a [list] or a [dict].  A [dict] keeps its insertion
    order; it is an association list read from the left. *)
#[warnings="-register-all"] Inductive value : Type :=
| VNone
| VBool (b : bool)
| VInt (z : Z)
| VFloat (f : float)
| VStr (s : string)
| VList (l : list value)
| VDict (d : list (string * value)).

(** [json.loads(s)]: a value, or the exception it raises. *)
Variable json_loads : string -> exn + value.

(** [datetime.now().timestamp() * 1000], truncated by [int]: the reading of
    the k-th call made to the clock. *)
Variable now_ms : nat -> Z.

(** *** The message model ([types.py], taken from the specification, §3) *)

(** Modelled from the spec: the content blocks of [types.py], which is not
    among the sources; "ContentBlock — closed set: TextBlock{text},
    CodeBlock{code, language}, ToolUseBlock{tool name, input},
    ToolResultBlock{tool name, output, is_error}". *)
Inductive ContentBlock : Type :=
| TextBlock (text : value)
| CodeBlock (code language : value)
| ToolUseBlock (tool_name input : value)
| ToolResultBlock (tool_name output : value) (is_error : bool).

(** Modelled from the spec: the fields of [ResultMessage] in [types.py];
    [total_cost_usd], [usage] and [result] are optional and default to
    [None]. *)
Record ResultData : Type := mkResult {
  subtype : value;
  duration_ms : value;
  is_error : bool;
  session_id : value;
  num_turns : Z;
  total_cost_usd : option Q;
  usage : option (list (string * value));
  result : value
}.

(** Modelled from the spec: the message variants of [types.py]. *)
Inductive Message : Type :=
| SystemMessage (subtype : string) (data : list (string * value))
| UserMessage (content : value)
| AssistantMessage (content : list ContentBlock)
| ResultMessage (r : ResultData).

(** *** Operations of Python on values *)

(** [d.get(k)] on the entries of a dict *)
Fixpoint dict_get (d : list (string * value)) (k : string) : option value :=
  match d with
  | [] => None
  | (k', v) :: d' => if (k' =? k)%string then Some v else dict_get d' k
  end.

(** [d.get(k, default)] on the entries of a dict *)
Definition dict_get_default (d : list (string * value)) (k : string)
    (default : value) : value :=
  match dict_get d k with
  | Some v => v
  | None => default
  end.

(** [v.get(k, default)]: only a dict has the method. *)
Definition py_get (v : value) (k : string) (default : value) : exn + value :=
  match v with
  | VDict d => inr (dict_get_default d k default)
  | _ => inl AttributeError
  end.

(** [v.items()]: only a dict has the method. *)
Definition py_items (v : value) : exn + list (string * value) :=
  match v with
  | VDict d => inr d
  | _ => inl AttributeError
  end.

(** [bool(v)], the truth value tested by [if v] and by [v or ...] *)
Definition truthy (v : value) : bool :=
  match v with
  | VNone => false
  | VBool b => b
  | VInt z => negb (z =? 0)%Z
  | VFloat f => float_bool f
  | VStr s => negb (is_empty s)
  | VList l => match l with [] => false | _ => true end
  | VDict d => match d with [] => false | _ => true end
  end.

(** [v == "lit"] for a string literal: only the same string is equal. *)
Definition py_eq_str (v : value) (lit : string) : bool :=
  match v with
  | VStr s => (s =? lit)%string
  | _ => false
  end.

(** The numbers of Python: [bool] counts as [int]. *)
Definition as_number (v : value) : option (Z + float) :=
  match v with
  | VBool b => Some (inl (if b then 1 else 0)%Z)
  | VInt z => Some (inl z)
  | VFloat f => Some (inr f)
  | _ => None
  end.

Definition to_float (n : Z + float) : exn + float :=
  match n with
  | inl z => match float_of_int z with
             | Some f => inr f
             | None => inl OverflowError
             end
  | inr f => inr f
  end.

(** [total += x] where [total] is a number: int + int is an int, a float on
    either side makes the sum a float, anything else is a [TypeError]. *)
Definition py_add (total x : value) : exn + value :=
  match as_number total, as_number x with
  | Some (inl a), Some (inl b) => inr (VInt (a + b))
  | Some a, Some b =>
      match to_float a, to_float b with
      | inr fa, inr fb => inr (VFloat (float_add fa fb))
      | inl e, _ => inl e
      | _, inl e => inl e
      end
  | _, _ => inl TypeError
  end.

(** [v[:100]]: a prefix of a string or of a list; no other value from
    [json.loads] can be sliced. *)
Definition py_slice100 (v : value) : exn + value :=
  match v with
  | VStr s => inr (VStr (take 100 s))
  | VList l => inr (VList (firstn 100 l))
  | _ => inl TypeError
  end.

(** *** The parser's monad: exceptions, and the count of clock reads *)

Definition M (A : Type) : Type := nat -> exn + (A * nat).

Definition ret {A} (a : A) : M A := fun t => inr (a, t).

Definition bind {A B} (m : M A) (k : A -> M B) : M B :=
  fun t => match m t with
           | inl e => inl e
           | inr (a, t') => k a t'
           end.

Definition raise {A} (e : exn) : M A := fun _ => inl e.

Definition lift {A} (r : exn + A) : M A :=
  match r with
  | inl e => raise e
  | inr a => ret a
  end.

Notation "x <- m ;; k" := (bind m (fun x => k))
  (at level 61, m at next level, right associativity).
Notation "' p <- m ;; k" := (bind m (fun x => let p := x in k))
  (at level 61, p pattern, m at next level, right associativity).

(** [_generate_session_id]: one read of the clock. *)
Definition _generate_session_id : M value :=
  fun t => inr (VStr ("gemini-" ++ str_of_int (now_ms t)), S t).

(** *** [_clean_output] *)

(** [stripped.startswith("{") or stripped.startswith("[")] *)
Definition looks_like_json (line : string) : bool :=
  let stripped := strip line in
  startswith "{" stripped || startswith "[" stripped.

(** The [for line in lines] loop, [json_lines] being the list built so far. *)
Fixpoint clean_loop (lines json_lines : list string) : list string :=
  match lines with
  | [] => json_lines
  | line :: rest =>
      if looks_like_json line then clean_loop rest (json_lines ++ [line])
      else match json_lines with
           | _ :: _ => clean_loop rest (json_lines ++ [line])
           | [] => clean_loop rest json_lines
           end
  end.

Definition _clean_output (output : string) : string :=
  join_nl (clean_loop (split_nl (strip output)) []).

(** *** [_parse_single_json] *)

(** The literal [0.0] that [total_cost] is bound to; nothing is added to it. *)
Definition total_cost : Q := 0%Q.

(** One turn of [for model_name, model_data in models_stats.items()]. *)
Definition add_model (totals : value * value) (item : string * value)
    : exn + (value * value) :=
  let '(total_duration_ms, total_tokens) := totals in
  let model_data := snd item in
  match py_get model_data "api" (VDict []) with
  | inl e => inl e
  | inr api_stats =>
  match py_get model_data "tokens" (VDict []) with
  | inl e => inl e
  | inr token_stats =>
  match py_get api_stats "totalLatencyMs" (VInt 0) with
  | inl e => inl e
  | inr latency =>
  match py_add total_duration_ms latency with
  | inl e => inl e
  | inr total_duration_ms' =>
  match py_get token_stats "total" (VInt 0) with
  | inl e => inl e
  | inr tokens =>
  match py_add total_tokens tokens with
  | inl e => inl e
  | inr total_tokens' => inr (total_duration_ms', total_tokens')
  end end end end end end.

Fixpoint sum_models (items : list (string * value)) (totals : value * value)
    : exn + (value * value) :=
  match items with
  | [] => inr totals
  | item :: rest =>
      match add_model totals item with
      | inl e => inl e
      | inr totals' => sum_models rest totals'
      end
  end.

Definition _parse_single_json (json_str : string) : M (list Message) :=
  data <- lift (match json_loads json_str with
                | inl JSONDecodeError => inl (CLIJSONDecodeError json_str)
                | r => r
                end) ;;
  response_text <- lift (py_get data "response" (VStr "")) ;;
  let messages :=
    if truthy response_text
    then [AssistantMessage [TextBlock response_text]] else [] in
  stats <- lift (py_get data "stats" (VDict [])) ;;
  models_stats <- lift (py_get stats "models" (VDict [])) ;;
  items <- lift (py_items models_stats) ;;
  ' (total_duration_ms, total_tokens) <-
      lift (sum_models items (VInt 0, VInt 0)) ;;
  tool_stats <- lift (py_get stats "tools" (VDict [])) ;;
  tool_calls <- lift (py_get tool_stats "totalCalls" (VInt 0)) ;;
  sid <- _generate_session_id ;;
  res <- lift (if truthy response_text then py_slice100 response_text
               else inr VNone) ;;
  ret (messages ++
       [ResultMessage
          {| subtype := VStr "success";
             duration_ms := total_duration_ms;
             is_error := false;
             session_id := sid;
             num_turns := 1;
             total_cost_usd :=
               if negb (Qle_bool total_cost 0) then Some total_cost else None;
             usage := Some [("total_tokens", total_tokens);
                            ("tool_calls", tool_calls);
                            ("models", models_stats)];
             result := res |}]).

(** *** [_parse_stream_json] *)

(** [session_id or self._generate_session_id()]: the clock is read only when
    the session id held so far is falsy. *)
Definition session_id_or_generate (session_id : value) : M value :=
  if truthy session_id then ret session_id else _generate_session_id.

(** The body of [for line in json_str.strip().split("\n")] from the [try]
    statement on, for a line that was stripped and passed the two tests; it
    works on the state [(messages, session_id)] of the loop. *)
Definition stream_event (st : list Message * value) (line : string)
    : M (list Message * value) :=
  let '(messages, session_id) := st in
  match json_loads line with
  | inl JSONDecodeError => ret st
  | inl e => raise e
  | inr data =>
    msg_type <- lift (py_get data "type" VNone) ;;
    if py_eq_str msg_type "init" then
      default <- _generate_session_id ;;
      session_id' <- lift (py_get data "session_id" default) ;;
      model <- lift (py_get data "model" VNone) ;;
      timestamp <- lift (py_get data "timestamp" VNone) ;;
      ret (messages ++
           [SystemMessage "init" [("session_id", session_id');
                                  ("model", model);
                                  ("timestamp", timestamp)]],
           session_id')
    else if py_eq_str msg_type "message" then
      role <- lift (py_get data "role" VNone) ;;
      content <- lift (py_get data "content" (VStr "")) ;;
      if py_eq_str role "user" then
        ret (messages ++ [UserMessage content], session_id)
      else if py_eq_str role "assistant" then
        is_delta <- lift (py_get data "delta" (VBool false)) ;;
        if truthy content then
          ret (messages ++ [AssistantMessage [TextBlock content]],
               session_id)
        else ret st
      else ret st
    else if py_eq_str msg_type "result" then
      stats <- lift (py_get data "stats" (VDict [])) ;;
      status <- lift (py_get data "status" (VStr "success")) ;;
      duration <- lift (py_get stats "duration_ms" (VInt 0)) ;;
      status' <- lift (py_get data "status" VNone) ;;
      sid <- session_id_or_generate session_id ;;
      total_tokens <- lift (py_get stats "total_tokens" (VInt 0)) ;;
      input_tokens <- lift (py_get stats "input_tokens" (VInt 0)) ;;
      output_tokens <- lift (py_get stats "output_tokens" (VInt 0)) ;;
      tool_calls <- lift (py_get stats "tool_calls" (VInt 0)) ;;
      ret (messages ++
           [ResultMessage
              {| subtype := status;
                 duration_ms := duration;
                 is_error := py_eq_str status' "error";
                 session_id := sid;
                 num_turns := 1;
                 total_cost_usd := None;
                 usage := Some [("total_tokens", total_tokens);
                                ("input_tokens", input_tokens);
                                ("output_tokens", output_tokens);
                                ("tool_calls", tool_calls)];
                 result := VNone |}],
           session_id)
    else if py_eq_str msg_type "error" then
      sid <- session_id_or_generate session_id ;;
      message <- lift (py_get data "message" (VStr "Unknown error")) ;;
      ret (messages ++
           [ResultMessage
              {| subtype := VStr "error";
                 duration_ms := VInt 0;
                 is_error := true;
                 session_id := sid;
                 num_turns := 0;
                 total_cost_usd := None;
                 usage := None;
                 result := message |}],
           session_id)
    else ret st
  end.

(** The whole body of the loop: strip the line, skip it when it is empty or
    does not start with a brace. *)
Definition stream_step (st : list Message * value) (line0 : string)
    : M (list Message * value) :=
  let line := strip line0 in
  if is_empty line || negb (startswith "{" line) then ret st
  else stream_event st line.

(** The loop over the lines. *)
Fixpoint stream_loop (lines : list string) (st : list Message * value)
    : M (list Message * value) :=
  match lines with
  | [] => ret st
  | line :: rest => st' <- stream_step st line ;; stream_loop rest st'
  end.

Definition _parse_stream_json (json_str : string) : M (list Message) :=
  st <- stream_loop (split_nl (strip json_str)) ([], VNone) ;;
  ret (fst st).

(** *** [parse] *)

Inductive format : Type := SingleJSON | StreamJSON.

(** [cleaned_output.strip().startswith("{") and "\n{" not in cleaned_output] *)
Definition detect_format (cleaned_output : string) : format :=
  if startswith "{" (strip cleaned_output)
     && negb (contains (String LF "{") cleaned_output)
  then SingleJSON else StreamJSON.

Definition parse_as (f : format) (cleaned_output : string)
    : M (list Message) :=
  match f with
  | SingleJSON => _parse_single_json cleaned_output
  | StreamJSON => _parse_stream_json cleaned_output
  end.

(** The [except Exception as e] clause of [parse]: whatever was raised is
    wrapped in a [ParsingError]. *)
Definition wrap_error {A} (raw_output : string) (r : exn + A)
    : parsing_error + A :=
  match r with
  | inl e =>
      inl (ParsingError "Failed to parse Gemini CLI JSON output" raw_output e)
  | inr a => inr a
  end.

(** [parse(raw_output, stderr)]: the messages and the clock count, or the
    [ParsingError] raised. *)
Definition parse (raw_output stderr : string) (t : nat)
    : parsing_error + (list Message * nat) :=
  if is_empty raw_output || is_empty (strip raw_output) then inr ([], t)
  else
    let cleaned_output := _clean_output raw_output in
    if is_empty cleaned_output then inr ([], t)
    else
      wrap_error raw_output
        (parse_as (detect_format cleaned_output) cleaned_output t).

End Parser.

Arguments VNone {float}.
Arguments VBool {float} b.
Arguments VInt {float} z.
Arguments VStr {float} s.
Arguments VList {float} l.
Arguments VDict {float} d.

(* ===================================================================== *)
(** ** A reference runtime for the examples *)
(* ===================================================================== *)

(** A decoder for JSON text as [json.loads] reads it (objects, arrays,
    strings with their escapes, [true]/[false]/[null], numerals), a clock and
    an arithmetic on which the parser can be run.  Finite decimal numerals
    with a fraction or an exponent are read exactly, as rationals; [NaN] and
    the infinities, and escapes above code point 255, are not decoded.  The
    examples below use integers and plain ASCII only. *)
Module Ref.

Definition float : Type := Q.
Definition float_add : float -> float -> float := Qplus.
Definition float_of_int (z : Z) : option float := Some (inject_Z z).
Definition float_bool (x : float) : bool := negb (Qeq_bool x 0).

Definition jvalue : Type := value float.
Definition jdict : Type := list (string * jvalue).

(** Whitespace between JSON tokens: space, TAB, LF, CR. *)
Definition is_ws (c : ascii) : bool :=
  ((c =? " ") || (c =? "009") || (c =? "010") || (c =? "013"))%char.

Fixpoint skip_ws (s : string) : string :=
  match s with
  | String c s' => if is_ws c then skip_ws s' else s
  | "" => ""
  end.

Fixpoint drop (n : nat) (s : string) : string :=
  match n, s with
  | S n', String _ s' => drop n' s'
  | _, _ => s
  end.

Definition digit_of (c : ascii) : option Z :=
  let n := N_of_ascii c in
  if ((48 <=? n) && (n <=? 57))%N then Some (Z.of_N (n - 48)) else None.

Definition hex_of (c : ascii) : option N :=
  let n := N_of_ascii c in
  if ((48 <=? n) && (n <=? 57))%N then Some (n - 48)%N
  else if ((65 <=? n) && (n <=? 70))%N then Some (n - 55)%N
  else if ((97 <=? n) && (n <=? 102))%N then Some (n - 87)%N
  else None.

(** The longest run of digits at the head of [s]: its value after [acc], how
    many were read, and the rest. *)
Fixpoint read_digits (s : string) (acc : Z) (count : nat)
    : Z * nat * string :=
  match s with
  | String c s' =>
      match digit_of c with
      | Some d => read_digits s' (10 * acc + d) (S count)
      | None => (acc, count, s)
      end
  | "" => (acc, count, s)
  end.

(** A numeral: an optional minus sign, then 0 or a run of digits that does
    not start with 0, then an optional fraction (a dot and digits) and an
    optional exponent (e or E, an optional sign, digits). *)
Definition p_number (s : string) : option (jvalue * string) :=
  let '(neg, s1) :=
    match s with
    | String c r => if (c =? "-")%char then (true, r) else (false, s)
    | "" => (false, s)
    end in
  let int_part :=
    match s1 with
    | String c r =>
        if (c =? "0")%char then Some (0, r)
        else match digit_of c with
             | Some _ => let '(n, _, r') := read_digits s1 0 0 in Some (n, r')
             | None => None
             end
    | "" => None
    end in
  match int_part with
  | None => None
  | Some (n, r1) =>
      let '(frac, r2) :=
        match r1 with
        | String c r =>
            if (c =? ".")%char then
              match read_digits r 0 0 with
              | (_, O, _) => (None, r1)
              | (f, k, r') => (Some (f, k), r')
              end
            else (None, r1)
        | "" => (None, r1)
        end in
      let '(expo, r3) :=
        match r2 with
        | String c r =>
            if ((c =? "e") || (c =? "E"))%char then
              let '(eneg, r') :=
                match r with
                | String c' r'' =>
                    if (c' =? "-")%char then (true, r'')
                    else if (c' =? "+")%char then (false, r'')
                    else (false, r)
                | "" => (false, r)
                end in
              match read_digits r' 0 0 with
              | (_, O, _) => (None, r2)
              | (e, _, r'') => (Some (if eneg then - e else e), r'')
              end
            else (None, r2)
        | "" => (None, r2)
        end in
      let sign := if neg then (-1) else 1 in
      match frac, expo with
      | None, None => Some (VInt (sign * n), r3)
      | _, _ =>
          let '(f, k) := match frac with Some fk => fk | None => (0, O) end in
          let e := match expo with Some e => e | None => 0 end in
          let m := sign * (n * 10 ^ Z.of_nat k + f) in
          let ex := e - Z.of_nat k in
          let x : Q := if (0 <=? ex)%Z then Qmake (m * 10 ^ ex) 1
                       else Qmake m (Z.to_pos (10 ^ (- ex))) in
          Some (VFloat x, r3)
      end
  end.

(** The characters of a string literal after its opening quote, up to the
    closing one. *)
Fixpoint p_string (s : string) : option (string * string) :=
  match s with
  | "" => None
  | String c r =>
      if (c =? DQ)%char then Some ("", r)
      else if (c =? "\")%char then
        match r with
        | "" => None
        | String e r2 =>
            let simple (x : ascii) :=
              match p_string r2 with
              | Some (t, rest) => Some (String x t, rest)
              | None => None
              end in
            if (e =? DQ)%char then simple DQ
            else if (e =? "\")%char then simple "\"%char
            else if (e =? "/")%char then simple "/"%char
            else if (e =? "b")%char then simple "008"%char
            else if (e =? "f")%char then simple "012"%char
            else if (e =? "n")%char then simple "010"%char
            else if (e =? "r")%char then simple "013"%char
            else if (e =? "t")%char then simple "009"%char
            else if (e =? "u")%char then
              match r2 with
              | String h1 (String h2 (String h3 (String h4 r3))) =>
                  match hex_of h1, hex_of h2, hex_of h3, hex_of h4 with
                  | Some a, Some b, Some c', Some d =>
                      let code := (((a * 16 + b) * 16 + c') * 16 + d)%N in
                      if (code <? 256)%N then
                        match p_string r3 with
                        | Some (t, rest) =>
                            Some (String (ascii_of_N code) t, rest)
                        | None => None
                        end
                      else None
                  | _, _, _, _ => None
                  end
              | _ => None
              end
            else None
        end
      else if (N_of_ascii c <? 32)%N then None
      else match p_string r with
           | Some (t, rest) => Some (String c t, rest)
           | None => None
           end
  end.

(** [d[k] = v] on the entries of a dict: a key already present keeps its
    place and takes the new value. *)
Fixpoint dict_set (d : jdict) (k : string) (v : jvalue) : jdict :=
  match d with
  | [] => [(k, v)]
  | (k', v') :: d' =>
      if (k' =? k)%string then (k', v) :: d' else (k', v') :: dict_set d' k v
  end.

(** One JSON value at the head of [s], and the rest of the text. *)
Fixpoint p_value (fuel : nat) (s : string) {struct fuel}
    : option (jvalue * string) :=
  match fuel with
  | O => None
  | S n =>
      match s with
      | "" => None
      | String c r =>
          if (c =? "{")%char then
            match skip_ws r with
            | String c' r' as r0 =>
                if (c' =? "}")%char then Some (VDict [], r')
                else p_members n r0 []
            | "" => None
            end
          else if (c =? "[")%char then
            match skip_ws r with
            | String c' r' as r0 =>
                if (c' =? "]")%char then Some (VList [], r')
                else p_elements n r0 []
            | "" => None
            end
          else if (c =? DQ)%char then
            match p_string r with
            | Some (t, rest) => Some (VStr t, rest)
            | None => None
            end
          else if prefix "null" s then Some (VNone, drop 4 s)
          else if prefix "true" s then Some (VBool true, drop 4 s)
          else if prefix "false" s then Some (VBool false, drop 5 s)
          else p_number s
      end
  end

with p_members (fuel : nat) (s : string) (acc : jdict) {struct fuel}
    : option (jvalue * string) :=
  match fuel with
  | O => None
  | S n =>
      match s with
      | "" => None
      | String c r =>
          if (c =? DQ)%char then
            match p_string r with
            | None => None
            | Some (k, r1) =>
                match skip_ws r1 with
                | "" => None
                | String c1 r2 =>
                    if (c1 =? ":")%char then
                      match p_value n (skip_ws r2) with
                      | None => None
                      | Some (v, r3) =>
                          let acc' := dict_set acc k v in
                          match skip_ws r3 with
                          | "" => None
                          | String c3 r4 =>
                              if (c3 =? "}")%char then Some (VDict acc', r4)
                              else if (c3 =? ",")%char
                              then p_members n (skip_ws r4) acc'
                              else None
                          end
                      end
                    else None
                end
            end
          else None
      end
  end

with p_elements (fuel : nat) (s : string) (acc : list jvalue) {struct fuel}
    : option (jvalue * string) :=
  match fuel with
  | O => None
  | S n =>
      match p_value n s with
      | None => None
      | Some (v, r1) =>
          match skip_ws r1 with
          | "" => None
          | String c r2 =>
              if (c =? "]")%char then Some (VList (acc ++ [v]), r2)
              else if (c =? ",")%char
              then p_elements n (skip_ws r2) (acc ++ [v])
              else None
          end
      end
  end.

(** [json.loads(s)]: one value, whitespace allowed around it, nothing else. *)
Definition json_loads (s : string) : exn + jvalue :=
  match p_value (2 * String.length s + 2) (skip_ws s) with
  | Some (v, rest) =>
      if is_empty (skip_ws rest) then inr v else inl JSONDecodeError
  | None => inl JSONDecodeError
  end.

(** A clock that starts at 1000 ms and advances by one millisecond between
    two consecutive reads. *)
Definition ticking (k : nat) : Z := 1000 + Z.of_nat k.

(** A clock that stands still at 1000 ms. *)
Definition frozen (k : nat) : Z := 1000.

Definition parse (now_ms : nat -> Z) (raw_output stderr : string) (t : nat) :=
  parse float_add float_of_int float_bool json_loads now_ms
        raw_output stderr t.

(** The stdout of the example scenario of the specification (§8). *)
Definition hello_stdout : string :=
  q "{'response':'Hello!','stats':{'models':{'m1':{'api':{'totalLatencyMs':120},'tokens':{'total':42}}},'tools':{'totalCalls':0}}}".

(** What [hello_stdout] decodes to. *)
Definition hello_models : jdict :=
  [("m1", VDict [("api", VDict [("totalLatencyMs", VInt 120)]);
                 ("tokens", VDict [("total", VInt 42)])])].

Definition hello_payload : jdict :=
  [("response", VStr "Hello!");
   ("stats", VDict [("models", VDict hello_models);
                    ("tools", VDict [("totalCalls", VInt 0)])])].

(** Event lines of a stream, and what they decode to. *)
Definition init_line : string := q "{'type':'init','session_id':'s'}".
Definition init_event : jdict :=
  [("type", VStr "init"); ("session_id", VStr "s")].

Definition user_line : string :=
  q "{'type':'message','role':'user','content':'hi'}".
Definition user_event : jdict :=
  [("type", VStr "message"); ("role", VStr "user"); ("content", VStr "hi")].

Definition delta_line : string :=
  q "{'type':'message','role':'assistant','content':'Hel','delta':true}".
Definition delta_event : jdict :=
  [("type", VStr "message"); ("role", VStr "assistant");
   ("content", VStr "Hel"); ("delta", VBool true)].

Definition result_line : string :=
  q "{'type':'result','status':'success','stats':{'duration_ms':7}}".
Definition result_event : jdict :=
  [("type", VStr "result"); ("status", VStr "success");
   ("stats", VDict [("duration_ms", VInt 7)])].

Definition error_line : string := q "{'type':'error','message':'boom'}".

(** A line that [json.loads] cannot decode. *)
Definition corrupt_line : string := "{oops".

(** A response of 150 characters, and a stdout that carries it. *)
Definition long_response : string :=
  String.concat "" (repeat "0123456789" 15).
Definition long_stdout : string :=
  (q "{'response':'" ++ long_response ++ q "'}")%string.

(** The example scenario printed on three lines, the object of "stats"
    opening its own line; and the example scenario behind a log line that
    starts with a bracket. *)
Definition pretty_stdout : string :=
  join_nl [q "{'response':'Hello!',";
           q "'stats':";
           q "{'tools':{'totalCalls':0}}}"].
Definition pretty_payload : jdict :=
  [("response", VStr "Hello!");
   ("stats", VDict [("tools", VDict [("totalCalls", VInt 0)])])].
Definition logged_stdout : string :=
  join_nl ["[INFO] ready"; hello_stdout].

Definition stream_loop (now_ms : nat -> Z) (lines : list string)
    (st : list (Message float) * jvalue) (t : nat) :=
  stream_loop float_bool json_loads now_ms lines st t.

Definition stream_step (now_ms : nat -> Z)
    (st : list (Message float) * jvalue) (line : string) (t : nat) :=
  stream_step float_bool json_loads now_ms st line t.

Definition _parse_single_json (now_ms : nat -> Z) (json_str : string)
    (t : nat) :=
  _parse_single_json float_add float_of_int float_bool json_loads now_ms
    json_str t.

Definition _parse_stream_json (now_ms : nat -> Z) (json_str : string)
    (t : nat) :=
  _parse_stream_json float_bool json_loads now_ms json_str t.

End Ref.

(* ===================================================================== *)
(** ** The orchestrating client: [InternalClient.process_query] *)
(* ===================================================================== *)

Module Client.

Section ProcessQuery.

Variable float : Type.

(** The faults ([Exception] and its subclasses) that [connect], [execute],
    [parse] and [disconnect] can raise, and [str(e)]. *)
Variable fault : Type.
Variable str : fault -> string.

(** Modelled from the spec: [GeminiOptions] of [types.py], which is not
    among the sources; the fields [process_query] reads: "`model` (string,
    optional), `cwd` (path, optional, defaults to process current
    directory), `sandbox` (bool), `yolo`/auto-accept (bool)". *)
Record GeminiOptions : Type := mkOptions {
  model : option string;
  cwd : option string;
  sandbox : bool;
  yolo : bool
}.

(** Modelled from the spec: the [Transport] of [transport/], which is not
    among the sources; "`connect() → void`, `execute(prompt, options) →
    (stdout, stderr)`, `disconnect() → void`", each of which may raise.
    [process_query] calls each method at most once, so a transport is given
    by the outcome of each call ([None]: it returns). *)
Record Transport : Type := mkTransport {
  connect : option fault;
  execute : string -> GeminiOptions -> fault + (string * string);
  disconnect : option fault
}.

(** Modelled from the spec: a [ParserStrategy], "`parse(stdout, stderr) →
    ordered sequence of Message`", which may raise; and the name of its
    class. *)
Record ParserStrategy : Type := mkParser {
  parse : string -> string -> fault + list (Message float);
  class_name : string
}.

(** What the process environment answers: [os.getenv("GEMINI_MODEL")] and
    [str(Path.cwd())]. *)
Record Environment : Type := mkEnv {
  GEMINI_MODEL : option string;
  path_cwd : string
}.

(** What an observer sees of one run, in order: the calls made to the
    transport and to the parser, and the messages yielded to the consumer. *)
Inductive event : Type :=
| Connect
| Execute (prompt : string)
| Parse (stdout stderr : string)
| Disconnect
| Yield (m : Message float).

(** A run of generator code: the events so far, and either the fault that
    is propagating or the value computed. *)
Definition G (A : Type) : Type := list event * (fault + A).

Definition gret {A} (a : A) : G A := ([], inr a).

Definition gbind {A B} (m : G A) (k : A -> G B) : G B :=
  match m with
  | (tr, inl e) => (tr, inl e)
  | (tr, inr a) => let '(tr', r) := k a in (tr ++ tr', r)
  end.

Definition graise {A} (e : fault) : G A := ([], inl e).

(** [yield m] *)
Definition gyield (m : Message float) : G unit := ([Yield m], inr tt).

(** A call to a collaborator, recorded as [ev], with outcome [r]. *)
Definition call {A} (ev : event) (r : fault + A) : G A := ([ev], r).

Definition outcome_of (o : option fault) : fault + unit :=
  match o with
  | Some e => inl e
  | None => inr tt
  end.

(** [try: body except Exception as e: handler(e)] *)
Definition try_except {A} (body : G A) (handler : fault -> G A) : G A :=
  match body with
  | (tr, inl e) => let '(tr', r) := handler e in (tr ++ tr', r)
  | (tr, inr a) => (tr, inr a)
  end.

(** [try: body finally: cleanup]: the cleanup always runs; a fault of the
    cleanup replaces the outcome of the body. *)
Definition try_finally {A} (body : G A) (cleanup : G unit) : G A :=
  let '(tr, r) := body in
  match cleanup with
  | (tr', inl e') => (tr ++ tr', inl e')
  | (tr', inr _) => (tr ++ tr', r)
  end.

Notation "x <- m ;; k" := (gbind m (fun x => k))
  (at level 61, m at next level, right associativity).
Notation "m ;;; k" := (gbind m (fun _ => k))
  (at level 61, right associativity).

(** [for message in messages: yield message] *)
Fixpoint yield_all (messages : list (Message float)) : G unit :=
  match messages with
  | [] => gret tt
  | m :: rest => gyield m ;;; yield_all rest
  end.

(** [options.model or os.getenv("GEMINI_MODEL", "gemini-2.0-flash")] *)
Definition resolved_model (env : Environment) (options : GeminiOptions)
    : string :=
  match model options with
  | Some m => if is_empty m
              then match GEMINI_MODEL env with
                   | Some g => g
                   | None => "gemini-2.0-flash"
                   end
              else m
  | None => match GEMINI_MODEL env with
            | Some g => g
            | None => "gemini-2.0-flash"
            end
  end.

(** [str(options.cwd) if options.cwd else str(Path.cwd())] *)
Definition resolved_cwd (env : Environment) (options : GeminiOptions)
    : string :=
  match cwd options with
  | Some c => if is_empty c then path_cwd env else c
  | None => path_cwd env
  end.

(** The synthetic [SystemMessage(subtype="init", ...)]. *)
Definition init_message (env : Environment) (p : ParserStrategy)
    (options : GeminiOptions) : Message float :=
  SystemMessage "init"
    [("model", VStr (resolved_model env options));
     ("cwd", VStr (resolved_cwd env options));
     ("parser", VStr (class_name p));
     ("sandbox", VBool (sandbox options));
     ("yolo", VBool (yolo options))].

(** The [ResultMessage] of the [except] clause; [total_cost_usd] and [usage]
    are left to their defaults. *)
Definition error_message (e : fault) : Message float :=
  ResultMessage
    {| subtype := VStr "error_during_execution";
       duration_ms := VInt 0;
       is_error := true;
       session_id := VStr "error";
       num_turns := 0;
       total_cost_usd := None;
       usage := None;
       result := VStr (str e) |}.

(** The [try ... except Exception as e] statement of [process_query], as it
    stands before the [finally] clause: the steps of the query, and the
    handler that yields the error message and re-raises. *)
Definition process_query_try (env : Environment) (transport : Transport)
    (parser : ParserStrategy) (prompt : string) (options : GeminiOptions)
    : G unit :=
  try_except
    (call Connect (outcome_of (connect transport)) ;;;
     gyield (init_message env parser options) ;;;
     gyield (UserMessage (VStr prompt)) ;;;
     out <- call (Execute prompt) (execute transport prompt options) ;;
     messages <- call (Parse (fst out) (snd out))
                      (parse parser (fst out) (snd out)) ;;
     yield_all messages)
    (fun e => gyield (error_message e) ;;; graise e).

(** [process_query(prompt, options)], driven by a consumer that takes every
    message: the events of the run and how it ends ([inl e]: the fault [e]
    reaches the caller). *)
Definition process_query (env : Environment) (transport : Transport)
    (parser : ParserStrategy) (prompt : string) (options : GeminiOptions)
    : G unit :=
  try_finally
    (process_query_try env transport parser prompt options)
    (call Disconnect (outcome_of (disconnect transport))).

(** The messages the consumer received, in order. *)
Fixpoint yielded (tr : list event) : list (Message float) :=
  match tr with
  | [] => []
  | Yield m :: tr' => m :: yielded tr'
  | _ :: tr' => yielded tr'
  end.

Definition is_result (m : Message float) : bool :=
  match m with ResultMessage _ => true | _ => false end.



End ProcessQuery.

Arguments Connect {float}.
Arguments Execute {float} prompt.
Arguments Parse {float} stdout stderr.
Arguments Disconnect {float}.

End Client.

(* ===================================================================== *)
(** ** Vocabulary of the properties *)
(* ===================================================================== *)

(** Every character is a space. *)
Fixpoint blank (s : string) : bool :=
  match s with
  | "" => true
  | String c s' => is_space c && blank s'
  end.

(** The lines the stream loop does not skip at once: stripped, and starting
    with a brace. *)
Definition brace_lines (ls : list string) : list string :=
  filter (startswith "{") (map strip ls).

(** The stream signal of format detection, on the lines of a text: after
    the lines [_clean_output] drops, a line other than the first starts with
    a brace. *)
Definition later_brace (ls : list string) : bool :=
  existsb (startswith "{") (tl (clean_loop ls [])).

(** How a parse ended, the [raw_output] kept in the [ParsingError] left
    aside: the messages, or the exception that was wrapped. *)
Definition outcome {A} (r : parsing_error + A) : exn + A :=
  match r with
  | inl (ParsingError _ _ e) => inl e
  | inr a => inr a
  end.

Section Schema.

Variable float : Type.

Local Notation val := (value float).
Local Notation dict := (list (string * value float)).

(** The statistics of one model in a single-JSON payload:
    [api.totalLatencyMs] and [tokens.total], 0 where the path is absent. *)
Definition model_latency (model_data : val) : Z :=
  match model_data with
  | VDict m =>
      match dict_get m "api" with
      | Some (VDict a) =>
          match dict_get a "totalLatencyMs" with
          | Some (VInt z) => z
          | _ => 0
          end
      | _ => 0
      end
  | _ => 0
  end.

Definition model_tokens (model_data : val) : Z :=
  match model_data with
  | VDict m =>
      match dict_get m "tokens" with
      | Some (VDict a) =>
          match dict_get a "total" with
          | Some (VInt z) => z
          | _ => 0
          end
      | _ => 0
      end
  | _ => 0
  end.

(** The sum of a statistic over all models. *)
Definition sum_over (f : val -> Z) (models : dict) : Z :=
  fold_right (fun item acc => f (snd item) + acc) 0 models.

(** [stats.models] of a payload, [{}] where absent. *)
Definition payload_models (d : dict) : dict :=
  match dict_get d "stats" with
  | Some (VDict st) =>
      match dict_get st "models" with
      | Some (VDict ms) => ms
      | _ => []
      end
  | _ => []
  end.

(** [stats.tools.totalCalls] of a payload, 0 where absent. *)
Definition payload_tool_calls (d : dict) : val :=
  match dict_get d "stats" with
  | Some (VDict st) =>
      match dict_get st "tools" with
      | Some (VDict ts) => dict_get_default ts "totalCalls" (VInt 0)
      | _ => VInt 0
      end
  | _ => VInt 0
  end.

Definition int_or_absent (o : option val) : bool :=
  match o with
  | None | Some (VInt _) => true
  | _ => false
  end.

Definition dict_or_absent (o : option val) : bool :=
  match o with
  | None | Some (VDict _) => true
  | _ => false
  end.

(** A per-model entry as the output contract of the CLI describes it: an
    object whose [api] and [tokens], where present, are objects with an
    integer [totalLatencyMs] and [total]. *)
Definition wf_model (model_data : val) : bool :=
  match model_data with
  | VDict m =>
      match dict_get m "api" with
      | None => true
      | Some (VDict a) => int_or_absent (dict_get a "totalLatencyMs")
      | _ => false
      end
      && match dict_get m "tokens" with
         | None => true
         | Some (VDict a) => int_or_absent (dict_get a "total")
         | _ => false
         end
  | _ => false
  end.

(** A well-formed single-JSON payload: [stats], where present, is an object
    whose [models] is an object of well-formed entries and whose [tools] is
    an object. *)
Definition wf_payload (d : dict) : bool :=
  match dict_get d "stats" with
  | None => true
  | Some (VDict st) =>
      match dict_get st "models" with
      | None => true
      | Some (VDict ms) => forallb (fun item => wf_model (snd item)) ms
      | _ => false
      end
      && dict_or_absent (dict_get st "tools")
  | _ => false
  end.

(** Running a piece of the stream loop on top of messages already produced:
    the new messages come after them. *)
Definition on_top (messages : list (Message float))
    (r : exn + (list (Message float) * val * nat))
    : exn + (list (Message float) * val * nat) :=
  match r with
  | inl e => inl e
  | inr ((new, sid), t) => inr ((messages ++ new, sid), t)
  end.

(** [d.get("type") == lit] *)
Definition has_type (d : dict) (lit : string) : bool :=
  py_eq_str (dict_get_default d "type" VNone) lit.

(** The identifier [_generate_session_id] makes from the k-th reading of the
    clock [now_ms]. *)
Definition synthesized_id (now_ms : nat -> Z) (k : nat) : val :=
  VStr ("gemini-" ++ str_of_int (now_ms k)).

(** The [ResultMessage] that closes the parse of the single-JSON payload [d]
    whose response text is [s], the clock having been read [t] times. *)
Definition single_result (now_ms : nat -> Z) (d : dict) (s : string)
    (t : nat) : ResultData float :=
  {| subtype := VStr "success";
     duration_ms := VInt (sum_over model_latency (payload_models d));
     is_error := false;
     session_id := synthesized_id now_ms t;
     num_turns := 1;
     total_cost_usd := None;
     usage := Some [("total_tokens",
                     VInt (sum_over model_tokens (payload_models d)));
                    ("tool_calls", payload_tool_calls d);
                    ("models", VDict (payload_models d))];
     result := if is_empty s then VNone else VStr (take 100 s) |}.

(** The [SystemMessage] of an "init" line whose session id resolved to
    [session_id]. *)
Definition init_system_message (d : dict) (session_id : val)
    : Message float :=
  SystemMessage "init"
    [("session_id", session_id);
     ("model", dict_get_default d "model" VNone);
     ("timestamp", dict_get_default d "timestamp" VNone)].

Definition is_system (m : Message float) : bool :=
  match m with SystemMessage _ _ => true | _ => false end.

(** No [SystemMessage] stands after a message of another kind. *)
Fixpoint system_first (msgs : list (Message float)) : bool :=
  match msgs with
  | [] => true
  | m :: rest =>
      if is_system m then system_first rest
      else negb (existsb is_system rest)
  end.

(** [line] is a stream line of type "message" and role "assistant" whose
    content is the non-empty string [s]. *)
Definition assistant_line (json_loads : string -> exn + val)
    (line s : string) : Prop :=
  startswith "{" (strip line) = true
  /\ exists d,
       json_loads (strip line) = inr (VDict d)
       /\ dict_get d "type" = Some (VStr "message")
       /\ dict_get d "role" = Some (VStr "assistant")
       /\ dict_get_default d "content" (VStr "") = VStr s
       /\ s <> "".

(** A line that is not an "init" event: it is skipped, or fails to decode,
    or decodes to something of another type. *)
Definition not_init (json_loads : string -> exn + val) (line : string)
    : bool :=
  match json_loads (strip line) with
  | inr (VDict d) => negb (has_type d "init")
  | _ => true
  end.

(** A line on which the stream loop cannot raise: it is skipped, or
    [json.loads] raises a decode error on it, or it decodes to an object
    whose "stats", when the type is "result", is absent or an object. *)
Definition line_safe (json_loads : string -> exn + val) (line0 : string)
    : bool :=
  let line := strip line0 in
  if is_empty line || negb (startswith "{" line) then true
  else
    match json_loads line with
    | inl e => is_JSONDecodeError e
    | inr (VDict d) =>
        if has_type d "result" then dict_or_absent (dict_get d "stats")
        else true
    | inr _ => false
    end.

End Schema.

Arguments model_latency {float} model_data.
Arguments model_tokens {float} model_data.
Arguments wf_model {float} model_data.
Arguments is_system {float} m.
Arguments system_first {float} msgs.
Arguments synthesized_id {float} now_ms k.

(* ===================================================================== *)
(** ** Lemmas on the string primitives *)
(* ===================================================================== *)

(* ===================================================================== *)
(** ** The construction of the client: [InternalClient.__init__] *)
(* ===================================================================== *)

Module Construction.

(** [c.lower()] on one character: the capital letters A..Z and the capital
    letters of Latin-1 take their small form. *)
Definition lower_char (c : ascii) : ascii :=
  let n := N_of_ascii c in
  if ((65 <=? n) && (n <=? 90)
      || (192 <=? n) && (n <=? 222) && negb (n =? 215))%N
  then ascii_of_N (n + 32) else c.

(** [s.lower()] *)
Fixpoint lower (s : string) : string :=
  match s with
  | "" => ""
  | String c s' => String (lower_char c) (lower s')
  end.

Section Construction.

Variable float : Type.
Variable fault : Type.

Local Notation ParserStrategy := (Client.ParserStrategy float fault).
Local Notation Transport := (Client.Transport fault).

(** [JSONParser()] as a [ParserStrategy]: [parse] run with the clock having
    been read [t] times; [inject] places a [ParsingError] among the faults
    of the client. *)
Definition JSONParser (float_add : float -> float -> float)
    (float_of_int : Z -> option float) (float_bool : float -> bool)
    (json_loads : string -> exn + value float) (now_ms : nat -> Z)
    (inject : parsing_error -> fault) (t : nat) : ParserStrategy :=
  Client.mkParser
    (fun stdout stderr =>
       match parse float_add float_of_int float_bool json_loads now_ms
                   stdout stderr t with
       | inl e => inl (inject e)
       | inr (messages, _) => inr messages
       end)
    "JSONParser".

(** [_create_parser]: [strategy] is what
    [os.getenv("GEMINI_PARSER_STRATEGY")] answers, [json_parser] stands for
    [JSONParser()] and [llm_parser] for the outcome of [LLMParser()], whose
    class is not among the sources.  The warnings it logs are left out, as
    all logging is. *)
Definition _create_parser (strategy : option string)
    (json_parser : ParserStrategy) (llm_parser : fault + ParserStrategy)
    : ParserStrategy :=
  let parser_type :=
    lower (match strategy with Some v => v | None => "json" end) in
  if (parser_type =? "json")%string then json_parser
  else if (parser_type =? "llm")%string then
    match llm_parser with
    | inr p => p
    | inl _ => json_parser
    end
  else json_parser.

(** An [InternalClient]: its transport and its parser. *)
Record InternalClient : Type := mkClient {
  transport : Transport;
  parser : ParserStrategy
}.

(** [InternalClient.__init__(transport, parser)]: an argument left to [None]
    is replaced, the transport by [SubprocessCLITransport(output_format=
    "json")] (here [default_transport]; the class is not among the sources)
    and the parser by [_create_parser()]. *)
Definition new_client (transport : option Transport)
    (parser : option ParserStrategy) (default_transport : Transport)
    (strategy : option string) (json_parser : ParserStrategy)
    (llm_parser : fault + ParserStrategy) : InternalClient :=
  {| transport := match transport with
                  | Some tr => tr
                  | None => default_transport
                  end;
     parser := match parser with
               | Some p => p
               | None => _create_parser strategy json_parser llm_parser
               end |}.

End Construction.

End Construction.

(* ===================================================================== *)
(** ** Vocabulary of the further properties *)
(* ===================================================================== *)

(** [l.startswith("{") or l.startswith("[")] on a stripped line. *)
Definition json_start (l : string) : bool :=
  startswith "{" l || startswith "[" l.

(** The lines of a text that look like JSON, stripped. *)
Definition json_lines (ls : list string) : list string :=
  filter json_start (map strip ls).

Section MoreVocabulary.

Variable float : Type.

Definition is_dict (v : value float) : bool :=
  match v with VDict _ => true | _ => false end.

(** Every [ResultMessage] of the list has a truthy session id. *)
Definition result_ids_truthy (float_bool : float -> bool)
    (msgs : list (Message float)) : bool :=
  forallb (fun m => match m with
                    | ResultMessage r => truthy float_bool (session_id r)
                    | _ => true
                    end) msgs.

(** The value of a key in the [data] of a [SystemMessage]. *)
Definition system_data (m : Message float) (k : string)
    : option (value float) :=
  match m with
  | SystemMessage _ data => dict_get data k
  | _ => None
  end.

End MoreVocabulary.

Arguments is_dict {float} v.

Unset Implicit Arguments.

Module PyStrFacts.

Lemma is_empty_true (s : string) : is_empty s = true -> s = "".
Proof. destruct s; [reflexivity | discriminate]. Qed.

Lemma rstrip_empty_blank (s : string) : is_empty (rstrip s) = blank s.
Proof.
  induction s as [|c s IH]; simpl; [reflexivity|].
  rewrite IH. destruct (is_space c), (blank s); reflexivity.
Qed.

Lemma lstrip_blank (s : string) : blank s = true -> lstrip s = "".
Proof.
  induction s as [|c s IH]; simpl; [reflexivity|].
  intros H. apply andb_true_iff in H. destruct H as [Hc Hs].
  rewrite Hc. auto.
Qed.

Lemma rstrip_blank (s : string) : blank s = true -> rstrip s = "".
Proof.
  intros H. apply is_empty_true. rewrite rstrip_empty_blank. exact H.
Qed.

Lemma strip_blank (s : string) : blank s = true -> strip s = "".
Proof. intros H. unfold strip. rewrite (lstrip_blank _ H). reflexivity. Qed.

Lemma blank_lstrip (s : string) : blank (lstrip s) = blank s.
Proof.
  induction s as [|c s IH]; simpl; [reflexivity|].
  destruct (is_space c) eqn:Hc; simpl; [exact IH | rewrite Hc; reflexivity].
Qed.

Lemma rstrip_cons (c : ascii) (s : string) :
  rstrip (String c s) = if is_space c && blank s then "" else String c (rstrip s).
Proof. simpl. rewrite rstrip_empty_blank. reflexivity. Qed.

Lemma blank_rstrip (s : string) : blank (rstrip s) = blank s.
Proof.
  induction s as [|c s IH]; [reflexivity|].
  rewrite rstrip_cons.
  destruct (is_space c) eqn:Hc, (blank s) eqn:Hs; simpl;
    rewrite ?Hc, ?Hs, ?IH; simpl; auto.
Qed.

Lemma rstrip_idem (s : string) : rstrip (rstrip s) = rstrip s.
Proof.
  induction s as [|c s IH]; [reflexivity|].
  rewrite rstrip_cons.
  destruct (is_space c && blank s) eqn:E; [reflexivity|].
  rewrite rstrip_cons, blank_rstrip, E, IH. reflexivity.
Qed.

Lemma lstrip_cons (c : ascii) (s : string) :
  lstrip (String c s) = if is_space c then lstrip s else String c s.
Proof. reflexivity. Qed.

(** Stripping on the left and on the right commute. *)
Lemma lstrip_rstrip (s : string) : lstrip (rstrip s) = rstrip (lstrip s).
Proof.
  induction s as [|c s IH]; [reflexivity|].
  rewrite rstrip_cons, lstrip_cons.
  destruct (is_space c) eqn:Hc; cbn [andb].
  - destruct (blank s) eqn:Hs.
    + rewrite (lstrip_blank _ Hs). reflexivity.
    + rewrite lstrip_cons, Hc. exact IH.
  - rewrite lstrip_cons, Hc, rstrip_cons, Hc. reflexivity.
Qed.

(** The strip of a line depends on the line only through its right strip. *)
Lemma strip_of_rstrip (s s' : string) :
  rstrip s = rstrip s' -> strip s = strip s'.
Proof.
  intros H. unfold strip. rewrite <- !lstrip_rstrip. rewrite H. reflexivity.
Qed.

Lemma rstrip_cons_congr (c : ascii) (s s' : string) :
  rstrip s = rstrip s' -> rstrip (String c s) = rstrip (String c s').
Proof. intros H. simpl. rewrite H. reflexivity. Qed.

Lemma split_nl_nonempty (s : string) : split_nl s <> [].
Proof.
  induction s as [|c s IH]; simpl; [discriminate|].
  destruct (c =? LF)%char; [discriminate|].
  destruct (split_nl s); discriminate.
Qed.

Lemma split_nl_cons (c : ascii) (s : string) :
  split_nl (String c s) =
  if (c =? LF)%char then "" :: split_nl s
  else String c (hd "" (split_nl s)) :: tl (split_nl s).
Proof.
  simpl. destruct (c =? LF)%char; [reflexivity|].
  destruct (split_nl s) eqn:E; [|reflexivity].
  exfalso. exact (split_nl_nonempty _ E).
Qed.

Lemma split_nl_hd_tl (s : string) :
  split_nl s = hd "" (split_nl s) :: tl (split_nl s).
Proof.
  destruct (split_nl s) eqn:E; [|reflexivity].
  exfalso. exact (split_nl_nonempty _ E).
Qed.

(** The lines of a text hold no line feed. *)
Lemma split_nl_no_LF (s : string) : forallb no_LF (split_nl s) = true.
Proof.
  induction s as [|c s IH]; [reflexivity|].
  rewrite split_nl_cons. rewrite (split_nl_hd_tl s) in IH.
  simpl in IH. apply andb_true_iff in IH. destruct IH as [Hh Ht].
  destruct (c =? LF)%char eqn:E; simpl.
  - rewrite split_nl_hd_tl. simpl. rewrite Hh, Ht. reflexivity.
  - rewrite E, Hh, Ht. reflexivity.
Qed.

Lemma split_nl_line (l : string) : no_LF l = true -> split_nl l = [l].
Proof.
  induction l as [|c l IH]; [reflexivity|].
  simpl. intros H. apply andb_true_iff in H. destruct H as [Hc Hl].
  destruct (c =? LF)%char; [discriminate|].
  rewrite (IH Hl). reflexivity.
Qed.

Lemma split_nl_app_LF (l s : string) :
  no_LF l = true -> split_nl (l ++ String LF s)%string = l :: split_nl s.
Proof.
  induction l as [|c l IH]; intros H.
  - reflexivity.
  - simpl in H. apply andb_true_iff in H. destruct H as [Hc Hl].
    change (String c l ++ String LF s)%string
      with (String c (l ++ String LF s)%string).
    rewrite split_nl_cons. rewrite (IH Hl).
    destruct (c =? LF)%char; [discriminate | reflexivity].
Qed.

(** Splitting what was joined gives the lines back. *)
Lemma split_join (ls : list string) :
  forallb no_LF ls = true -> ls <> [] -> split_nl (join_nl ls) = ls.
Proof.
  induction ls as [|l ls IH]; intros H Hne; [congruence|].
  simpl in H. apply andb_true_iff in H. destruct H as [Hl Hls].
  destruct ls as [|l' ls'].
  - simpl. apply split_nl_line. exact Hl.
  - change (join_nl (l :: l' :: ls'))
      with (l ++ String LF (join_nl (l' :: ls')))%string.
    rewrite (split_nl_app_LF _ _ Hl). rewrite IH; [reflexivity | exact Hls | discriminate].
Qed.


Lemma brace_lines_cons (l : string) (ls : list string) :
  brace_lines (l :: ls) =
  (if startswith "{" (strip l) then [strip l] else []) ++ brace_lines ls.
Proof.
  unfold brace_lines. simpl. destruct (startswith "{" (strip l)); reflexivity.
Qed.

Lemma blank_split (s : string) :
  blank s = true -> forallb blank (split_nl s) = true.
Proof.
  induction s as [|c s IH]; [reflexivity|].
  intros H. simpl in H. apply andb_true_iff in H. destruct H as [Hc Hs].
  specialize (IH Hs). rewrite split_nl_hd_tl in IH. cbn [forallb] in IH.
  apply andb_true_iff in IH. destruct IH as [Hh Ht].
  rewrite split_nl_cons. destruct (c =? LF)%char; cbn [forallb hd tl blank].
  - rewrite split_nl_hd_tl. cbn [forallb]. rewrite Hh, Ht. reflexivity.
  - rewrite Hc, Hh, Ht. reflexivity.
Qed.

Lemma brace_lines_blank (ls : list string) :
  forallb blank ls = true -> brace_lines ls = [].
Proof.
  induction ls as [|l ls IH]; [reflexivity|].
  simpl. intros H. apply andb_true_iff in H. destruct H as [Hl Hls].
  rewrite brace_lines_cons, (strip_blank _ Hl). simpl. auto.
Qed.

Lemma strip_space_cons (c : ascii) (s : string) :
  is_space c = true -> strip (String c s) = strip s.
Proof. intros H. unfold strip. rewrite lstrip_cons, H. reflexivity. Qed.

(** Stripping the text on the left leaves its brace lines as they are. *)
Lemma brace_lines_lstrip (s : string) :
  brace_lines (split_nl (lstrip s)) = brace_lines (split_nl s).
Proof.
  induction s as [|c s IH]; [reflexivity|].
  rewrite lstrip_cons. destruct (is_space c) eqn:Hc; [|reflexivity].
  rewrite IH, split_nl_cons.
  destruct (c =? LF)%char.
  - rewrite brace_lines_cons. reflexivity.
  - rewrite (split_nl_hd_tl s) at 1.
    rewrite !brace_lines_cons, (strip_space_cons _ _ Hc). reflexivity.
Qed.

Lemma rstrip_split (s : string) :
  rstrip (hd "" (split_nl (rstrip s))) = rstrip (hd "" (split_nl s))
  /\ brace_lines (tl (split_nl (rstrip s))) = brace_lines (tl (split_nl s)).
Proof.
  induction s as [|c s [IHh IHt]]; [split; reflexivity|].
  rewrite rstrip_cons.
  destruct (is_space c && blank s) eqn:E.
  - assert (Hb : blank (String c s) = true) by exact E.
    pose proof (blank_split _ Hb) as Hall.
    rewrite split_nl_hd_tl in Hall. cbn [forallb] in Hall.
    apply andb_true_iff in Hall. destruct Hall as [Hh Ht].
    split.
    + rewrite (rstrip_blank _ Hh). reflexivity.
    + rewrite (brace_lines_blank _ Ht). reflexivity.
  - rewrite !split_nl_cons. destruct (c =? LF)%char; simpl hd; simpl tl.
    + split; [reflexivity|].
      rewrite (split_nl_hd_tl (rstrip s)), (split_nl_hd_tl s).
      rewrite !brace_lines_cons, IHt, (strip_of_rstrip _ _ IHh). reflexivity.
    + split; [apply rstrip_cons_congr; exact IHh | exact IHt].
Qed.

(** Stripping the text on the right leaves its brace lines as they are. *)
Lemma brace_lines_rstrip (s : string) :
  brace_lines (split_nl (rstrip s)) = brace_lines (split_nl s).
Proof.
  destruct (rstrip_split s) as [Hh Ht].
  rewrite (split_nl_hd_tl (rstrip s)), (split_nl_hd_tl s).
  rewrite !brace_lines_cons, Ht, (strip_of_rstrip _ _ Hh). reflexivity.
Qed.

Lemma brace_lines_strip (s : string) :
  brace_lines (split_nl (strip s)) = brace_lines (split_nl s).
Proof. unfold strip. rewrite brace_lines_rstrip. apply brace_lines_lstrip. Qed.

Lemma brace_lines_split_join (ls : list string) :
  forallb no_LF ls = true -> brace_lines (split_nl (join_nl ls)) = brace_lines ls.
Proof.
  intros H. destruct ls as [|l ls']; [reflexivity|].
  rewrite split_join; [reflexivity | exact H | discriminate].
Qed.

End PyStrFacts.
Import PyStrFacts.

(* ===================================================================== *)
(** ** Lemmas on the parser *)
(* ===================================================================== *)

Lemma looks_like_json_brace (l : string) :
  looks_like_json l = false -> startswith "{" (strip l) = false.
Proof.
  unfold looks_like_json. intros H. apply orb_false_iff in H. tauto.
Qed.

(** Once a line was kept, every later line is kept. *)
Lemma clean_loop_started (ls acc : list string) :
  acc <> [] -> clean_loop ls acc = acc ++ ls.
Proof.
  revert acc. induction ls as [|l ls IH]; intros acc Hacc; simpl.
  - rewrite app_nil_r. reflexivity.
  - assert (Hne : acc ++ [l] <> []) by (destruct acc; discriminate).
    destruct (looks_like_json l).
    + rewrite (IH _ Hne), <- app_assoc. reflexivity.
    + destruct acc as [|a acc']; [congruence|].
      rewrite (IH _ Hne), <- app_assoc. reflexivity.
Qed.

Lemma clean_loop_cons (l : string) (ls : list string) :
  clean_loop (l :: ls) [] =
  if looks_like_json l then l :: ls else clean_loop ls [].
Proof.
  simpl. destruct (looks_like_json l); [|reflexivity].
  rewrite clean_loop_started; [reflexivity | discriminate].
Qed.

Lemma clean_loop_no_LF (ls : list string) :
  forallb no_LF ls = true -> forallb no_LF (clean_loop ls []) = true.
Proof.
  induction ls as [|l ls IH]; [reflexivity|].
  intros H. rewrite clean_loop_cons. destruct (looks_like_json l); [exact H|].
  simpl in H. apply andb_true_iff in H. tauto.
Qed.

(** The lines dropped by [_clean_output] are not brace lines. *)
Lemma brace_lines_clean_loop (ls : list string) :
  brace_lines (clean_loop ls []) = brace_lines ls.
Proof.
  induction ls as [|l ls IH]; [reflexivity|].
  rewrite clean_loop_cons. destruct (looks_like_json l) eqn:E; [reflexivity|].
  rewrite IH, brace_lines_cons, (looks_like_json_brace _ E). reflexivity.
Qed.

(** Cleaning, then stripping the cleaned text, keeps the brace lines of the
    raw output. *)
Lemma brace_lines_clean_output (raw : string) :
  brace_lines (split_nl (strip (_clean_output raw))) =
  brace_lines (split_nl raw).
Proof.
  unfold _clean_output.
  rewrite brace_lines_strip, brace_lines_split_join.
  - rewrite brace_lines_clean_loop. apply brace_lines_strip.
  - apply clean_loop_no_LF, split_nl_no_LF.
Qed.

Lemma clean_output_blank (raw : string) :
  is_empty raw || is_empty (strip raw) = true -> _clean_output raw = "".
Proof.
  intros H. assert (Hs : strip raw = "").
  { apply orb_true_iff in H. destruct H as [H | H].
    - apply is_empty_true in H. subst raw. reflexivity.
    - apply is_empty_true. exact H. }
  unfold _clean_output. rewrite Hs. reflexivity.
Qed.

Lemma lstrip_idem (s : string) : lstrip (lstrip s) = lstrip s.
Proof.
  induction s as [|c s IH]; [reflexivity|].
  rewrite lstrip_cons. destruct (is_space c) eqn:Hc; [exact IH|].
  rewrite lstrip_cons, Hc. reflexivity.
Qed.

Lemma strip_idem (s : string) : strip (strip s) = strip s.
Proof.
  unfold strip. rewrite lstrip_rstrip, rstrip_idem, lstrip_idem. reflexivity.
Qed.

Lemma brace_not_empty (l : string) :
  startswith "{" l = true -> is_empty l = false.
Proof. destruct l; [discriminate | reflexivity]. Qed.

(** *** The stream signal of format detection, line by line *)

Lemma prefix_nil (s : string) : prefix "" s = true.
Proof. destruct s; reflexivity. Qed.

Lemma prefix_brace_hd (s : string) :
  startswith "{" s = startswith "{" (hd "" (split_nl s)).
Proof.
  destruct s as [|c s]; [reflexivity|].
  rewrite split_nl_cons. destruct (c =? LF)%char eqn:E.
  - apply Ascii.eqb_eq in E. subst c. reflexivity.
  - unfold startswith. cbn [hd prefix].
    destruct (Ascii.ascii_dec "{" c); [|reflexivity].
    rewrite !prefix_nil. reflexivity.
Qed.

(** A line feed followed by a brace: some line after the first starts with
    a brace. *)
Lemma contains_LF_brace (s : string) :
  contains (String LF "{") s = existsb (startswith "{") (tl (split_nl s)).
Proof.
  induction s as [|c s IH]; [reflexivity|].
  cbn [contains]. rewrite IH, split_nl_cons.
  cbn [prefix].
  destruct (Ascii.ascii_dec LF c) as [e | n].
  - subst c. rewrite Ascii.eqb_refl. cbn [tl].
    rewrite (split_nl_hd_tl s) at 2. cbn [existsb].
    rewrite <- prefix_brace_hd. reflexivity.
  - assert (E : (c =? LF)%char = false)
      by (apply Ascii.eqb_neq; congruence).
    rewrite E. reflexivity.
Qed.

Lemma later_brace_cons (l : string) (ls : list string) :
  later_brace (l :: ls) =
  if looks_like_json l then existsb (startswith "{") ls else later_brace ls.
Proof.
  unfold later_brace. rewrite clean_loop_cons.
  destruct (looks_like_json l); reflexivity.
Qed.

Lemma looks_like_json_space (c : ascii) (l : string) :
  is_space c = true -> looks_like_json (String c l) = looks_like_json l.
Proof.
  intros H. unfold looks_like_json. rewrite (strip_space_cons _ _ H).
  reflexivity.
Qed.

Lemma looks_like_json_rstrip (l l' : string) :
  rstrip l = rstrip l' -> looks_like_json l = looks_like_json l'.
Proof.
  intros H. unfold looks_like_json. rewrite (strip_of_rstrip _ _ H).
  reflexivity.
Qed.

Lemma later_brace_lstrip (s : string) :
  later_brace (split_nl (lstrip s)) = later_brace (split_nl s).
Proof.
  induction s as [|c s IH]; [reflexivity|].
  rewrite lstrip_cons. destruct (is_space c) eqn:Hc; [|reflexivity].
  rewrite IH, split_nl_cons.
  destruct (c =? LF)%char.
  - rewrite later_brace_cons. reflexivity.
  - rewrite (split_nl_hd_tl s) at 1.
    rewrite !later_brace_cons, (looks_like_json_space _ _ Hc). reflexivity.
Qed.

Lemma startswith_brace_blank (l : string) :
  blank l = true -> startswith "{" l = false.
Proof.
  destruct l as [|c l]; [reflexivity|].
  cbn [blank]. intros H. apply andb_true_iff in H. destruct H as [Hc _].
  unfold startswith. cbn [prefix].
  destruct (Ascii.ascii_dec "{" c) as [<-|_]; [discriminate | reflexivity].
Qed.

Lemma existsb_brace_blank (ls : list string) :
  forallb blank ls = true -> existsb (startswith "{") ls = false.
Proof.
  induction ls as [|l ls IH]; [reflexivity|].
  cbn [forallb existsb]. intros H. apply andb_true_iff in H.
  destruct H as [Hl Hls].
  rewrite (startswith_brace_blank _ Hl), (IH Hls). reflexivity.
Qed.

Lemma looks_like_json_blank (l : string) :
  blank l = true -> looks_like_json l = false.
Proof.
  intros H. unfold looks_like_json. rewrite (strip_blank _ H). reflexivity.
Qed.

Lemma later_brace_blank (ls : list string) :
  forallb blank ls = true -> later_brace ls = false.
Proof.
  induction ls as [|l ls IH]; [reflexivity|].
  cbn [forallb]. intros H. apply andb_true_iff in H. destruct H as [Hl Hls].
  rewrite later_brace_cons, (looks_like_json_blank _ Hl). auto.
Qed.

Lemma startswith_brace_rstrip (l : string) :
  startswith "{" (rstrip l) = startswith "{" l.
Proof.
  destruct l as [|c l]; [reflexivity|].
  rewrite rstrip_cons. destruct (is_space c && blank l) eqn:E.
  - apply andb_true_iff in E. destruct E as [Hc _].
    unfold startswith. cbn [prefix].
    destruct (Ascii.ascii_dec "{" c) as [<-|_]; [discriminate | reflexivity].
  - unfold startswith. cbn [prefix].
    destruct (Ascii.ascii_dec "{" c); [|reflexivity].
    rewrite !prefix_nil. reflexivity.
Qed.

Lemma startswith_brace_of_rstrip (l l' : string) :
  rstrip l = rstrip l' -> startswith "{" l = startswith "{" l'.
Proof.
  intros H. rewrite <- (startswith_brace_rstrip l), H.
  apply startswith_brace_rstrip.
Qed.

Lemma rstrip_split_later (s : string) :
  rstrip (hd "" (split_nl (rstrip s))) = rstrip (hd "" (split_nl s))
  /\ existsb (startswith "{") (tl (split_nl (rstrip s)))
     = existsb (startswith "{") (tl (split_nl s))
  /\ later_brace (tl (split_nl (rstrip s))) = later_brace (tl (split_nl s)).
Proof.
  induction s as [|c s (IHh & IHe & IHl)]; [repeat split; reflexivity|].
  rewrite rstrip_cons.
  destruct (is_space c && blank s) eqn:E.
  - assert (Hb : blank (String c s) = true) by exact E.
    pose proof (blank_split _ Hb) as Hall.
    rewrite split_nl_hd_tl in Hall. cbn [forallb] in Hall.
    apply andb_true_iff in Hall. destruct Hall as [Hh Ht].
    repeat split.
    + rewrite (rstrip_blank _ Hh). reflexivity.
    + rewrite (existsb_brace_blank _ Ht). reflexivity.
    + rewrite (later_brace_blank _ Ht). reflexivity.
  - rewrite !split_nl_cons. destruct (c =? LF)%char; cbn [hd tl].
    + split; [reflexivity|].
      rewrite (split_nl_hd_tl (rstrip s)), (split_nl_hd_tl s).
      split.
      * cbn [existsb].
        rewrite IHe, (startswith_brace_of_rstrip _ _ IHh). reflexivity.
      * rewrite !later_brace_cons, IHe, IHl,
          (looks_like_json_rstrip _ _ IHh). reflexivity.
    + split; [apply rstrip_cons_congr; exact IHh|].
      split; assumption.
Qed.

Lemma later_brace_rstrip (s : string) :
  later_brace (split_nl (rstrip s)) = later_brace (split_nl s).
Proof.
  destruct (rstrip_split_later s) as (Hh & He & Hl).
  rewrite (split_nl_hd_tl (rstrip s)), (split_nl_hd_tl s).
  rewrite !later_brace_cons, He, Hl, (looks_like_json_rstrip _ _ Hh).
  reflexivity.
Qed.

Lemma later_brace_strip (s : string) :
  later_brace (split_nl (strip s)) = later_brace (split_nl s).
Proof. unfold strip. rewrite later_brace_rstrip. apply later_brace_lstrip. Qed.

(** The cleaned text holds a line feed followed by a brace exactly when,
    among the lines of the raw output, one that starts with a brace comes
    after one that looks like JSON. *)
Lemma contains_clean_output (raw : string) :
  contains (String LF "{") (_clean_output raw) = later_brace (split_nl raw).
Proof.
  rewrite contains_LF_brace. unfold _clean_output.
  rewrite <- later_brace_strip. unfold later_brace.
  destruct (clean_loop (split_nl (strip raw)) []) as [|k ks] eqn:E;
    [reflexivity|].
  rewrite split_join; [reflexivity| |discriminate].
  rewrite <- E. apply clean_loop_no_LF, split_nl_no_LF.
Qed.

Lemma later_brace_existsb (ls : list string) :
  later_brace ls = true -> existsb (startswith "{") ls = true.
Proof.
  induction ls as [|l ls IH]; [discriminate|].
  rewrite later_brace_cons. cbn [existsb].
  destruct (looks_like_json l); intros H;
    [rewrite H | rewrite (IH H)]; apply orb_true_r.
Qed.

(** One more line, wherever it is put, does not remove the stream signal. *)
Lemma later_brace_insert (pre post : list string) (c : string) :
  later_brace (pre ++ post) = true -> later_brace (pre ++ c :: post) = true.
Proof.
  induction pre as [|p pre IH]; cbn [app].
  - intros H. rewrite later_brace_cons.
    destruct (looks_like_json c); [apply later_brace_existsb|]; exact H.
  - rewrite !later_brace_cons. destruct (looks_like_json p); [|exact IH].
    rewrite !existsb_app. cbn [existsb]. intros H.
    apply orb_true_iff in H. destruct H as [H | H]; rewrite H;
      rewrite ?orb_true_r; reflexivity.
Qed.

Lemma lift_inr {A} (r : exn + A) (t : nat) (a : A) (t' : nat) :
  lift r t = inr (a, t') -> r = inr a /\ t' = t.
Proof.
  destruct r as [e | a']; [discriminate|].
  unfold lift, ret. intros H. injection H as -> ->. split; reflexivity.
Qed.

Section ParserFacts.

Variable float : Type.
Variable float_add : float -> float -> float.
Variable float_of_int : Z -> option float.
Variable float_bool : float -> bool.
Variable json_loads : string -> exn + value float.
Variable now_ms : nat -> Z.

Local Notation Msg := (Message float).
Local Notation state := (list (Message float) * value float)%type.
Local Notation stream_event' := (stream_event float_bool json_loads now_ms).
Local Notation stream_step' := (stream_step float_bool json_loads now_ms).
Local Notation stream_loop' := (stream_loop float_bool json_loads now_ms).
Local Notation parse_stream' :=
  (_parse_stream_json float_bool json_loads now_ms).
Local Notation parse_single' :=
  (_parse_single_json float_add float_of_int float_bool json_loads now_ms).
Local Notation parse_as' :=
  (parse_as float_add float_of_int float_bool json_loads now_ms).
Local Notation parse' :=
  (parse float_add float_of_int float_bool json_loads now_ms).

(** A line that is not a brace line leaves the state of the loop as it is. *)
Lemma stream_step_skip (st : state) (l : string) (t : nat) :
  startswith "{" (strip l) = false -> stream_step' st l t = inr (st, t).
Proof.
  intros H. unfold stream_step. rewrite H, orb_true_r. reflexivity.
Qed.

Lemma stream_step_brace (st : state) (l : string) (t : nat) :
  startswith "{" (strip l) = true ->
  stream_step' st l t = stream_event' st (strip l) t.
Proof.
  intros H. unfold stream_step. rewrite H, (brace_not_empty _ H). reflexivity.
Qed.

(** The loop only sees the brace lines of its input. *)
Lemma stream_loop_brace_lines (ls : list string) (st : state) (t : nat) :
  stream_loop' ls st t = stream_loop' (brace_lines ls) st t.
Proof.
  revert st t. induction ls as [|l ls IH]; intros st t; [reflexivity|].
  rewrite brace_lines_cons. destruct (startswith "{" (strip l)) eqn:E.
  - cbn [app stream_loop]. unfold bind.
    rewrite !stream_step_brace by (rewrite ?strip_idem; exact E).
    rewrite strip_idem.
    destruct (stream_event' st (strip l) t) as [e | [st' t']]; [reflexivity|].
    apply IH.
  - cbn [app stream_loop]. unfold bind at 1.
    rewrite (stream_step_skip _ _ _ E). apply IH.
Qed.

Lemma stream_loop_app (l1 l2 : list string) (st : state) (t : nat) :
  stream_loop' (l1 ++ l2) st t =
  bind (stream_loop' l1 st) (stream_loop' l2) t.
Proof.
  revert st t. induction l1 as [|l l1 IH]; intros st t; [reflexivity|].
  cbn [app stream_loop]. unfold bind.
  destruct (stream_step' st l t) as [e | [st' t']]; [reflexivity|].
  rewrite IH. reflexivity.
Qed.

(** [parse] is the dispatch on the detected format, also where it returns
    early: an empty cleaned text runs through the stream loop to no message. *)
Lemma parse_dispatch (raw stderr : string) (t : nat) :
  parse' raw stderr t =
  wrap_error raw
    (parse_as' (detect_format (_clean_output raw)) (_clean_output raw) t).
Proof.
  unfold parse.
  destruct (is_empty raw || is_empty (strip raw)) eqn:E.
  - rewrite (clean_output_blank _ E). reflexivity.
  - destruct (is_empty (_clean_output raw)) eqn:E'.
    + apply is_empty_true in E'. rewrite E'. reflexivity.
    + reflexivity.
Qed.

(** In stream mode the messages are those of the loop run over the brace
    lines of the raw output. *)
Lemma parse_stream_lines (raw stderr : string) (t : nat) :
  detect_format (_clean_output raw) = StreamJSON ->
  parse' raw stderr t =
  wrap_error raw
    (bind (stream_loop' (brace_lines (split_nl raw)) ([], VNone))
          (fun st => ret (fst st)) t).
Proof.
  intros H. rewrite parse_dispatch, H. cbn [parse_as].
  unfold _parse_stream_json. f_equal. unfold bind.
  rewrite stream_loop_brace_lines, brace_lines_clean_output. reflexivity.
Qed.

End ParserFacts.

(** *** Slices *)

Lemma take_length (n : nat) (s : string) :
  String.length (take n s) = Nat.min n (String.length s).
Proof.
  revert s. induction n as [|n IH]; intros s; [reflexivity|].
  destruct s as [|c s]; [reflexivity|].
  cbn [take String.length Nat.min]. rewrite IH. reflexivity.
Qed.

Lemma take_prefix (n : nat) (s : string) : prefix (take n s) s = true.
Proof.
  revert s. induction n as [|n IH]; intros s.
  - destruct s; reflexivity.
  - destruct s as [|c s]; [reflexivity|].
    cbn [take prefix].
    destruct (Ascii.ascii_dec c c) as [_|N]; [apply IH | congruence].
Qed.

Lemma take_all (n : nat) (s : string) :
  (String.length s <= n)%nat -> take n s = s.
Proof.
  revert s. induction n as [|n IH]; intros s H.
  - destruct s; [reflexivity | cbn in H; lia].
  - destruct s as [|c s]; [reflexivity|].
    cbn [take]. rewrite IH; [reflexivity | cbn in H; lia].
Qed.

(* ===================================================================== *)
(** ** Properties of [parse] *)
(* ===================================================================== *)

Section ParseProperties.

Variable float : Type.
Variable float_add : float -> float -> float.
Variable float_of_int : Z -> option float.
Variable float_bool : float -> bool.
Variable json_loads : string -> exn + value float.
Variable now_ms : nat -> Z.

Local Notation state := (list (Message float) * value float)%type.
Local Notation dict := (list (string * value float)).
Local Notation stream_event' := (stream_event float_bool json_loads now_ms).
Local Notation stream_step' := (stream_step float_bool json_loads now_ms).
Local Notation stream_loop' := (stream_loop float_bool json_loads now_ms).
Local Notation parse_stream' :=
  (_parse_stream_json float_bool json_loads now_ms).
Local Notation parse_single' :=
  (_parse_single_json float_add float_of_int float_bool json_loads now_ms).
Local Notation parse' :=
  (parse float_add float_of_int float_bool json_loads now_ms).
Local Notation sum_models' := (sum_models float_add float_of_int).
Local Notation add_model' := (add_model float_add float_of_int).
Local Notation synthesized := (@synthesized_id float now_ms).

(** *** Format detection *)


(** *** Independence of stderr *)

(** C9.  The result of [parse] does not depend on its [stderr] argument: with
    the same stdout, and the clock read from the same point, any two stderr
    texts give the same outcome. *)
Theorem parse_ignores_stderr (raw stderr1 stderr2 : string) (t : nat) :
  parse float_add float_of_int float_bool json_loads now_ms raw stderr1 t =
  parse float_add float_of_int float_bool json_loads now_ms raw stderr2 t.
Proof.
  unfold parse.
  destruct (is_empty raw || is_empty (strip raw)); [reflexivity|].
  destruct (is_empty (_clean_output raw)); reflexivity.
Qed.

(** *** Lines of type "message" *)

Lemma stream_step_message (messages : list (Message float))
    (session_id : value float) (line : string) (d : dict) (t : nat) :
  startswith "{" (strip line) = true ->
  json_loads (strip line) = inr (VDict d) ->
  dict_get d "type" = Some (VStr "message") ->
  let content := dict_get_default d "content" (VStr "") in
  (dict_get d "role" = Some (VStr "user") ->
   stream_step' (messages, session_id) line t =
   inr ((messages ++ [UserMessage content], session_id), t))
  /\ (dict_get d "role" = Some (VStr "assistant") ->
      forall s, content = VStr s ->
      stream_step' (messages, session_id) line t =
      inr ((messages ++
            (if is_empty s then []
             else [AssistantMessage [TextBlock (VStr s)]]),
            session_id), t)).
Proof.
  intros Hb Hd Hty content.
  rewrite stream_step_brace by exact Hb.
  unfold stream_event. rewrite Hd.
  unfold bind, lift, ret, py_get, dict_get_default. rewrite Hty.
  cbn [py_eq_str String.eqb Ascii.eqb Bool.eqb].
  split; intros Hrole.
  - rewrite Hrole. reflexivity.
  - intros s Hs. rewrite Hrole.
    cbn [py_eq_str String.eqb Ascii.eqb Bool.eqb].
    fold (dict_get_default d "content" (VStr "")). fold content.
    rewrite Hs. destruct s; simpl; [rewrite app_nil_r|]; reflexivity.
Qed.

(** C8.  For a stream-JSON line of type "message": with role "user" the loop
    appends one [UserMessage] carrying the content of the payload, whatever
    that content is; with role "assistant" it appends one [AssistantMessage]
    with one [TextBlock] exactly when the content string is not empty.  The
    payload is any object with these fields, so a "delta" flag changes
    nothing; the messages already produced are left as they are, and a run
    of assistant lines gives one message per line. *)
Theorem stream_message_line :
  (forall (messages : list (Message float)) (session_id : value float)
          (line : string) (d : dict) (t : nat),
      startswith "{" (strip line) = true ->
      json_loads (strip line) = inr (VDict d) ->
      dict_get d "type" = Some (VStr "message") ->
      let content := dict_get_default d "content" (VStr "") in
      (dict_get d "role" = Some (VStr "user") ->
       stream_step float_bool json_loads now_ms (messages, session_id) line t
       = inr ((messages ++ [UserMessage content], session_id), t))
      /\ (dict_get d "role" = Some (VStr "assistant") ->
          forall s, content = VStr s ->
          stream_step float_bool json_loads now_ms (messages, session_id)
            line t =
          inr ((messages ++
                (if is_empty s then []
                 else [AssistantMessage [TextBlock (VStr s)]]),
                session_id), t)))
  /\ (forall (lines contents : list string)
             (messages : list (Message float)) (session_id : value float)
             (t : nat),
         Forall2 (assistant_line json_loads) lines contents ->
         stream_loop float_bool json_loads now_ms lines
           (messages, session_id) t =
         inr ((messages ++
               map (fun s => AssistantMessage [TextBlock (VStr s)]) contents,
               session_id), t)).
Proof.
  split; [exact stream_step_message|].
  intros lines contents messages session_id t H. revert messages.
  induction H as [|line s lines contents Hline _ IH]; intros messages.
  - cbn. rewrite app_nil_r. reflexivity.
  - destruct Hline as (Hb & d & Hd & Hty & Hrole & Hc & Hs).
    cbn [stream_loop map]. unfold bind.
    rewrite (proj2 (stream_step_message messages session_id line d t
                      Hb Hd Hty) Hrole s Hc).
    destruct s as [|c s']; [congruence|]. cbn [is_empty].
    rewrite IH, <- app_assoc. reflexivity.
Qed.

(** *** Single-JSON payloads *)

Lemma add_model_wf (a b : Z) (item : string * value float) :
  wf_model (snd item) = true ->
  add_model' (VInt a, VInt b) item =
  inr (VInt (a + model_latency (snd item)),
       VInt (b + model_tokens (snd item))).
Proof.
  destruct item as [k md]. cbn [snd].
  destruct md as [| | | | | |m]; try discriminate.
  unfold wf_model, add_model, model_latency, model_tokens, py_get,
    dict_get_default, int_or_absent.
  cbn [snd].
  destruct (dict_get m "api") as [[| | | | | |a']|];
    destruct (dict_get m "tokens") as [[| | | | | |b']|];
    try discriminate;
    try destruct (dict_get a' "totalLatencyMs") as [[]|];
    try destruct (dict_get b' "total") as [[]|];
    try discriminate; reflexivity.
Qed.

Lemma sum_models_wf (items : dict) (a b : Z) :
  forallb (fun item => wf_model (snd item)) items = true ->
  sum_models' items (VInt a, VInt b) =
  inr (VInt (a + sum_over model_latency items),
       VInt (b + sum_over model_tokens items)).
Proof.
  revert a b. induction items as [|item items IH]; intros a b H.
  - simpl. rewrite !Z.add_0_r. reflexivity.
  - cbn [forallb] in H. apply andb_true_iff in H. destruct H as [Hi Hr].
    cbn [sum_models]. rewrite (add_model_wf _ _ _ Hi), (IH _ _ Hr).
    cbn [sum_over fold_right]. rewrite !Z.add_assoc. reflexivity.
Qed.

(** On a well-formed payload whose response is a string (or is absent, which
    reads as the empty string) the single-JSON decoder returns. *)
Lemma parse_single_wf (json_str : string) (d : dict) (s : string) (t : nat) :
  json_loads json_str = inr (VDict d) ->
  wf_payload d = true ->
  dict_get_default d "response" (VStr "") = VStr s ->
  parse_single' json_str t =
  inr ((if is_empty s then []
        else [AssistantMessage [TextBlock (VStr s)]])
       ++ [ResultMessage (single_result now_ms d s t)], S t).
Proof.
  intros Hd Hwf Hresp.
  unfold _parse_single_json, bind. rewrite Hd.
  cbn [lift ret py_get]. rewrite Hresp.
  unfold single_result, wf_payload, payload_models, payload_tool_calls in *.
  unfold dict_get_default.
  destruct (dict_get d "stats") as [[| | | | | |st]|]; try discriminate.
  - cbn [lift ret py_get]. unfold dict_get_default.
    apply andb_true_iff in Hwf. destruct Hwf as [Hms Hts].
    destruct (dict_get st "models") as [[| | | | | |ms]|]; try discriminate.
    + cbn [lift ret py_items]. rewrite (sum_models_wf _ _ _ Hms).
      cbn [lift ret].
      destruct (dict_get st "tools") as [[| | | | | |ts]|]; try discriminate;
        destruct s; reflexivity.
    + cbn [lift ret py_items sum_models].
      destruct (dict_get st "tools") as [[| | | | | |ts]|]; try discriminate;
        destruct s; reflexivity.
  - destruct s; reflexivity.
Qed.

(** What a returning single-JSON parse looks like: the payload was an
    object, the last message is a [ResultMessage] without cost, and its
    [result] is the slice of a truthy response. *)
Lemma parse_single_inv (json_str : string) (t : nat)
    (msgs : list (Message float)) (t' : nat) :
  parse_single' json_str t = inr (msgs, t') ->
  exists d r,
    json_loads json_str = inr (VDict d)
    /\ msgs = (if truthy float_bool (dict_get_default d "response" (VStr ""))
               then [AssistantMessage
                       [TextBlock (dict_get_default d "response" (VStr ""))]]
               else []) ++ [ResultMessage r]
    /\ total_cost_usd r = None
    /\ (if truthy float_bool (dict_get_default d "response" (VStr ""))
        then py_slice100 (dict_get_default d "response" (VStr ""))
        else inr VNone) = inr (result r).
Proof.
  unfold _parse_single_json, bind. intros H.
  destruct (json_loads json_str) as [e | data].
  { destruct e; discriminate. }
  destruct data as [| | | | | |d]; try discriminate.
  cbn [lift ret py_get] in H.
  repeat match type of H with
         | match ?x with _ => _ end = inr _ =>
             let E := fresh "E" in destruct x as [? | [? ?]] eqn:E;
             [discriminate|]
         | (let '(_, _) := ?p in _) _ = inr _ => destruct p
         end.
  injection H as Hm Ht.
  eexists d, _. split; [reflexivity|]. split; [symmetry; exact Hm|].
  split; [reflexivity|]. cbn [result].
  match goal with
  | E : lift ?x _ = inr (?v, _) |- ?x = inr ?v =>
      apply lift_inr in E; destruct E as [E _]; exact E
  end.
Qed.

Lemma parse_single_response (raw stderr : string) (d : dict) (s : string)
    (t : nat) :
  let cleaned := _clean_output raw in
  startswith "{" (strip cleaned) = true ->
  contains (String LF "{") cleaned = false ->
  json_loads cleaned = inr (VDict d) ->
  wf_payload d = true ->
  dict_get d "response" = Some (VStr s) ->
  s <> "" ->
  parse' raw stderr t =
  inr ([AssistantMessage [TextBlock (VStr s)];
        ResultMessage (single_result now_ms d s t)], S t).
Proof.
  intros cleaned Hb Hc Hd Hwf Hr Hs.
  rewrite parse_dispatch. fold cleaned.
  unfold detect_format. rewrite Hb, Hc. cbn [andb negb parse_as].
  rewrite (parse_single_wf _ _ s _ Hd Hwf).
  - destruct s; [congruence | reflexivity].
  - unfold dict_get_default. rewrite Hr. reflexivity.
Qed.

(** C6.  For every single-JSON payload: whenever [_parse_single_json]
    returns, its last message is a [ResultMessage] whose [total_cost_usd] is
    absent and whose [result] is absent when the response text is empty and
    otherwise is the first 100 characters of that text: a string that the
    response starts with and whose length is the smaller of 100 and the
    length of the response, hence the whole response when it has at most 100
    characters; and on every well-formed payload whose response is a string
    it does return such a message. *)
Theorem single_json_result_field (json_str : string) (t : nat) :
  (forall msgs t',
      parse_single' json_str t = inr (msgs, t') ->
      exists d pre r,
        json_loads json_str = inr (VDict d)
        /\ msgs = pre ++ [ResultMessage r]
        /\ total_cost_usd r = None
        /\ forall s, dict_get_default d "response" (VStr "") = VStr s ->
              (s = "" -> result r = VNone)
              /\ (s <> "" ->
                  exists x,
                    result r = VStr x
                    /\ String.length x = Nat.min 100 (String.length s)
                    /\ prefix x s = true
                    /\ ((String.length s <= 100)%nat -> x = s)))
  /\ (forall d s,
         json_loads json_str = inr (VDict d) ->
         wf_payload d = true ->
         dict_get_default d "response" (VStr "") = VStr s ->
         exists pre r,
           parse_single' json_str t = inr (pre ++ [ResultMessage r], S t)
           /\ total_cost_usd r = None
           /\ (s = "" -> result r = VNone)
           /\ (s <> "" ->
               exists x,
                 result r = VStr x
                 /\ String.length x = Nat.min 100 (String.length s)
                 /\ prefix x s = true
                 /\ ((String.length s <= 100)%nat -> x = s))).
Proof.
  assert (Hslice : forall (s : string) (v : value float),
             v = (if is_empty s then VNone else VStr (take 100 s)) ->
             (s = "" -> v = VNone)
             /\ (s <> "" ->
                 exists x,
                   v = VStr x
                   /\ String.length x = Nat.min 100 (String.length s)
                   /\ prefix x s = true
                   /\ ((String.length s <= 100)%nat -> x = s))).
  { intros s v Hv. split.
    - intros ->. exact Hv.
    - intros Hne. destruct s as [|c s]; [congruence|].
      exists (take 100 (String c s)). split; [exact Hv|].
      split; [apply take_length|].
      split; [apply take_prefix | apply take_all]. }
  split.
  - intros msgs t' H.
    destruct (parse_single_inv _ _ _ _ H) as (d & r & Hd & Hm & Hc & Hr).
    exists d. eexists. exists r.
    split; [exact Hd|]. split; [exact Hm|]. split; [exact Hc|].
    intros s Hs. apply Hslice. rewrite Hs in Hr.
    destruct s; cbn [truthy is_empty negb py_slice100] in Hr |- *;
      injection Hr as Hr; symmetry; exact Hr.
  - intros d s Hd Hwf Hs.
    eexists _, _. split; [exact (parse_single_wf _ _ _ _ Hd Hwf Hs)|].
    split; [reflexivity|].
    apply Hslice. reflexivity.
Qed.

End ParseProperties.

(** C1.  For every output that format detection reads as single JSON (the
    cleaned text starts with a brace and holds no line feed followed by a
    brace) and whose cleaned text decodes to a well-formed payload with a
    non-empty string "response", [parse] yields exactly one
    [AssistantMessage] holding one [TextBlock] with the response text,
    followed by exactly one [ResultMessage] with [is_error = false], whose
    [duration_ms] is the sum over all models of [api.totalLatencyMs] and
    whose [usage.total_tokens] is the sum over all models of [tokens.total];
    for the stdout of the example scenario this is the text "Hello!", 120 ms
    and 42 tokens.  The condition on format detection cannot be dropped: a
    well-formed payload printed on several lines, one of which starts with
    a brace, is read as a stream. *)
Theorem single_json_response :
  (forall (float : Type) (float_add : float -> float -> float)
          (float_of_int : Z -> option float) (float_bool : float -> bool)
          (json_loads : string -> exn + value float) (now_ms : nat -> Z)
          (raw stderr : string) (d : list (string * value float))
          (s : string) (t : nat),
      let cleaned := _clean_output raw in
      startswith "{" (strip cleaned) = true ->
      contains (String LF "{") cleaned = false ->
      json_loads cleaned = inr (VDict d) ->
      wf_payload d = true ->
      dict_get d "response" = Some (VStr s) ->
      s <> "" ->
      parse float_add float_of_int float_bool json_loads now_ms raw stderr t =
      inr ([AssistantMessage [TextBlock (VStr s)];
            ResultMessage
              {| subtype := VStr "success";
                 duration_ms :=
                   VInt (sum_over model_latency (payload_models d));
                 is_error := false;
                 session_id := synthesized_id now_ms t;
                 num_turns := 1;
                 total_cost_usd := None;
                 usage :=
                   Some [("total_tokens",
                          VInt (sum_over model_tokens (payload_models d)));
                         ("tool_calls", payload_tool_calls d);
                         ("models", VDict (payload_models d))];
                 result := VStr (take 100 s) |}], S t))
  /\ (forall (now_ms : nat -> Z) (t : nat),
         Ref.parse now_ms Ref.hello_stdout "" t =
         inr ([AssistantMessage [TextBlock (VStr "Hello!")];
               ResultMessage
                 {| subtype := VStr "success";
                    duration_ms := VInt 120;
                    is_error := false;
                    session_id := synthesized_id now_ms t;
                    num_turns := 1;
                    total_cost_usd := None;
                    usage :=
                      Some [("total_tokens", VInt 42);
                            ("tool_calls", VInt 0);
                            ("models", VDict Ref.hello_models)];
                    result := VStr "Hello!" |}], S t)).
Proof.
  assert (Hgen : forall (float : Type) float_add float_of_int float_bool
                        json_loads now_ms raw stderr
                        (d : list (string * value float)) s t,
             startswith "{" (strip (_clean_output raw)) = true ->
             contains (String LF "{") (_clean_output raw) = false ->
             json_loads (_clean_output raw) = inr (VDict d) ->
             wf_payload d = true ->
             dict_get d "response" = Some (VStr s) ->
             s <> "" ->
             parse float_add float_of_int float_bool json_loads now_ms
                   raw stderr t =
             inr ([AssistantMessage [TextBlock (VStr s)];
                   ResultMessage (single_result now_ms d s t)], S t)).
  { intros. apply parse_single_response; assumption. }
  split.
  - intros float fa fi fb jl now_ms raw stderr d s t cleaned Hb Hc Hd Hwf Hr Hs.
    rewrite (Hgen float fa fi fb jl now_ms raw stderr d s t Hb Hc Hd Hwf Hr Hs).
    unfold single_result. destruct s; [congruence | reflexivity].
  - intros now_ms t. unfold Ref.parse.
    assert (H1 : startswith "{" (strip (_clean_output Ref.hello_stdout)) = true)
      by (vm_compute; reflexivity).
    assert (H2 : contains (String LF "{") (_clean_output Ref.hello_stdout)
                 = false)
      by (vm_compute; reflexivity).
    assert (H3 : Ref.json_loads (_clean_output Ref.hello_stdout)
                 = inr (VDict Ref.hello_payload))
      by (vm_compute; reflexivity).
    assert (H4 : wf_payload Ref.hello_payload = true)
      by (vm_compute; reflexivity).
    assert (H5 : dict_get Ref.hello_payload "response" = Some (VStr "Hello!"))
      by (vm_compute; reflexivity).
    assert (H6 : "Hello!" <> "") by discriminate.
    rewrite (Hgen _ Ref.float_add Ref.float_of_int Ref.float_bool
                  Ref.json_loads now_ms Ref.hello_stdout "" Ref.hello_payload
                  "Hello!" t H1 H2 H3 H4 H5 H6).
    reflexivity.
Qed.

(** The example scenario behind a banner line, as the CLI prints it in YOLO
    mode. *)
Lemma single_json_response_witness :
  let raw := join_nl ["YOLO mode is enabled."; Ref.hello_stdout] in
  startswith "{" (strip (_clean_output raw)) = true
  /\ contains (String LF "{") (_clean_output raw) = false
  /\ Ref.json_loads (_clean_output raw) = inr (VDict Ref.hello_payload)
  /\ wf_payload Ref.hello_payload = true
  /\ dict_get Ref.hello_payload "response" = Some (VStr "Hello!")
  /\ "Hello!" <> ""
  /\ exists r, Ref.parse Ref.frozen raw "" 0 =
               inr ([AssistantMessage [TextBlock (VStr "Hello!")];
                     ResultMessage r], 1%nat)
               /\ is_error r = false.
Proof.
  intros raw.
  assert (H1 : startswith "{" (strip (_clean_output raw)) = true)
    by (vm_compute; reflexivity).
  assert (H2 : contains (String LF "{") (_clean_output raw) = false)
    by (vm_compute; reflexivity).
  assert (H3 : Ref.json_loads (_clean_output raw)
               = inr (VDict Ref.hello_payload))
    by (vm_compute; reflexivity).
  assert (H4 : wf_payload Ref.hello_payload = true)
    by (vm_compute; reflexivity).
  assert (H5 : dict_get Ref.hello_payload "response" = Some (VStr "Hello!"))
    by (vm_compute; reflexivity).
  assert (H6 : "Hello!" <> "") by discriminate.
  repeat (split; [assumption|]).
  eexists. split.
  - exact (proj1 single_json_response _ Ref.float_add Ref.float_of_int
             Ref.float_bool Ref.json_loads Ref.frozen raw ""
             Ref.hello_payload "Hello!" 0%nat H1 H2 H3 H4 H5 H6).
  - reflexivity.
Defined.

(* ===================================================================== *)
(** ** Properties of the stream loop *)
(* ===================================================================== *)

Section StreamProperties.

Variable float : Type.
Variable float_add : float -> float -> float.
Variable float_of_int : Z -> option float.
Variable float_bool : float -> bool.
Variable json_loads : string -> exn + value float.
Variable now_ms : nat -> Z.

Local Notation state := (list (Message float) * value float)%type.
Local Notation dict := (list (string * value float)).
Local Notation stream_event' := (stream_event float_bool json_loads now_ms).
Local Notation stream_step' := (stream_step float_bool json_loads now_ms).
Local Notation stream_loop' := (stream_loop float_bool json_loads now_ms).
Local Notation parse_stream' :=
  (_parse_stream_json float_bool json_loads now_ms).
Local Notation parse_single' :=
  (_parse_single_json float_add float_of_int float_bool json_loads now_ms).
Local Notation parse' :=
  (parse float_add float_of_int float_bool json_loads now_ms).
Local Notation synthesized := (@synthesized_id float now_ms).
Local Notation truthy' := (truthy float_bool).

Lemma stream_event_frame (messages : list (Message float))
    (sid : value float) (l : string) (t : nat) :
  stream_event' (messages, sid) l t =
  on_top messages (stream_event' ([], sid) l t).
Proof.
  unfold stream_event.
  destruct (json_loads l) as [e | data].
  { destruct e; cbn; rewrite ?app_nil_r; reflexivity. }
  destruct data as [| | | | | |d]; try reflexivity.
  unfold bind, session_id_or_generate, _generate_session_id.
  cbn [lift ret py_get].
  repeat match goal with
         | |- context [if ?c then _ else _] => destruct c
         | |- context [py_get (dict_get_default ?d ?k ?v) _ _] =>
             destruct (dict_get_default d k v); cbn [lift ret raise py_get]
         end;
    cbn; rewrite ?app_nil_r; reflexivity.
Qed.


Lemma stream_step_frame (messages : list (Message float))
    (sid : value float) (l : string) (t : nat) :
  stream_step' (messages, sid) l t =
  on_top messages (stream_step' ([], sid) l t).
Proof.
  unfold stream_step.
  destruct (is_empty (strip l) || negb (startswith "{" (strip l))).
  - cbn. rewrite app_nil_r. reflexivity.
  - apply stream_event_frame.
Qed.

Lemma on_top_app (m1 m2 : list (Message float))
    (r : exn + (state * nat)) :
  on_top m1 (on_top m2 r) = on_top (m1 ++ m2) r.
Proof.
  destruct r as [e | [[new sid] t]]; [reflexivity|].
  cbn. rewrite app_assoc. reflexivity.
Qed.

Lemma stream_loop_frame (ls : list string) (messages : list (Message float))
    (sid : value float) (t : nat) :
  stream_loop' ls (messages, sid) t =
  on_top messages (stream_loop' ls ([], sid) t).
Proof.
  revert messages sid t.
  induction ls as [|l ls IH]; intros messages sid t.
  - cbn. rewrite app_nil_r. reflexivity.
  - cbn [stream_loop]. unfold bind.
    rewrite stream_step_frame.
    destruct (stream_step' ([], sid) l t) as [e | [[new sid'] t']];
      [reflexivity|].
    cbn [on_top]. rewrite IH, (IH new), on_top_app. reflexivity.
Qed.

(** An "init" line reads the clock once, captures the session id of the
    payload (or the id just synthesized) and appends a [SystemMessage]. *)
Lemma stream_step_init (messages : list (Message float))
    (sid : value float) (l : string) (d : dict) (t : nat) :
  startswith "{" (strip l) = true ->
  json_loads (strip l) = inr (VDict d) ->
  has_type d "init" = true ->
  let captured := dict_get_default d "session_id" (synthesized t) in
  stream_step' (messages, sid) l t =
  inr ((messages ++ [init_system_message d captured], captured), S t).
Proof.
  intros Hb Hd Hty captured.
  rewrite stream_step_brace by exact Hb.
  unfold stream_event. rewrite Hd.
  unfold bind. cbn [lift ret py_get].
  unfold has_type in Hty. rewrite Hty. reflexivity.
Qed.

Lemma has_type_exclusive (d : dict) (a b : string) :
  has_type d a = true -> (a =? b)%string = false -> has_type d b = false.
Proof.
  unfold has_type, py_eq_str.
  destruct (dict_get_default d "type" VNone); try discriminate.
  intros H Hab. apply String.eqb_eq in H. subst s. exact Hab.
Qed.

(** A "result" or "error" line appends one [ResultMessage]; its session id
    is the one the loop holds when that is truthy, and otherwise an id
    synthesized from a fresh reading of the clock. *)
Lemma stream_step_result (messages : list (Message float))
    (sid : value float) (l : string) (d : dict) (t : nat) :
  startswith "{" (strip l) = true ->
  json_loads (strip l) = inr (VDict d) ->
  (has_type d "result" = true /\ dict_or_absent (dict_get d "stats") = true)
  \/ has_type d "error" = true ->
  exists r,
    stream_step' (messages, sid) l t =
    inr ((messages ++ [ResultMessage r], sid),
         if truthy' sid then t else S t)
    /\ session_id r = if truthy' sid then sid else synthesized t.
Proof.
  intros Hb Hd Hty.
  rewrite stream_step_brace by exact Hb.
  unfold stream_event. rewrite Hd.
  unfold bind, session_id_or_generate, _generate_session_id.
  cbn [lift ret py_get].
  destruct Hty as [[Hty Hst] | Hty].
  - rewrite (has_type_exclusive d "result" "init" Hty eq_refl : py_eq_str _ _ = _).
    rewrite (has_type_exclusive d "result" "message" Hty eq_refl : py_eq_str _ _ = _).
    unfold has_type in Hty. rewrite Hty.
    unfold dict_get_default at 1 2 3 4 5.
    destruct (dict_get d "stats") as [[| | | | | |st]|];
      try discriminate; cbn [lift ret py_get];
      destruct (truthy' sid); cbn [ret]; eexists; split; reflexivity.
  - rewrite (has_type_exclusive d "error" "init" Hty eq_refl : py_eq_str _ _ = _).
    rewrite (has_type_exclusive d "error" "message" Hty eq_refl : py_eq_str _ _ = _).
    rewrite (has_type_exclusive d "error" "result" Hty eq_refl : py_eq_str _ _ = _).
    unfold has_type in Hty. rewrite Hty.
    destruct (truthy' sid); cbn [ret lift]; eexists; split; reflexivity.
Qed.


(** A line that is not an "init" event leaves the session id of the loop as
    it is. *)
Lemma stream_step_keeps_session (messages messages' : list (Message float))
    (sid sid' : value float) (l : string) (t t' : nat) :
  not_init json_loads l = true ->
  stream_step' (messages, sid) l t = inr ((messages', sid'), t') ->
  sid' = sid.
Proof.
  unfold not_init, stream_step.
  destruct (is_empty (strip l) || negb (startswith "{" (strip l))).
  { intros _ H. unfold ret in H. congruence. }
  unfold stream_event.
  destruct (json_loads (strip l)) as [e | data].
  { intros _ H. destruct e; unfold ret, raise in H; congruence. }
  destruct data as [| | | | | |d]; try (intros _ H; discriminate H).
  unfold has_type. intros Hty H. apply negb_true_iff in Hty.
  unfold bind, session_id_or_generate, _generate_session_id in H.
  cbn [lift ret py_get] in H. rewrite Hty in H.
  repeat match type of H with
         | context [if ?c then _ else _] => destruct c
         | context [py_get (dict_get_default ?d ?k ?v) _ _] =>
             destruct (dict_get_default d k v); cbn [lift ret raise py_get] in H
         end;
    unfold ret, raise in H; congruence.
Qed.

Lemma stream_loop_keeps_session (ls : list string)
    (messages messages' : list (Message float))
    (sid sid' : value float) (t t' : nat) :
  forallb (not_init json_loads) ls = true ->
  stream_loop' ls (messages, sid) t = inr ((messages', sid'), t') ->
  sid' = sid.
Proof.
  revert messages sid t.
  induction ls as [|l ls IH]; intros messages sid t Hall H.
  - cbn [stream_loop] in H. unfold ret in H. congruence.
  - cbn [forallb] in Hall. apply andb_true_iff in Hall.
    destruct Hall as [Hl Hls].
    cbn [stream_loop] in H. unfold bind in H.
    destruct (stream_step' (messages, sid) l t) as [e | [[m1 s1] t1]] eqn:E;
      [discriminate|].
    rewrite (IH _ _ _ Hls H).
    exact (stream_step_keeps_session _ _ _ _ _ _ _ Hl E).
Qed.

(** A line on which [json.loads] raises a decode error changes nothing. *)
Lemma stream_step_corrupt (st : state) (c : string) (t : nat) :
  json_loads (strip c) = inl JSONDecodeError ->
  stream_step' st c t = inr (st, t).
Proof.
  intros H. unfold stream_step.
  destruct (is_empty (strip c) || negb (startswith "{" (strip c)));
    [reflexivity|].
  unfold stream_event. destruct st as [messages sid]. rewrite H. reflexivity.
Qed.

(** A safe line does not make the loop raise. *)
Lemma stream_step_safe (st : state) (l : string) (t : nat) :
  line_safe json_loads l = true ->
  exists st' t', stream_step' st l t = inr (st', t').
Proof.
  unfold line_safe, stream_step.
  destruct (is_empty (strip l) || negb (startswith "{" (strip l))).
  { intros _. eexists _, _. reflexivity. }
  unfold stream_event. destruct st as [messages sid].
  destruct (json_loads (strip l)) as [e | data].
  { intros H. destruct e; try discriminate. eexists _, _. reflexivity. }
  destruct data as [| | | | | |d]; try discriminate.
  unfold has_type. intros H.
  unfold bind, session_id_or_generate, _generate_session_id.
  cbn [lift ret py_get].
  destruct (py_eq_str (dict_get_default d "type" VNone) "init").
  { eexists _, _. reflexivity. }
  destruct (py_eq_str (dict_get_default d "type" VNone) "message").
  { repeat match goal with
           | |- context [if ?c then _ else _] => destruct c
           end; eexists _, _; reflexivity. }
  destruct (py_eq_str (dict_get_default d "type" VNone) "result").
  { unfold dict_get_default at 1 2 3 4 5.
    destruct (dict_get d "stats") as [[| | | | | |st]|];
      try discriminate; cbn [lift ret py_get];
      destruct (truthy' sid); eexists _, _; reflexivity. }
  destruct (py_eq_str (dict_get_default d "type" VNone) "error").
  { destruct (truthy' sid); eexists _, _; reflexivity. }
  eexists _, _. reflexivity.
Qed.

Lemma stream_loop_safe (ls : list string) (st : state) (t : nat) :
  forallb (line_safe json_loads) ls = true ->
  exists st' t', stream_loop' ls st t = inr (st', t').
Proof.
  revert st t. induction ls as [|l ls IH]; intros st t Hall.
  - eexists _, _. reflexivity.
  - cbn [forallb] in Hall. apply andb_true_iff in Hall.
    destruct Hall as [Hl Hls].
    destruct (stream_step_safe st l t Hl) as (st1 & t1 & E).
    cbn [stream_loop]. unfold bind. rewrite E. apply IH. exact Hls.
Qed.

Lemma outcome_wrap_error {A} (raw : string) (r : exn + A) :
  outcome (wrap_error raw r) = r.
Proof. destruct r; reflexivity. Qed.


Lemma forallb_app_inv {A} (f : A -> bool) (l1 l2 : list A) :
  forallb f (l1 ++ l2) = true -> forallb f l1 = true /\ forallb f l2 = true.
Proof. rewrite forallb_app. apply andb_true_iff. Qed.

(** *** A corrupt line among the lines of a stream *)

Lemma detect_stream_signal (cleaned : string) :
  contains (String LF "{") cleaned = true ->
  detect_format cleaned = StreamJSON.
Proof.
  intros H. unfold detect_format. rewrite H, andb_false_r. reflexivity.
Qed.

Lemma stream_signal_of_detect (cleaned : string) :
  startswith "{" (strip cleaned) = true ->
  detect_format cleaned = StreamJSON ->
  contains (String LF "{") cleaned = true.
Proof.
  unfold detect_format. intros ->.
  destruct (contains (String LF "{") cleaned); [reflexivity | discriminate].
Qed.

(** C2, amended.  Take N lines whose text starts with an event (a brace) and
    is classified as stream-JSON, and one more line on which [json.loads]
    raises a decode error, put anywhere among them.  The text with the
    corrupt line is classified as stream-JSON too, and [parse] ends on it as
    on the N lines alone: the same messages, or the same exception
    wrapped. *)
Theorem corrupt_line_contributes_nothing (pre post : list string)
    (c stderr : string) (t : nat) :
  forallb no_LF (pre ++ c :: post) = true ->
  json_loads (strip c) = inl JSONDecodeError ->
  startswith "{" (strip (_clean_output (join_nl (pre ++ post)))) = true ->
  detect_format (_clean_output (join_nl (pre ++ post))) = StreamJSON ->
  detect_format (_clean_output (join_nl (pre ++ c :: post))) = StreamJSON
  /\ outcome (parse' (join_nl (pre ++ c :: post)) stderr t) =
     outcome (parse' (join_nl (pre ++ post)) stderr t).
Proof.
  intros Hlines Hc Hbrace Hvalid.
  destruct (forallb_app_inv _ _ _ Hlines) as [Hpre Hcpost].
  cbn [forallb] in Hcpost. apply andb_true_iff in Hcpost.
  destruct Hcpost as [_ Hpost].
  assert (Hlines' : forallb no_LF (pre ++ post) = true).
  { rewrite forallb_app, Hpre, Hpost. reflexivity. }
  assert (Hall : detect_format (_clean_output (join_nl (pre ++ c :: post)))
                 = StreamJSON).
  { apply detect_stream_signal.
    pose proof (stream_signal_of_detect _ Hbrace Hvalid) as Hsig.
    rewrite contains_clean_output in Hsig |- *.
    destruct pre as [|p pre'].
    - destruct post as [|p post']; [discriminate Hsig|].
      rewrite split_join in Hsig by (assumption || discriminate).
      rewrite split_join by (assumption || discriminate).
      exact (later_brace_insert [] (p :: post') c Hsig).
    - rewrite split_join in Hsig by (assumption || discriminate).
      rewrite split_join by (assumption || discriminate).
      exact (later_brace_insert (p :: pre') post c Hsig). }
  split; [exact Hall|].
  rewrite !parse_stream_lines by assumption.
  rewrite !outcome_wrap_error.
  rewrite !brace_lines_split_join by assumption.
  unfold bind. rewrite <- !stream_loop_brace_lines.
  rewrite !stream_loop_app. unfold bind.
  destruct (stream_loop' pre ([], VNone) t) as [e | [st t1]]; [reflexivity|].
  cbn [stream_loop]. unfold bind.
  rewrite (stream_step_corrupt st c t1 Hc). reflexivity.
Qed.

(** *** The stream branch and exceptions *)

(** C10, amended.  For every input classified as stream-JSON whose lines are
    safe (on each line that is not skipped, [json.loads] raises at most a
    decode error, or returns an object whose "stats", for a "result" event,
    is absent or an object), [parse] returns normally. *)
Theorem stream_branch_returns (raw stderr : string) (t : nat) :
  detect_format (_clean_output raw) = StreamJSON ->
  forallb (line_safe json_loads) (split_nl raw) = true ->
  exists msgs t', parse' raw stderr t = inr (msgs, t').
Proof.
  intros Hf Hsafe.
  rewrite (parse_stream_lines _ float_add float_of_int _ _ _ _ stderr _ Hf).
  unfold bind. rewrite <- stream_loop_brace_lines.
  destruct (stream_loop_safe _ ([], VNone) t Hsafe) as ([msgs sid] & t' & E).
  rewrite E. exists msgs, t'. reflexivity.
Qed.

(** *** The place of a [SystemMessage] *)

(** C7, amended.  A single-JSON parse produces no [SystemMessage].  In a
    stream-JSON parse the [SystemMessage] of an "init" line stands after the
    messages of all earlier lines and before the messages of all later
    lines: the sequence follows the order of the lines. *)
Theorem system_message_in_line_order :
  (forall json_str t msgs t',
      parse_single' json_str t = inr (msgs, t') ->
      existsb is_system msgs = false)
  /\ (forall json_str pre line post d t msgs t',
         split_nl (strip json_str) = pre ++ line :: post ->
         startswith "{" (strip line) = true ->
         json_loads (strip line) = inr (VDict d) ->
         has_type d "init" = true ->
         parse_stream' json_str t = inr (msgs, t') ->
         exists before sid0 t0 after sid1,
           stream_loop' pre ([], VNone) t = inr ((before, sid0), t0)
           /\ stream_loop' post
                ([], dict_get_default d "session_id" (synthesized t0)) (S t0)
              = inr ((after, sid1), t')
           /\ msgs =
              before
              ++ init_system_message d
                   (dict_get_default d "session_id" (synthesized t0))
              :: after).
Proof.
  split.
  - intros json_str t msgs t' H.
    destruct (parse_single_inv _ _ _ _ _ _ _ _ _ _ H)
      as (d & r & _ & Hm & _ & _).
    rewrite Hm.
    destruct (truthy float_bool (dict_get_default d "response" (VStr "")));
      reflexivity.
  - intros json_str pre line post d t msgs t' Hsplit Hb Hd Hty H.
    unfold _parse_stream_json, bind in H. rewrite Hsplit in H.
    rewrite stream_loop_app in H. unfold bind in H.
    destruct (stream_loop' pre ([], VNone) t)
      as [e | [[before sid0] t0]] eqn:Epre; [discriminate|].
    cbn [stream_loop] in H. unfold bind in H.
    rewrite (stream_step_init before sid0 line d t0 Hb Hd Hty) in H.
    rewrite stream_loop_frame in H.
    destruct (stream_loop' post
                ([], dict_get_default d "session_id" (synthesized t0)) (S t0))
      as [e | [[after sid1] t1]] eqn:Epost; [discriminate|].
    cbn [on_top] in H. unfold ret in H. cbn [fst] in H.
    injection H as Hm Ht. subst t1.
    exists before, sid0, t0, after, sid1.
    split; [reflexivity|]. split; [exact Epost|].
    rewrite <- Hm, <- app_assoc. reflexivity.
Qed.


(** *** The session id of a [ResultMessage] *)

(** C3, amended.  Let the loop have run over some lines and hold the session
    id [sid].  A following "result" or "error" line appends one
    [ResultMessage]; it carries [sid] when [sid] is truthy, and otherwise an
    id synthesized from the reading of the clock made for that very line.
    [sid] is the id captured by the most recent "init" line (the one of its
    payload, or the one synthesized for it), and [None] when no "init" line
    came before. *)
Theorem result_session_id (lines : list string) (last : string) (d : dict)
    (msgs : list (Message float)) (sid : value float) (t t1 : nat) :
  stream_loop' lines ([], VNone) t = inr ((msgs, sid), t1) ->
  startswith "{" (strip last) = true ->
  json_loads (strip last) = inr (VDict d) ->
  (has_type d "result" = true /\ dict_or_absent (dict_get d "stats") = true)
  \/ has_type d "error" = true ->
  (exists r,
      stream_loop' (lines ++ [last]) ([], VNone) t =
      inr ((msgs ++ [ResultMessage r], sid), if truthy' sid then t1 else S t1)
      /\ session_id r = if truthy' sid then sid else synthesized t1)
  /\ (forall pre init mid di msgs0 sid0 t0,
         lines = pre ++ init :: mid ->
         stream_loop' pre ([], VNone) t = inr ((msgs0, sid0), t0) ->
         startswith "{" (strip init) = true ->
         json_loads (strip init) = inr (VDict di) ->
         has_type di "init" = true ->
         forallb (not_init json_loads) mid = true ->
         sid = dict_get_default di "session_id" (synthesized t0))
  /\ (forallb (not_init json_loads) lines = true -> sid = VNone).
Proof.
  intros Hloop Hb Hd Hty. repeat split.
  - destruct (stream_step_result msgs sid last d t1 Hb Hd Hty) as (r & E & Hr).
    exists r. split; [|exact Hr].
    rewrite stream_loop_app. unfold bind. rewrite Hloop.
    cbn [stream_loop]. unfold bind. rewrite E. reflexivity.
  - intros pre init mid di msgs0 sid0 t0 Hl Hpre Hbi Hdi Htyi Hmid.
    subst lines. rewrite stream_loop_app in Hloop. unfold bind in Hloop.
    rewrite Hpre in Hloop. cbn [stream_loop] in Hloop. unfold bind in Hloop.
    rewrite (stream_step_init msgs0 sid0 init di t0 Hbi Hdi Htyi) in Hloop.
    exact (stream_loop_keeps_session _ _ _ _ _ _ _ Hmid Hloop).
  - intros Hall.
    exact (stream_loop_keeps_session _ _ _ _ _ _ _ Hall Hloop).
Qed.

End StreamProperties.

(* ===================================================================== *)
(** ** Properties of the client *)
(* ===================================================================== *)

Module ClientFacts.
Import Client.

Section ProcessQueryFacts.

Variable float : Type.
Variable fault : Type.
Variable str : fault -> string.

Local Notation Transport := (Transport fault).
Local Notation ParserStrategy := (ParserStrategy float fault).
Local Notation event := (event float).
Local Notation process_query' := (@process_query float fault str).
Local Notation process_query_try' := (@process_query_try float fault str).
Local Notation error_message' := (@error_message float fault str).

Lemma yield_all_trace (messages : list (Message float)) :
  @yield_all float fault messages = (map (@Yield float) messages, inr tt).
Proof.
  induction messages as [|m ms IH]; [reflexivity|].
  cbn [yield_all]. rewrite IH. reflexivity.
Qed.



End ProcessQueryFacts.

End ClientFacts.

(* ===================================================================== *)
(** ** The properties at work on concrete outputs *)
(* ===================================================================== *)

(** C1 as stated fails on a well-formed payload that format detection does
    not read as single JSON.  Printed on three lines, with the object of
    "stats" opening the third, the payload of the example scenario still
    decodes as one JSON object with the response "Hello!", but a line feed
    is followed by a brace: [parse] takes the stream branch, no line of
    which decodes, and returns no message at all.  The same happens to the
    stdout of the example scenario itself behind a log line that starts with
    a bracket, which [_clean_output] keeps. *)
Lemma single_json_payload_read_as_stream :
  _clean_output Ref.pretty_stdout = Ref.pretty_stdout
  /\ Ref.json_loads Ref.pretty_stdout = inr (VDict Ref.pretty_payload)
  /\ wf_payload Ref.pretty_payload = true
  /\ dict_get Ref.pretty_payload "response" = Some (VStr "Hello!")
  /\ detect_format (_clean_output Ref.pretty_stdout) = StreamJSON
  /\ Ref.parse Ref.frozen Ref.pretty_stdout "" 0 = inr ([], 0%nat)
  /\ _clean_output Ref.logged_stdout = Ref.logged_stdout
  /\ Ref.json_loads Ref.hello_stdout = inr (VDict Ref.hello_payload)
  /\ wf_payload Ref.hello_payload = true
  /\ dict_get Ref.hello_payload "response" = Some (VStr "Hello!")
  /\ detect_format (_clean_output Ref.logged_stdout) = StreamJSON
  /\ Ref.parse Ref.frozen Ref.logged_stdout "" 0 = inr ([], 0%nat).
Proof.
  repeat split; vm_compute; reflexivity.
Qed.

(** C2 as stated fails when the valid lines are a single event: alone, the
    line is read as a single-JSON payload; followed by a corrupt line that
    starts with a brace, it is read as a stream; followed by a corrupt line
    that does not, the whole text is read as one JSON object and [parse]
    raises. *)
Lemma corrupt_line_after_single_event :
  Ref.json_loads (strip Ref.corrupt_line) = inl JSONDecodeError
  /\ Ref.json_loads (strip "oops") = inl JSONDecodeError
  /\ Ref.json_loads (strip Ref.init_line) = inr (VDict Ref.init_event)
  /\ Ref.parse Ref.frozen (join_nl [Ref.init_line]) "" 0 =
     inr ([ResultMessage
             {| subtype := VStr "success";
                duration_ms := VInt 0;
                is_error := false;
                session_id := VStr "gemini-1000";
                num_turns := 1;
                total_cost_usd := None;
                usage := Some [("total_tokens", VInt 0);
                               ("tool_calls", VInt 0);
                               ("models", VDict [])];
                result := VNone |}], 1%nat)
  /\ Ref.parse Ref.frozen (join_nl [Ref.init_line; Ref.corrupt_line]) "" 0 =
     inr ([SystemMessage "init" [("session_id", VStr "s");
                                 ("model", VNone);
                                 ("timestamp", VNone)]], 1%nat)
  /\ outcome (Ref.parse Ref.frozen (join_nl [Ref.init_line; "oops"]) "" 0) =
     inl (CLIJSONDecodeError (join_nl [Ref.init_line; "oops"]))
  /\ outcome (Ref.parse Ref.frozen
                (join_nl [Ref.init_line; Ref.corrupt_line]) "" 0)
     <> outcome (Ref.parse Ref.frozen (join_nl [Ref.init_line]) "" 0).
Proof.
  repeat split; try (vm_compute; reflexivity).
  vm_compute. discriminate.
Qed.

Lemma corrupt_line_contributes_nothing_witness :
  let pre := [Ref.init_line; Ref.user_line] in
  let post := [Ref.result_line] in
  forallb no_LF (pre ++ Ref.corrupt_line :: post) = true
  /\ Ref.json_loads (strip Ref.corrupt_line) = inl JSONDecodeError
  /\ startswith "{" (strip (_clean_output (join_nl (pre ++ post)))) = true
  /\ detect_format (_clean_output (join_nl (pre ++ post))) = StreamJSON
  /\ detect_format (_clean_output (join_nl (pre ++ Ref.corrupt_line :: post)))
     = StreamJSON
  /\ outcome (Ref.parse Ref.ticking
                (join_nl (pre ++ Ref.corrupt_line :: post)) "" 0) =
     outcome (Ref.parse Ref.ticking (join_nl (pre ++ post)) "" 0).
Proof.
  intros pre post.
  assert (H1 : forallb no_LF (pre ++ Ref.corrupt_line :: post) = true)
    by (vm_compute; reflexivity).
  assert (H2 : Ref.json_loads (strip Ref.corrupt_line) = inl JSONDecodeError)
    by (vm_compute; reflexivity).
  assert (H3 : startswith "{" (strip (_clean_output (join_nl (pre ++ post))))
               = true)
    by (vm_compute; reflexivity).
  assert (H4 : detect_format (_clean_output (join_nl (pre ++ post)))
               = StreamJSON)
    by (vm_compute; reflexivity).
  split; [exact H1|]. split; [exact H2|]. split; [exact H3|].
  split; [exact H4|].
  exact (corrupt_line_contributes_nothing Ref.float Ref.float_add
           Ref.float_of_int Ref.float_bool Ref.json_loads Ref.ticking
           pre post Ref.corrupt_line "" 0%nat H1 H2 H3 H4).
Defined.

(** C3 as stated fails without an "init" line: each "result" or "error"
    line reads the clock for itself, and the two ids differ once the clock
    has moved.  It fails too when the "init" line carries an empty session
    id: the [ResultMessage] then takes a synthesized id, not the captured
    one. *)
Lemma result_session_ids_differ :
  (exists r1 r2,
      Ref.parse Ref.ticking (join_nl [Ref.result_line; Ref.error_line]) "" 0
      = inr ([ResultMessage r1; ResultMessage r2], 2%nat)
      /\ session_id r1 = VStr "gemini-1000"
      /\ session_id r2 = VStr "gemini-1001"
      /\ session_id r1 <> session_id r2)
  /\ (exists r,
         Ref.parse Ref.ticking
           (join_nl [q "{'type':'init','session_id':''}"; Ref.result_line])
           "" 0
         = inr ([SystemMessage "init" [("session_id", VStr "");
                                       ("model", VNone);
                                       ("timestamp", VNone)];
                 ResultMessage r], 2%nat)
         /\ session_id r = VStr "gemini-1001").
Proof.
  split.
  - eexists _, _. split; [vm_compute; reflexivity|].
    cbn [session_id]. repeat split; discriminate.
  - eexists. split; [vm_compute; reflexivity|]. reflexivity.
Qed.

Lemma result_session_id_witness :
  let lines := [Ref.init_line; Ref.user_line] in
  let msgs : list (Message Ref.float) :=
    [SystemMessage "init" [("session_id", VStr "s"); ("model", VNone);
                           ("timestamp", VNone)];
     UserMessage (VStr "hi")] in
  Ref.stream_loop Ref.ticking lines ([], VNone) 0 =
    inr ((msgs, VStr "s"), 1%nat)
  /\ startswith "{" (strip Ref.result_line) = true
  /\ Ref.json_loads (strip Ref.result_line) = inr (VDict Ref.result_event)
  /\ has_type Ref.result_event "result" = true
  /\ dict_or_absent (dict_get Ref.result_event "stats") = true
  /\ exists r,
       Ref.stream_loop Ref.ticking (lines ++ [Ref.result_line]) ([], VNone) 0
       = inr ((msgs ++ [ResultMessage r], VStr "s"), 1%nat)
       /\ session_id r = VStr "s".
Proof.
  intros lines msgs.
  assert (H1 : Ref.stream_loop Ref.ticking lines ([], VNone) 0 =
               inr ((msgs, VStr "s"), 1%nat))
    by (vm_compute; reflexivity).
  assert (H2 : startswith "{" (strip Ref.result_line) = true)
    by (vm_compute; reflexivity).
  assert (H3 : Ref.json_loads (strip Ref.result_line)
               = inr (VDict Ref.result_event))
    by (vm_compute; reflexivity).
  assert (H4 : has_type Ref.result_event "result" = true)
    by (vm_compute; reflexivity).
  assert (H5 : dict_or_absent (dict_get Ref.result_event "stats") = true)
    by (vm_compute; reflexivity).
  repeat (split; [assumption|]).
  exact (proj1 (result_session_id Ref.float Ref.float_bool Ref.json_loads
                  Ref.ticking lines Ref.result_line Ref.result_event msgs
                  (VStr "s") 0%nat 1%nat H1 H2 H3 (or_introl (conj H4 H5)))).
Defined.

(** C7 as stated fails on a stream whose "init" line comes after a
    "message" line: the [SystemMessage] follows the [UserMessage]. *)
Lemma system_message_after_user_message :
  let msgs : list (Message Ref.float) :=
    [UserMessage (VStr "hi");
     SystemMessage "init" [("session_id", VStr "s"); ("model", VNone);
                           ("timestamp", VNone)]] in
  Ref.parse Ref.frozen (join_nl [Ref.user_line; Ref.init_line]) "" 0 =
  inr (msgs, 1%nat)
  /\ system_first msgs = false.
Proof. split; vm_compute; reflexivity. Qed.

Lemma system_message_in_line_order_witness :
  let text := join_nl [Ref.user_line; Ref.init_line; Ref.delta_line] in
  let msgs : list (Message Ref.float) :=
    [UserMessage (VStr "hi");
     SystemMessage "init" [("session_id", VStr "s"); ("model", VNone);
                           ("timestamp", VNone)];
     AssistantMessage [TextBlock (VStr "Hel")]] in
  split_nl (strip text) = [Ref.user_line] ++ Ref.init_line :: [Ref.delta_line]
  /\ startswith "{" (strip Ref.init_line) = true
  /\ Ref.json_loads (strip Ref.init_line) = inr (VDict Ref.init_event)
  /\ has_type Ref.init_event "init" = true
  /\ Ref._parse_stream_json Ref.frozen text 0
     = inr (msgs, 1%nat)
  /\ exists before sid0 t0 after sid1,
       Ref.stream_loop Ref.frozen [Ref.user_line] ([], VNone) 0
       = inr ((before, sid0), t0)
       /\ Ref.stream_loop Ref.frozen [Ref.delta_line]
            ([], dict_get_default Ref.init_event "session_id"
                   (synthesized_id Ref.frozen t0)) (S t0)
          = inr ((after, sid1), 1%nat)
       /\ msgs =
          before
          ++ init_system_message Ref.init_event
               (dict_get_default Ref.init_event "session_id"
                  (synthesized_id Ref.frozen t0))
          :: after.
Proof.
  intros text msgs.
  assert (H1 : split_nl (strip text)
               = [Ref.user_line] ++ Ref.init_line :: [Ref.delta_line])
    by (vm_compute; reflexivity).
  assert (H2 : startswith "{" (strip Ref.init_line) = true)
    by (vm_compute; reflexivity).
  assert (H3 : Ref.json_loads (strip Ref.init_line)
               = inr (VDict Ref.init_event))
    by (vm_compute; reflexivity).
  assert (H4 : has_type Ref.init_event "init" = true)
    by (vm_compute; reflexivity).
  assert (H5 : Ref._parse_stream_json Ref.frozen text 0 = inr (msgs, 1%nat))
    by (vm_compute; reflexivity).
  repeat (split; [assumption|]).
  exact (proj2 (system_message_in_line_order Ref.float Ref.float_add
                  Ref.float_of_int Ref.float_bool Ref.json_loads Ref.frozen)
           text [Ref.user_line] Ref.init_line [Ref.delta_line]
           Ref.init_event 0%nat msgs 1%nat H1 H2 H3 H4 H5).
Defined.

(** C10 as stated fails on a stream with a "result" line whose "stats" is
    [null]: the text is classified as stream-JSON and [parse] raises, the
    [AttributeError] wrapped in a [ParsingError]. *)
Lemma stream_branch_raises :
  let raw := join_nl [q "{'type':'result','stats':null}"; Ref.init_line] in
  detect_format (_clean_output raw) = StreamJSON
  /\ outcome (Ref.parse Ref.frozen raw "" 0) = inl AttributeError.
Proof. split; vm_compute; reflexivity. Qed.

Lemma stream_branch_returns_witness :
  let raw :=
    join_nl [Ref.init_line; Ref.corrupt_line; Ref.result_line] in
  detect_format (_clean_output raw) = StreamJSON
  /\ forallb (line_safe Ref.json_loads) (split_nl raw) = true
  /\ exists msgs t', Ref.parse Ref.frozen raw "" 0 = inr (msgs, t').
Proof.
  intros raw.
  assert (H1 : detect_format (_clean_output raw) = StreamJSON)
    by (vm_compute; reflexivity).
  assert (H2 : forallb (line_safe Ref.json_loads) (split_nl raw) = true)
    by (vm_compute; reflexivity).
  repeat (split; [assumption|]).
  exact (stream_branch_returns Ref.float Ref.float_add Ref.float_of_int
           Ref.float_bool Ref.json_loads Ref.frozen raw "" 0%nat H1 H2).
Defined.


Lemma single_json_result_field_witness :
  let d : Ref.jdict := [("response", VStr Ref.long_response)] in
  Ref.json_loads Ref.long_stdout = inr (VDict d)
  /\ wf_payload d = true
  /\ dict_get_default d "response" (VStr "") = VStr Ref.long_response
  /\ Ref.long_response <> ""
  /\ String.length Ref.long_response = 150%nat
  /\ exists pre r x,
       Ref._parse_single_json Ref.frozen Ref.long_stdout 0
       = inr (pre ++ [ResultMessage r], 1%nat)
       /\ total_cost_usd r = None
       /\ result r = VStr x
       /\ String.length x = 100%nat
       /\ prefix x Ref.long_response = true.
Proof.
  intros d.
  assert (H1 : Ref.json_loads Ref.long_stdout = inr (VDict d))
    by (vm_compute; reflexivity).
  assert (H2 : wf_payload d = true) by (vm_compute; reflexivity).
  assert (H3 : dict_get_default d "response" (VStr "")
               = VStr Ref.long_response)
    by reflexivity.
  assert (H4 : Ref.long_response <> "") by (vm_compute; discriminate).
  assert (H5 : String.length Ref.long_response = 150%nat)
    by (vm_compute; reflexivity).
  split; [exact H1|]. split; [exact H2|]. split; [exact H3|].
  split; [exact H4|]. split; [exact H5|].
  destruct (proj2 (single_json_result_field Ref.float Ref.float_add
                     Ref.float_of_int Ref.float_bool Ref.json_loads
                     Ref.frozen Ref.long_stdout 0%nat)
              d Ref.long_response H1 H2 H3)
    as (pre & r & Hrun & Hcost & _ & Hres).
  destruct (Hres H4) as (x & Hx & Hlen & Hpre & _).
  exists pre, r, x.
  split; [exact Hrun|]. split; [exact Hcost|]. split; [exact Hx|].
  split; [|exact Hpre].
  rewrite Hlen, H5. reflexivity.
Defined.

Lemma stream_message_line_witness :
  startswith "{" (strip Ref.delta_line) = true
  /\ Ref.json_loads (strip Ref.delta_line) = inr (VDict Ref.delta_event)
  /\ dict_get Ref.delta_event "type" = Some (VStr "message")
  /\ dict_get Ref.delta_event "role" = Some (VStr "assistant")
  /\ dict_get_default Ref.delta_event "content" (VStr "") = VStr "Hel"
  /\ Ref.stream_step Ref.frozen ([UserMessage (VStr "hi")], VNone)
       Ref.delta_line 0
     = inr (([UserMessage (VStr "hi")]
             ++ [AssistantMessage [TextBlock (VStr "Hel")]], VNone), 0%nat).
Proof.
  assert (H1 : startswith "{" (strip Ref.delta_line) = true)
    by (vm_compute; reflexivity).
  assert (H2 : Ref.json_loads (strip Ref.delta_line)
               = inr (VDict Ref.delta_event))
    by (vm_compute; reflexivity).
  assert (H3 : dict_get Ref.delta_event "type" = Some (VStr "message"))
    by (vm_compute; reflexivity).
  assert (H4 : dict_get Ref.delta_event "role" = Some (VStr "assistant"))
    by (vm_compute; reflexivity).
  assert (H5 : dict_get_default Ref.delta_event "content" (VStr "")
               = VStr "Hel")
    by (vm_compute; reflexivity).
  repeat (split; [assumption|]).
  exact (proj2 (proj1 (stream_message_line Ref.float Ref.float_bool
                         Ref.json_loads Ref.frozen)
                  [UserMessage (VStr "hi")] VNone Ref.delta_line
                  Ref.delta_event 0%nat H1 H2 H3) H4 "Hel" H5).
Defined.


(* ===================================================================== *)
(** ** Further properties of the parser *)
(* ===================================================================== *)

(** *** Lines of a text, filtered after stripping *)

Section StrippedLines.

Variable f : string -> bool.
Hypothesis f_empty : f "" = false.

Lemma stripped_cons (l : string) (ls : list string) :
  filter f (map strip (l :: ls)) =
  (if f (strip l) then [strip l] else []) ++ filter f (map strip ls).
Proof. cbn [map filter]. destruct (f (strip l)); reflexivity. Qed.

Lemma stripped_blank (ls : list string) :
  forallb blank ls = true -> filter f (map strip ls) = [].
Proof.
  induction ls as [|l ls IH]; [reflexivity|].
  cbn [forallb]. intros H. apply andb_true_iff in H. destruct H as [Hl Hls].
  rewrite stripped_cons, (strip_blank _ Hl), f_empty. cbn [app]. auto.
Qed.

Lemma stripped_lstrip (s : string) :
  filter f (map strip (split_nl (lstrip s))) =
  filter f (map strip (split_nl s)).
Proof.
  induction s as [|c s IH]; [reflexivity|].
  rewrite lstrip_cons. destruct (is_space c) eqn:Hc; [|reflexivity].
  rewrite IH, split_nl_cons.
  destruct (c =? LF)%char.
  - rewrite stripped_cons. change (strip "") with "". rewrite f_empty.
    reflexivity.
  - rewrite (split_nl_hd_tl s) at 1.
    rewrite !stripped_cons, (strip_space_cons _ _ Hc). reflexivity.
Qed.

Lemma stripped_rstrip_split (s : string) :
  rstrip (hd "" (split_nl (rstrip s))) = rstrip (hd "" (split_nl s))
  /\ filter f (map strip (tl (split_nl (rstrip s))))
     = filter f (map strip (tl (split_nl s))).
Proof.
  induction s as [|c s [IHh IHt]]; [split; reflexivity|].
  rewrite rstrip_cons.
  destruct (is_space c && blank s) eqn:E.
  - assert (Hb : blank (String c s) = true) by exact E.
    pose proof (blank_split _ Hb) as Hall.
    rewrite split_nl_hd_tl in Hall. cbn [forallb] in Hall.
    apply andb_true_iff in Hall. destruct Hall as [Hh Ht].
    split.
    + rewrite (rstrip_blank _ Hh). reflexivity.
    + rewrite (stripped_blank _ Ht). reflexivity.
  - rewrite !split_nl_cons. destruct (c =? LF)%char; cbn [hd tl].
    + split; [reflexivity|].
      rewrite (split_nl_hd_tl (rstrip s)), (split_nl_hd_tl s).
      rewrite !stripped_cons, IHt, (strip_of_rstrip _ _ IHh). reflexivity.
    + split; [apply rstrip_cons_congr; exact IHh | exact IHt].
Qed.

Lemma stripped_rstrip (s : string) :
  filter f (map strip (split_nl (rstrip s))) =
  filter f (map strip (split_nl s)).
Proof.
  destruct (stripped_rstrip_split s) as [Hh Ht].
  rewrite (split_nl_hd_tl (rstrip s)), (split_nl_hd_tl s).
  rewrite !stripped_cons, Ht, (strip_of_rstrip _ _ Hh). reflexivity.
Qed.

(** Stripping the whole text first does not change which stripped lines
    pass a test that the empty line fails. *)
Lemma stripped_strip (s : string) :
  filter f (map strip (split_nl (strip s))) =
  filter f (map strip (split_nl s)).
Proof. unfold strip. rewrite stripped_rstrip. apply stripped_lstrip. Qed.

End StrippedLines.

Lemma json_lines_strip (s : string) :
  json_lines (split_nl (strip s)) = json_lines (split_nl s).
Proof. apply stripped_strip. reflexivity. Qed.

Lemma json_lines_cons (l : string) (ls : list string) :
  json_lines (l :: ls) =
  (if looks_like_json l then [strip l] else []) ++ json_lines ls.
Proof. apply stripped_cons. Qed.

Lemma json_lines_clean_loop (ls : list string) :
  json_lines (clean_loop ls []) = json_lines ls.
Proof.
  induction ls as [|l ls IH]; [reflexivity|].
  rewrite clean_loop_cons, (json_lines_cons l ls).
  destruct (looks_like_json l) eqn:E; [|exact IH].
  rewrite json_lines_cons, E. reflexivity.
Qed.

Lemma json_lines_nil (ls : list string) :
  existsb looks_like_json ls = false <-> json_lines ls = [].
Proof.
  induction ls as [|l ls IH]; [split; reflexivity|].
  rewrite json_lines_cons. cbn [existsb].
  destruct (looks_like_json l); cbn [orb app]; [split; discriminate | exact IH].
Qed.

Lemma clean_loop_no_json (ls : list string) :
  existsb looks_like_json ls = false -> clean_loop ls [] = [].
Proof.
  induction ls as [|l ls IH]; [reflexivity|].
  cbn [existsb]. intros H. apply orb_false_iff in H. destruct H as [Hl Hls].
  rewrite clean_loop_cons, Hl. exact (IH Hls).
Qed.

(** [_clean_output] drops the lines before the first one that looks like
    JSON and nothing else. *)
Lemma clean_loop_suffix (ls : list string) :
  exists dropped,
    ls = dropped ++ clean_loop ls []
    /\ existsb looks_like_json dropped = false
    /\ (clean_loop ls [] = []
        \/ looks_like_json (hd "" (clean_loop ls [])) = true).
Proof.
  induction ls as [|l ls (dropped & Heq & Hd & Hk)].
  - exists []. repeat split. left. reflexivity.
  - rewrite clean_loop_cons. destruct (looks_like_json l) eqn:E.
    + exists []. repeat split. right. exact E.
    + exists (l :: dropped). cbn [app existsb]. rewrite E, Hd, <- Heq.
      repeat split. exact Hk.
Qed.

(** Joining the lines of a text gives the text back. *)
Lemma join_split (s : string) : join_nl (split_nl s) = s.
Proof.
  induction s as [|c s IH]; [reflexivity|].
  rewrite split_nl_cons. rewrite (split_nl_hd_tl s) in IH.
  destruct (c =? LF)%char eqn:E.
  - apply Ascii.eqb_eq in E. subst c. rewrite (split_nl_hd_tl s).
    revert IH. generalize (hd "" (split_nl s)) (tl (split_nl s)).
    intros h t IH. subst s. reflexivity.
  - revert IH. generalize (hd "" (split_nl s)) (tl (split_nl s)).
    intros h t IH. subst s. destruct t; reflexivity.
Qed.

Lemma no_LF_lstrip (s : string) : no_LF s = true -> no_LF (lstrip s) = true.
Proof.
  induction s as [|c s IH]; [reflexivity|].
  intros H. rewrite lstrip_cons. destruct (is_space c); [|exact H].
  cbn [no_LF] in H. apply andb_true_iff in H. tauto.
Qed.

Lemma no_LF_rstrip (s : string) : no_LF s = true -> no_LF (rstrip s) = true.
Proof.
  induction s as [|c s IH]; [reflexivity|].
  intros H. cbn [no_LF] in H. apply andb_true_iff in H. destruct H as [Hc Hs].
  rewrite rstrip_cons. destruct (is_space c && blank s); [reflexivity|].
  cbn [no_LF]. rewrite Hc, (IH Hs). reflexivity.
Qed.

Lemma no_LF_strip (s : string) : no_LF s = true -> no_LF (strip s) = true.
Proof. intros H. apply no_LF_rstrip, no_LF_lstrip, H. Qed.

Lemma startswith_brace_strip (s : string) :
  startswith "{" (strip s) = startswith "{" (lstrip s).
Proof. apply startswith_brace_rstrip. Qed.

Lemma lstrip_app (l y : string) :
  blank l = false -> lstrip (l ++ y) = (lstrip l ++ y)%string.
Proof.
  induction l as [|c l IH]; [discriminate|].
  cbn [blank]. intros H.
  change (String c l ++ y)%string with (String c (l ++ y)%string).
  rewrite !lstrip_cons. destruct (is_space c); [|reflexivity].
  apply IH. exact H.
Qed.

Lemma startswith_brace_app (a y : string) :
  is_empty a = false ->
  startswith "{" (a ++ y) = startswith "{" a.
Proof.
  destruct a as [|c a]; [discriminate|]. intros _.
  unfold startswith. cbn [append prefix].
  destruct (Ascii.ascii_dec "{" c); [|reflexivity].
  rewrite !prefix_nil. reflexivity.
Qed.

Lemma lstrip_not_empty (l : string) :
  blank l = false -> is_empty (lstrip l) = false.
Proof.
  intros H. destruct (lstrip l) eqn:E; [|reflexivity].
  rewrite <- blank_lstrip, E in H. discriminate.
Qed.

Lemma looks_like_json_not_blank (l : string) :
  looks_like_json l = true -> blank l = false.
Proof.
  intros H. destruct (blank l) eqn:E; [|reflexivity].
  rewrite (looks_like_json_blank _ E) in H. discriminate.
Qed.

(** The first character of a joined text after stripping is that of its
    first line, when that line is not blank. *)
Lemma startswith_brace_join (k : string) (ks : list string) :
  blank k = false ->
  startswith "{" (strip (join_nl (k :: ks))) = startswith "{" (strip k).
Proof.
  intros H. rewrite !startswith_brace_strip.
  destruct ks as [|k' ks']; [reflexivity|].
  change (join_nl (k :: k' :: ks'))
    with (k ++ String LF (join_nl (k' :: ks')))%string.
  rewrite (lstrip_app _ _ H).
  apply startswith_brace_app, lstrip_not_empty, H.
Qed.

Lemma startswith_brace_clean_output (raw : string) :
  startswith "{" (strip (_clean_output raw)) =
  startswith "{" (hd "" (json_lines (split_nl raw))).
Proof.
  rewrite <- json_lines_strip, <- json_lines_clean_loop. unfold _clean_output.
  destruct (clean_loop_suffix (split_nl (strip raw))) as (dropped & _ & _ & Hk).
  destruct (clean_loop (split_nl (strip raw)) []) as [|k ks]; [reflexivity|].
  destruct Hk as [Hk | Hk]; [discriminate|]. cbn [hd] in Hk.
  rewrite (startswith_brace_join _ _ (looks_like_json_not_blank _ Hk)).
  rewrite json_lines_cons, Hk. reflexivity.
Qed.

Lemma later_brace_spec (ls : list string) :
  later_brace ls = true <->
  exists pre l mid l' post,
    ls = pre ++ l :: mid ++ l' :: post
    /\ looks_like_json l = true
    /\ startswith "{" l' = true.
Proof.
  split.
  - induction ls as [|l ls IH]; [discriminate|].
    rewrite later_brace_cons. destruct (looks_like_json l) eqn:E.
    + intros H. apply existsb_exists in H. destruct H as (l' & Hin & Hl').
      apply in_split in Hin. destruct Hin as (mid & post & ->).
      exists [], l, mid, l', post. repeat split; assumption.
    + intros H. destruct (IH H) as (pre & a & mid & l' & post & -> & Ha & Hl').
      exists (l :: pre), a, mid, l', post. repeat split; assumption.
  - intros (pre & l & mid & l' & post & -> & Hl & Hl').
    assert (Hex : forall a b, existsb (startswith "{") (a ++ l' :: b) = true).
    { intros a b. rewrite existsb_app. cbn [existsb]. rewrite Hl'.
      apply orb_true_r. }
    induction pre as [|p pre IH]; cbn [app]; rewrite later_brace_cons.
    + rewrite Hl. apply Hex.
    + destruct (looks_like_json p); [|exact IH].
      rewrite app_comm_cons, app_assoc. apply Hex.
Qed.

(** *** Cleaning *)

(** X2.  [_clean_output] splits the stripped output into a run of leading
    lines, none of which looks like JSON, which it drops, and the remaining
    lines, which it keeps as they are, joined by line feeds; what it keeps is
    empty or begins with a line that looks like JSON. *)
Theorem clean_output_keeps_suffix (raw : string) :
  exists dropped kept,
    split_nl (strip raw) = dropped ++ kept
    /\ existsb looks_like_json dropped = false
    /\ _clean_output raw = join_nl kept
    /\ (kept = [] \/ looks_like_json (hd "" kept) = true).
Proof.
  destruct (clean_loop_suffix (split_nl (strip raw)))
    as (dropped & Heq & Hd & Hk).
  exists dropped, (clean_loop (split_nl (strip raw)) []).
  repeat split; assumption.
Qed.

(** X3.  When the first line of the stripped output looks like JSON, nothing
    is dropped: the cleaned text is the stripped output, continuation lines
    included. *)
Theorem clean_output_json_first (raw : string) :
  looks_like_json (hd "" (split_nl (strip raw))) = true ->
  _clean_output raw = strip raw.
Proof.
  intros H. unfold _clean_output.
  rewrite (split_nl_hd_tl (strip raw)), clean_loop_cons, H.
  rewrite <- split_nl_hd_tl. apply join_split.
Qed.

Section MoreParseProperties.

Variable float : Type.
Variable float_add : float -> float -> float.
Variable float_of_int : Z -> option float.
Variable float_bool : float -> bool.
Variable json_loads : string -> exn + value float.
Variable now_ms : nat -> Z.

Local Notation state := (list (Message float) * value float)%type.
Local Notation dict := (list (string * value float)).
Local Notation stream_step' := (stream_step float_bool json_loads now_ms).
Local Notation stream_loop' := (stream_loop float_bool json_loads now_ms).
Local Notation parse_stream' :=
  (_parse_stream_json float_bool json_loads now_ms).
Local Notation parse_single' :=
  (_parse_single_json float_add float_of_int float_bool json_loads now_ms).
Local Notation parse' :=
  (parse float_add float_of_int float_bool json_loads now_ms).
Local Notation synthesized := (@synthesized_id float now_ms).
Local Notation truthy' := (truthy float_bool).

Lemma parse_no_json_lines (raw stderr : string) (t : nat) :
  existsb looks_like_json (split_nl raw) = false ->
  parse' raw stderr t = inr ([], t).
Proof.
  intros H. unfold parse.
  destruct (is_empty raw || is_empty (strip raw)); [reflexivity|].
  apply json_lines_nil in H. rewrite <- json_lines_strip in H.
  apply json_lines_nil in H.
  unfold _clean_output. rewrite (clean_loop_no_json _ H). reflexivity.
Qed.

(** X1.  An output that is empty or all whitespace, and more generally an
    output none of whose lines looks like JSON (a banner, plain text), gives
    the empty message sequence: [parse] does not raise and does not read the
    clock. *)
Theorem no_json_no_messages (raw stderr : string) (t : nat) :
  (blank raw = true -> parse' raw stderr t = inr ([], t))
  /\ (existsb looks_like_json (split_nl raw) = false ->
      parse' raw stderr t = inr ([], t)).
Proof.
  split; intros H.
  - unfold parse. rewrite (strip_blank _ H), orb_true_r. reflexivity.
  - apply parse_no_json_lines. exact H.
Qed.

(** *** Format detection *)

(** X5.  Format detection read on the lines of the raw output: the
    single-JSON decoder is chosen exactly when the first line that looks
    like JSON starts (after indentation) with a brace and no line starting
    with a brace in column 0 comes after a line that looks like JSON. *)
Theorem format_detection_on_lines (raw : string) :
  (detect_format (_clean_output raw) = SingleJSON <->
   startswith "{" (hd "" (json_lines (split_nl raw))) = true
   /\ later_brace (split_nl raw) = false)
  /\ (later_brace (split_nl raw) = true <->
      exists pre l mid l' post,
        split_nl raw = pre ++ l :: mid ++ l' :: post
        /\ looks_like_json l = true
        /\ startswith "{" l' = true).
Proof.
  split; [|apply later_brace_spec].
  unfold detect_format.
  rewrite startswith_brace_clean_output, contains_clean_output.
  destruct (startswith "{" (hd "" (json_lines (split_nl raw))));
    destruct (later_brace (split_nl raw)); cbn;
    split; intros H; try discriminate; try destruct H; try discriminate;
    auto.
Qed.

(** X6.  An output of one line that starts with a brace is always decoded as
    a single JSON object, a lone stream event included: [parse] runs
    [_parse_single_json] on the stripped line. *)
Theorem single_line_is_single_json (raw stderr : string) (t : nat) :
  no_LF raw = true ->
  startswith "{" (strip raw) = true ->
  parse' raw stderr t = wrap_error raw (parse_single' (strip raw) t).
Proof.
  intros Hline Hb.
  assert (Hclean : _clean_output raw = strip raw).
  { apply clean_output_json_first.
    rewrite (split_nl_line _ (no_LF_strip _ Hline)). cbn [hd].
    unfold looks_like_json. rewrite strip_idem, Hb. reflexivity. }
  rewrite parse_dispatch, Hclean. unfold detect_format.
  rewrite strip_idem, Hb, contains_LF_brace,
    (split_nl_line _ (no_LF_strip _ Hline)).
  reflexivity.
Qed.

(** X7.  In stream mode the outcome depends on the raw output only through
    its stripped lines that start with a brace: indentation, blank lines,
    banners and any other line between the events are immaterial. *)
Theorem stream_outcome_by_brace_lines (raw1 raw2 stderr : string) (t : nat) :
  detect_format (_clean_output raw1) = StreamJSON ->
  detect_format (_clean_output raw2) = StreamJSON ->
  brace_lines (split_nl raw1) = brace_lines (split_nl raw2) ->
  outcome (parse' raw1 stderr t) = outcome (parse' raw2 stderr t).
Proof.
  intros H1 H2 Heq.
  rewrite !parse_stream_lines by assumption.
  rewrite !outcome_wrap_error, Heq. reflexivity.
Qed.

(** *** Failures of the single-JSON decoder *)

(** X8.  In single-JSON mode a decode failure is fatal: when [json.loads]
    raises on the cleaned text, [parse] raises a [ParsingError] that keeps
    the raw output and wraps a [CLIJSONDecodeError] holding the cleaned text
    (for a decode error) or the exception itself (for any other). *)
Theorem single_json_decode_failure (raw stderr : string) (e : exn)
    (t : nat) :
  detect_format (_clean_output raw) = SingleJSON ->
  json_loads (_clean_output raw) = inl e ->
  parse' raw stderr t =
  inl (ParsingError "Failed to parse Gemini CLI JSON output" raw
         (if is_JSONDecodeError e
          then CLIJSONDecodeError (_clean_output raw) else e)).
Proof.
  intros Hf He. rewrite parse_dispatch, Hf. cbn [parse_as].
  unfold _parse_single_json, bind. rewrite He.
  destruct e; reflexivity.
Qed.

(** *** The messages of a single-JSON parse *)

Lemma parse_single_full (json_str : string) (t : nat)
    (msgs : list (Message float)) (t' : nat) :
  parse_single' json_str t = inr (msgs, t') ->
  exists d r tokens calls models,
    json_loads json_str = inr (VDict d)
    /\ t' = S t
    /\ msgs = (if truthy' (dict_get_default d "response" (VStr ""))
               then [AssistantMessage
                       [TextBlock (dict_get_default d "response" (VStr ""))]]
               else []) ++ [ResultMessage r]
    /\ subtype r = VStr "success"
    /\ is_error r = false
    /\ num_turns r = 1
    /\ session_id r = synthesized t
    /\ usage r = Some [("total_tokens", tokens); ("tool_calls", calls);
                       ("models", VDict models)].
Proof.
  unfold _parse_single_json, bind. intros H.
  destruct (json_loads json_str) as [e | data].
  { destruct e; discriminate. }
  destruct data as [| | | | | |d]; try discriminate.
  cbn [lift ret py_get] in H.
  repeat match type of H with
         | match ?x with _ => _ end = inr _ =>
             let E := fresh "E" in destruct x as [? | [? ?]] eqn:E;
             [discriminate|]
         | (let '(_, _) := ?p in _) _ = inr _ => destruct p
         end.
  unfold _generate_session_id in *.
  repeat match goal with
         | E : lift _ _ = inr _ |- _ =>
             apply lift_inr in E; destruct E as [E ?]; subst
         | E : inr _ = inr _ |- _ => injection E as ? ?; subst
         end.
  match goal with
  | E : py_items ?v = inr ?l |- _ =>
      destruct v; try discriminate E; injection E as ?; subst
  end.
  unfold ret in H. injection H as Hm Ht. subst.
  eexists d, _, _, _, _. repeat split; reflexivity.
Qed.

(** X9.  Whenever [_parse_single_json] returns, the payload was an object,
    the clock was read once, and the messages are an [AssistantMessage]
    holding the response (only when the response is truthy) followed by one
    [ResultMessage] with subtype "success", [is_error = false],
    [num_turns = 1], a synthesized session id and a usage of three entries:
    total_tokens, tool_calls and the per-model statistics as decoded. *)
Theorem single_json_shape (json_str : string) (t : nat)
    (msgs : list (Message float)) (t' : nat) :
  parse_single' json_str t = inr (msgs, t') ->
  exists d r tokens calls models,
    json_loads json_str = inr (VDict d)
    /\ t' = S t
    /\ msgs = (if truthy' (dict_get_default d "response" (VStr ""))
               then [AssistantMessage
                       [TextBlock (dict_get_default d "response" (VStr ""))]]
               else []) ++ [ResultMessage r]
    /\ subtype r = VStr "success"
    /\ is_error r = false
    /\ num_turns r = 1
    /\ session_id r = synthesized t
    /\ usage r = Some [("total_tokens", tokens); ("tool_calls", calls);
                       ("models", VDict models)].
Proof.
  intros H.
  destruct (parse_single_full json_str t msgs t' H)
    as (d & r & tokens & calls & models & Hd & Ht & Hm & Hrest).
  exists d, r, tokens, calls, models.
  split; [exact Hd|]. split; [exact Ht|]. split; [exact Hm | exact Hrest].
Qed.

(** X10.  On a well-formed payload whose response is a non-empty string, the
    [result] of the [ResultMessage] is a prefix of the response of
    min(100, length) characters: the response itself when it has at most
    100 characters, its first 100 otherwise. *)
Theorem single_json_result_bound (json_str : string) (d : dict)
    (s : string) (t : nat) :
  json_loads json_str = inr (VDict d) ->
  wf_payload d = true ->
  dict_get_default d "response" (VStr "") = VStr s ->
  s <> "" ->
  exists r x,
    parse_single' json_str t =
    inr ([AssistantMessage [TextBlock (VStr s)]; ResultMessage r], S t)
    /\ result r = VStr x
    /\ String.length x = Nat.min 100 (String.length s)
    /\ prefix x s = true
    /\ ((String.length s <= 100)%nat -> x = s).
Proof.
  intros Hd Hwf Hr Hs.
  exists (single_result now_ms d s t), (take 100 s).
  rewrite (parse_single_wf _ float_add float_of_int float_bool json_loads
             now_ms json_str d s t Hd Hwf Hr).
  destruct s as [|c s']; [congruence|].
  split; [reflexivity|]. split; [reflexivity|].
  split; [apply take_length|]. split; [apply take_prefix | apply take_all].
Qed.

(** X11.  A single-JSON payload whose "stats", or whose "stats.models", is
    present and is not an object makes the whole parse fail: [parse] raises
    a [ParsingError] wrapping an [AttributeError], and no message is
    delivered, not even the response that was already decoded. *)
Theorem single_json_stats_not_object (raw stderr : string) (d : dict)
    (t : nat) :
  detect_format (_clean_output raw) = SingleJSON ->
  json_loads (_clean_output raw) = inr (VDict d) ->
  (exists v, dict_get d "stats" = Some v /\ is_dict v = false)
  \/ (exists st v, dict_get d "stats" = Some (VDict st)
                   /\ dict_get st "models" = Some v /\ is_dict v = false) ->
  parse' raw stderr t =
  inl (ParsingError "Failed to parse Gemini CLI JSON output" raw
         AttributeError).
Proof.
  intros Hf Hd Hbad. rewrite parse_dispatch, Hf. cbn [parse_as].
  unfold _parse_single_json, bind. rewrite Hd. cbn [lift ret py_get].
  unfold dict_get_default.
  destruct Hbad as [(v & Hv & Hnd) | (st & v & Hst & Hv & Hnd)].
  - rewrite Hv. destruct v; try discriminate Hnd; reflexivity.
  - rewrite Hst. cbn [lift ret py_get]. unfold dict_get_default. rewrite Hv.
    destruct v; try discriminate Hnd; reflexivity.
Qed.

(** X12.  A single-JSON payload without a "stats" key is not an error: every
    total defaults to 0 and the per-model statistics to the empty object.
    With a response string [s] (the empty string when the key is missing)
    the parse gives the [AssistantMessage], when [s] is not empty, and a
    [ResultMessage] with [duration_ms = 0], [total_tokens = 0] and
    [tool_calls = 0]. *)
Theorem single_json_missing_stats (json_str : string) (d : dict)
    (s : string) (t : nat) :
  json_loads json_str = inr (VDict d) ->
  dict_get d "stats" = None ->
  dict_get_default d "response" (VStr "") = VStr s ->
  parse_single' json_str t =
  inr ((if is_empty s then []
        else [AssistantMessage [TextBlock (VStr s)]])
       ++ [ResultMessage
             {| subtype := VStr "success";
                duration_ms := VInt 0;
                is_error := false;
                session_id := synthesized t;
                num_turns := 1;
                total_cost_usd := None;
                usage := Some [("total_tokens", VInt 0);
                               ("tool_calls", VInt 0);
                               ("models", VDict [])];
                result := if is_empty s then VNone
                          else VStr (take 100 s) |}], S t).
Proof.
  intros Hd Hst Hr.
  assert (Hwf : wf_payload d = true) by (unfold wf_payload; rewrite Hst; reflexivity).
  rewrite (parse_single_wf _ float_add float_of_int float_bool json_loads
             now_ms json_str d s t Hd Hwf Hr).
  unfold single_result, payload_models, payload_tool_calls. rewrite Hst.
  reflexivity.
Qed.

(** *** Events of a stream *)

(** X13.  A stream event of an unknown type (none of "init", "message",
    "result", "error", or no type at all), and a "message" event whose role
    is neither "user" nor "assistant", is passed over: no message, no change
    of the session id, no reading of the clock. *)
Theorem stream_unknown_event (st : state) (line : string) (d : dict)
    (t : nat) :
  startswith "{" (strip line) = true ->
  json_loads (strip line) = inr (VDict d) ->
  (has_type d "init" = false /\ has_type d "message" = false
   /\ has_type d "result" = false /\ has_type d "error" = false)
  \/ (has_type d "message" = true
      /\ py_eq_str (dict_get_default d "role" VNone) "user" = false
      /\ py_eq_str (dict_get_default d "role" VNone) "assistant" = false) ->
  stream_step' st line t = inr (st, t).
Proof.
  intros Hb Hd H. rewrite stream_step_brace by exact Hb.
  unfold stream_event. destruct st as [messages sid]. rewrite Hd.
  unfold bind. cbn [lift ret py_get]. unfold has_type in H.
  destruct H as [(H1 & H2 & H3 & H4) | (H1 & H2 & H3)].
  - rewrite H1, H2, H3, H4. reflexivity.
  - rewrite (has_type_exclusive _ d "message" "init" H1 eq_refl
             : py_eq_str _ _ = _).
    rewrite H1. cbn [lift ret]. rewrite H2, H3. reflexivity.
Qed.

(** X14.  A "result" event whose "stats" is an object or is missing appends
    one [ResultMessage]: its subtype is the "status" of the payload
    ("success" when missing), [is_error] holds exactly when the status is
    the string "error", every statistic missing from "stats" counts as 0,
    [num_turns = 1], and cost and result are absent. *)
Theorem stream_result_event (messages : list (Message float))
    (sid : value float) (line : string) (d : dict) (t : nat) :
  startswith "{" (strip line) = true ->
  json_loads (strip line) = inr (VDict d) ->
  has_type d "result" = true ->
  dict_or_absent (dict_get d "stats") = true ->
  let stats := match dict_get d "stats" with
               | Some (VDict st) => st
               | _ => []
               end in
  stream_step' (messages, sid) line t =
  inr ((messages ++
        [ResultMessage
           {| subtype := dict_get_default d "status" (VStr "success");
              duration_ms := dict_get_default stats "duration_ms" (VInt 0);
              is_error := py_eq_str (dict_get_default d "status" VNone) "error";
              session_id := if truthy' sid then sid else synthesized t;
              num_turns := 1;
              total_cost_usd := None;
              usage :=
                Some [("total_tokens",
                       dict_get_default stats "total_tokens" (VInt 0));
                      ("input_tokens",
                       dict_get_default stats "input_tokens" (VInt 0));
                      ("output_tokens",
                       dict_get_default stats "output_tokens" (VInt 0));
                      ("tool_calls",
                       dict_get_default stats "tool_calls" (VInt 0))];
              result := VNone |}], sid),
       if truthy' sid then t else S t).
Proof.
  intros Hb Hd Hty Hst stats. subst stats.
  rewrite stream_step_brace by exact Hb.
  unfold stream_event. rewrite Hd.
  unfold bind, session_id_or_generate, _generate_session_id.
  cbn [lift ret py_get].
  rewrite (has_type_exclusive _ d "result" "init" Hty eq_refl
           : py_eq_str _ _ = _).
  rewrite (has_type_exclusive _ d "result" "message" Hty eq_refl
           : py_eq_str _ _ = _).
  unfold has_type in Hty. rewrite Hty.
  unfold dict_get_default at 1 2 3 4 5.
  destruct (dict_get d "stats") as [[| | | | | |st]|];
    try discriminate; cbn [lift ret py_get];
    destruct (truthy' sid); reflexivity.
Qed.

(** X15.  An "error" event appends one [ResultMessage] with subtype "error",
    [is_error = true], [duration_ms = 0], [num_turns = 0], no usage and no
    cost; its result is the "message" of the payload, and the text
    "Unknown error" when the payload has none. *)
Theorem stream_error_event (messages : list (Message float))
    (sid : value float) (line : string) (d : dict) (t : nat) :
  startswith "{" (strip line) = true ->
  json_loads (strip line) = inr (VDict d) ->
  has_type d "error" = true ->
  stream_step' (messages, sid) line t =
  inr ((messages ++
        [ResultMessage
           {| subtype := VStr "error";
              duration_ms := VInt 0;
              is_error := true;
              session_id := if truthy' sid then sid else synthesized t;
              num_turns := 0;
              total_cost_usd := None;
              usage := None;
              result := match dict_get d "message" with
                        | Some m => m
                        | None => VStr "Unknown error"
                        end |}], sid),
       if truthy' sid then t else S t).
Proof.
  intros Hb Hd Hty.
  rewrite stream_step_brace by exact Hb.
  unfold stream_event. rewrite Hd.
  unfold bind, session_id_or_generate, _generate_session_id.
  cbn [lift ret py_get].
  rewrite (has_type_exclusive _ d "error" "init" Hty eq_refl
           : py_eq_str _ _ = _).
  rewrite (has_type_exclusive _ d "error" "message" Hty eq_refl
           : py_eq_str _ _ = _).
  rewrite (has_type_exclusive _ d "error" "result" Hty eq_refl
           : py_eq_str _ _ = _).
  unfold has_type in Hty. rewrite Hty.
  destruct (truthy' sid); reflexivity.
Qed.

(** *** Invariants of the stream loop *)

Lemma truthy_synthesized (k : nat) : truthy' (synthesized k) = true.
Proof. reflexivity. Qed.

Lemma result_ids_truthy_app (m1 m2 : list (Message float)) :
  result_ids_truthy float_bool (m1 ++ m2) =
  result_ids_truthy float_bool m1 && result_ids_truthy float_bool m2.
Proof. apply forallb_app. Qed.

(** What one line adds: at most one message, a [ResultMessage] only with a
    truthy session id, and at most one reading of the clock. *)
Lemma stream_step_adds (sid sid' : value float) (l : string)
    (new : list (Message float)) (t t' : nat) :
  stream_step' ([], sid) l t = inr ((new, sid'), t') ->
  result_ids_truthy float_bool new = true
  /\ (length new <= 1)%nat
  /\ (t <= t' <= S t)%nat
  /\ (startswith "{" (strip l) = false -> new = [] /\ t' = t).
Proof.
  unfold stream_step.
  destruct (startswith "{" (strip l)) eqn:Eb.
  2:{ rewrite orb_true_r. unfold ret. intros H. injection H as <- _ <-.
      repeat split; cbn; lia. }
  rewrite (brace_not_empty _ Eb). cbn [orb negb].
  unfold stream_event.
  destruct (json_loads (strip l)) as [e | data].
  { intros H. destruct e; unfold ret, raise in H; try discriminate.
    injection H as <- _ <-. repeat split; cbn; try lia; discriminate. }
  destruct data as [| | | | | |d]; try discriminate.
  unfold bind, session_id_or_generate, _generate_session_id.
  cbn [lift ret py_get]. intros H.
  repeat match type of H with
         | context [if ?c then _ else _] => destruct c eqn:?
         | context [py_get (dict_get_default ?d ?k ?v) _ _] =>
             destruct (dict_get_default d k v);
             cbn [lift ret raise py_get] in H
         end;
    unfold ret, raise in H; try discriminate;
    injection H as <- _ <-;
    (split; [cbn; rewrite ?andb_true_r; solve [reflexivity | assumption]|]);
    repeat split; cbn; try lia; discriminate.
Qed.

Lemma stream_loop_adds (ls : list string) (messages : list (Message float))
    (sid : value float) (t : nat) (messages' : list (Message float))
    (sid' : value float) (t' : nat) :
  stream_loop' ls (messages, sid) t = inr ((messages', sid'), t') ->
  exists new,
    messages' = messages ++ new
    /\ result_ids_truthy float_bool new = true
    /\ (length new <= length (brace_lines ls))%nat
    /\ (t <= t' <= t + length (brace_lines ls))%nat.
Proof.
  revert messages sid t.
  induction ls as [|l ls IH]; intros messages sid t H.
  - cbn [stream_loop] in H. unfold ret in H. injection H as <- _ <-.
    exists []. rewrite app_nil_r. repeat split; cbn; lia.
  - cbn [stream_loop] in H. unfold bind in H.
    rewrite stream_step_frame in H.
    destruct (stream_step' ([], sid) l t) as [e | [[new1 sid1] t1]] eqn:E;
      [discriminate|].
    cbn [on_top] in H.
    destruct (stream_step_adds _ _ _ _ _ _ E) as (Hid & Hlen & Ht & Hskip).
    destruct (IH _ _ _ H) as (new2 & -> & Hid2 & Hlen2 & Ht2).
    exists (new1 ++ new2). rewrite app_assoc.
    split; [reflexivity|].
    split; [rewrite result_ids_truthy_app, Hid, Hid2; reflexivity|].
    rewrite brace_lines_cons, !length_app.
    destruct (startswith "{" (strip l)).
    + cbn [length]. split; lia.
    + destruct (Hskip eq_refl) as [-> ->]. cbn [length]. split; lia.
Qed.

(** X16.  In every message sequence that [parse] returns, each
    [ResultMessage] has a truthy session id: the id captured from an "init"
    event when that is truthy, and a synthesized one otherwise; an empty or
    null id never reaches a [ResultMessage]. *)
Theorem result_session_id_never_empty (raw stderr : string) (t : nat)
    (msgs : list (Message float)) (t' : nat) :
  parse' raw stderr t = inr (msgs, t') ->
  result_ids_truthy float_bool msgs = true.
Proof.
  rewrite parse_dispatch.
  destruct (detect_format (_clean_output raw)); cbn [parse_as].
  - destruct (parse_single' (_clean_output raw) t) as [e | [m t1]] eqn:E;
      [discriminate|].
    cbn [wrap_error]. intros H. injection H as <- <-.
    destruct (parse_single_full _ _ _ _ E)
      as (d & r & tokens & calls & models & _ & _ & -> & _ & _ & _ & Hsid & _).
    rewrite result_ids_truthy_app.
    destruct (truthy' (dict_get_default d "response" (VStr "")));
      cbn; rewrite Hsid; reflexivity.
  - unfold _parse_stream_json, bind.
    destruct (stream_loop' (split_nl (strip (_clean_output raw)))
                ([], VNone) t) as [e | [[m sid] t1]] eqn:E; [discriminate|].
    cbn [wrap_error ret fst]. unfold ret. cbn [wrap_error fst].
    intros H. injection H as <- <-.
    destruct (stream_loop_adds _ _ _ _ _ _ _ E) as (new & -> & Hid & _).
    exact Hid.
Qed.

(** X17.  In stream mode each line that starts with a brace gives at most
    one message and reads the clock at most once: the sequence returned is
    no longer than the number of such lines, and the clock count grows by at
    most that number. *)
Theorem stream_messages_bounded (raw stderr : string) (t : nat)
    (msgs : list (Message float)) (t' : nat) :
  detect_format (_clean_output raw) = StreamJSON ->
  parse' raw stderr t = inr (msgs, t') ->
  (length msgs <= length (brace_lines (split_nl raw)))%nat
  /\ (t <= t' <= t + length (brace_lines (split_nl raw)))%nat.
Proof.
  intros Hf. rewrite (parse_stream_lines _ _ _ _ _ _ _ _ _ Hf). unfold bind.
  rewrite <- stream_loop_brace_lines.
  destruct (stream_loop' (split_nl raw) ([], VNone) t)
    as [e | [[m sid] t1]] eqn:E; [discriminate|].
  unfold ret. cbn [wrap_error fst]. intros H. injection H as <- <-.
  destruct (stream_loop_adds _ _ _ _ _ _ _ E) as (new & -> & _ & Hlen & Ht).
  cbn [app]. split; assumption.
Qed.

(** *** Composition of the stream loop *)

(** X18.  The stream loop is incremental: running it over two runs of lines
    put end to end is running it over the first, then over the second from
    the session id and the clock count the first left, the messages of the
    second coming after those of the first; an exception in the first run
    is the outcome of the whole. *)
Theorem stream_loop_incremental (l1 l2 : list string) (t : nat) :
  stream_loop float_bool json_loads now_ms (l1 ++ l2) ([], VNone) t =
  match stream_loop float_bool json_loads now_ms l1 ([], VNone) t with
  | inl e => inl e
  | inr ((msgs1, sid1), t1) =>
      match stream_loop float_bool json_loads now_ms l2 ([], sid1) t1 with
      | inl e => inl e
      | inr ((msgs2, sid2), t2) => inr ((msgs1 ++ msgs2, sid2), t2)
      end
  end.
Proof.
  rewrite stream_loop_app. unfold bind.
  destruct (stream_loop' l1 ([], VNone) t) as [e | [[msgs1 sid1] t1]];
    [reflexivity|].
  rewrite stream_loop_frame.
  destruct (stream_loop' l2 ([], sid1) t1) as [e | [[msgs2 sid2] t2]];
    reflexivity.
Qed.

(** X19.  One ill-shaped event discards the whole stream: when the lines
    before it were decoded without fault and a "result" event then carries a
    "stats" that is not an object, [_parse_stream_json] raises
    [AttributeError], whatever the lines after it; none of the messages
    decoded so far is returned. *)
Theorem stream_bad_result_event (json_str : string)
    (pre post : list string) (line : string) (d : dict) (v : value float)
    (st1 : state) (t t1 : nat) :
  split_nl (strip json_str) = pre ++ line :: post ->
  stream_loop' pre ([], VNone) t = inr (st1, t1) ->
  startswith "{" (strip line) = true ->
  json_loads (strip line) = inr (VDict d) ->
  has_type d "result" = true ->
  dict_get d "stats" = Some v ->
  is_dict v = false ->
  parse_stream' json_str t = inl AttributeError.
Proof.
  intros Hsplit Hpre Hb Hd Hty Hst Hv.
  unfold _parse_stream_json, bind. rewrite Hsplit, stream_loop_app.
  unfold bind. rewrite Hpre. cbn [stream_loop]. unfold bind.
  rewrite stream_step_brace by exact Hb.
  unfold stream_event. destruct st1 as [messages sid]. rewrite Hd.
  unfold bind. cbn [lift ret py_get].
  rewrite (has_type_exclusive _ d "result" "init" Hty eq_refl
           : py_eq_str _ _ = _).
  rewrite (has_type_exclusive _ d "result" "message" Hty eq_refl
           : py_eq_str _ _ = _).
  unfold has_type in Hty. rewrite Hty.
  unfold dict_get_default at 1. rewrite Hst.
  destruct v; try discriminate Hv; reflexivity.
Qed.

(** X20.  The session id announced by an "init" event is the one its
    results carry: when the id captured at the "init" line is truthy (as it
    always is when the payload has no "session_id", the id then being
    synthesized), the [SystemMessage] holds it under "session_id" and the
    [ResultMessage] of a later "result" or "error" line, no other "init"
    line in between, has the same id. *)
Theorem init_and_result_share_session_id (pre mid : list string)
    (init last : string) (di dl : dict) (msgs0 msgs2 : list (Message float))
    (sid0 sid2 : value float) (t t0 t2 : nat) :
  stream_loop' pre ([], VNone) t = inr ((msgs0, sid0), t0) ->
  startswith "{" (strip init) = true ->
  json_loads (strip init) = inr (VDict di) ->
  has_type di "init" = true ->
  let captured := dict_get_default di "session_id" (synthesized t0) in
  dict_get di "session_id" = None \/ truthy' captured = true ->
  forallb (not_init json_loads) mid = true ->
  stream_loop' mid ([], captured) (S t0) = inr ((msgs2, sid2), t2) ->
  startswith "{" (strip last) = true ->
  json_loads (strip last) = inr (VDict dl) ->
  (has_type dl "result" = true /\ dict_or_absent (dict_get dl "stats") = true)
  \/ has_type dl "error" = true ->
  exists r,
    stream_loop' (pre ++ init :: mid ++ [last]) ([], VNone) t =
    inr ((msgs0 ++ init_system_message di captured :: msgs2
          ++ [ResultMessage r], captured), t2)
    /\ system_data (init_system_message di captured) "session_id"
       = Some captured
    /\ session_id r = captured.
Proof.
  intros Hpre Hbi Hdi Htyi captured Hcap Hmid Hrun Hbl Hdl Htyl.
  assert (Htr : truthy' captured = true).
  { destruct Hcap as [Hn | Htr]; [|exact Htr].
    unfold captured, dict_get_default. rewrite Hn. reflexivity. }
  assert (Hsid2 : sid2 = captured)
    by exact (stream_loop_keeps_session _ _ _ _ _ _ _ _ _ _ _ Hmid Hrun).
  subst sid2.
  destruct (stream_step_result _ float_bool json_loads now_ms
              (msgs0 ++ init_system_message di captured :: msgs2)
              captured last dl t2 Hbl Hdl Htyl) as (r & Er & Hr).
  rewrite Htr in Er, Hr.
  exists r. split; [|split; [reflexivity | exact Hr]].
  rewrite stream_loop_app. unfold bind. rewrite Hpre.
  cbn [stream_loop]. unfold bind.
  rewrite (stream_step_init _ float_bool json_loads now_ms
             msgs0 sid0 init di t0 Hbi Hdi Htyi).
  fold captured. rewrite stream_loop_app. unfold bind.
  rewrite stream_loop_frame, Hrun. cbn [on_top stream_loop]. unfold bind.
  rewrite <- app_assoc. cbn [app].
  rewrite Er. unfold ret. rewrite <- app_assoc. reflexivity.
Qed.

End MoreParseProperties.

(* ===================================================================== *)
(** ** Further properties of the client *)
(* ===================================================================== *)

Module ClientMore.
Import Client.

Section ProcessQueryMore.

Variable float : Type.
Variable fault : Type.
Variable str : fault -> string.

Local Notation Transport := (Transport fault).
Local Notation ParserStrategy := (ParserStrategy float fault).
Local Notation process_query' := (@process_query float fault str).
Local Notation error_message' := (@error_message float fault str).

Lemma yielded_yields_then (messages : list (Message float))
    (rest : list (event float)) :
  yielded (map (@Yield float) messages ++ rest) = messages ++ yielded rest.
Proof.
  induction messages as [|m ms IH]; [reflexivity|].
  cbn. rewrite IH. reflexivity.
Qed.

(** X21.  When connect, execute and parse all return, the run is: connect,
    the synthetic init message, the echo of the prompt, execute, parse on
    what execute returned, every parsed message in the order the parser gave
    them, disconnect.  The consumer receives no error message, and the run
    ends normally once [disconnect] has returned. *)
Theorem process_query_success (env : Environment) (transport : Transport)
    (parser : ParserStrategy) (prompt : string) (options : GeminiOptions)
    (out : string * string) (messages : list (Message float)) :
  connect transport = None ->
  execute transport prompt options = inr out ->
  parse parser (fst out) (snd out) = inr messages ->
  let run := process_query' env transport parser prompt options in
  fst run =
    [Connect; Yield (init_message env parser options);
     Yield (UserMessage (VStr prompt)); Execute prompt;
     Parse (fst out) (snd out)]
    ++ map (@Yield float) messages ++ [Disconnect]
  /\ yielded (fst run) =
     init_message env parser options :: UserMessage (VStr prompt) :: messages
  /\ (disconnect transport = None -> snd run = inr tt).
Proof.
  intros Hc He Hp run. subst run.
  unfold process_query, process_query_try. rewrite Hc. cbn.
  rewrite He. cbn. rewrite Hp, ClientFacts.yield_all_trace. cbn.
  split; [|split].
  - destruct (disconnect transport); cbn; rewrite ?app_nil_r; reflexivity.
  - destruct (disconnect transport); cbn; rewrite ?app_nil_r;
      rewrite yielded_yields_then; cbn; rewrite app_nil_r; reflexivity.
  - intros Hd. rewrite Hd. reflexivity.
Qed.

(** X22.  A step that raises ends the work of the run: after a fault of
    connect, execute is never called and no synthetic message is yielded;
    after a fault of execute, the parser is never called; after a fault of
    the parser, no parsed message is yielded.  In each case the only things
    that follow are the error message and disconnect. *)
Theorem process_query_stops_at_fault (env : Environment)
    (transport : Transport) (parser : ParserStrategy) (prompt : string)
    (options : GeminiOptions) :
  let run := process_query' env transport parser prompt options in
  (forall e, connect transport = Some e ->
     fst run = [Connect; Yield (error_message' e); Disconnect])
  /\ (forall e, connect transport = None ->
        execute transport prompt options = inl e ->
        fst run = [Connect; Yield (init_message env parser options);
                   Yield (UserMessage (VStr prompt)); Execute prompt;
                   Yield (error_message' e); Disconnect])
  /\ (forall e out, connect transport = None ->
        execute transport prompt options = inr out ->
        parse parser (fst out) (snd out) = inl e ->
        fst run = [Connect; Yield (init_message env parser options);
                   Yield (UserMessage (VStr prompt)); Execute prompt;
                   Parse (fst out) (snd out);
                   Yield (error_message' e); Disconnect]).
Proof.
  intros run. subst run. unfold process_query, process_query_try.
  repeat split.
  - intros e Hc. rewrite Hc. cbn. destruct (disconnect transport); reflexivity.
  - intros e Hc He. rewrite Hc. cbn. rewrite He. cbn.
    destruct (disconnect transport); reflexivity.
  - intros e out Hc He Hp. rewrite Hc. cbn. rewrite He. cbn. rewrite Hp. cbn.
    destruct (disconnect transport); reflexivity.
Qed.

(** X23.  A fault of [disconnect] is outside the [except] clause: it reaches
    the caller in place of whatever the run had come to, and no error
    message is yielded for it; after a run without other fault the consumer
    has received the synthetic and the parsed messages and nothing else. *)
Theorem process_query_disconnect_fault (env : Environment)
    (transport : Transport) (parser : ParserStrategy) (prompt : string)
    (options : GeminiOptions) (e' : fault) :
  disconnect transport = Some e' ->
  let run := process_query' env transport parser prompt options in
  snd run = inl e'
  /\ yielded (fst run) =
     yielded (fst (process_query_try str env transport parser prompt options))
  /\ (forall out messages,
         connect transport = None ->
         execute transport prompt options = inr out ->
         parse parser (fst out) (snd out) = inr messages ->
         yielded (fst run) =
         init_message env parser options :: UserMessage (VStr prompt)
         :: messages).
Proof.
  intros Hd run. subst run. unfold process_query, try_finally.
  destruct (process_query_try str env transport parser prompt options)
    as [tr r] eqn:E.
  rewrite Hd. cbn [call outcome_of fst snd].
  assert (Hy : forall a : list (event float),
             yielded (a ++ [Disconnect]) = yielded a).
  { induction a as [|ev a IH]; [reflexivity|].
    destruct ev; cbn; rewrite ?IH; reflexivity. }
  split; [reflexivity|]. split; [apply Hy|].
  intros out messages Hc He Hp. rewrite Hy.
  unfold process_query_try in E. rewrite Hc in E. cbn in E.
  rewrite He in E. cbn in E. rewrite Hp, ClientFacts.yield_all_trace in E. cbn in E.
  injection E as <- _. cbn.
  rewrite <- (app_nil_r (map _ messages)), yielded_yields_then.
  cbn. rewrite app_nil_r. reflexivity.
Qed.

End ProcessQueryMore.

End ClientMore.

(* ===================================================================== *)
(** ** Properties of the construction of the client *)
(* ===================================================================== *)

Module ConstructionFacts.
Import Construction.

Lemma lower_char_idem (c : ascii) : lower_char (lower_char c) = lower_char c.
Proof.
  destruct c as [[] [] [] [] [] [] [] []]; vm_compute; reflexivity.
Qed.

Lemma lower_idem (s : string) : lower (lower s) = lower s.
Proof.
  induction s as [|c s IH]; [reflexivity|].
  cbn [lower]. rewrite lower_char_idem, IH. reflexivity.
Qed.

Section ConstructionFacts.

Variable float : Type.
Variable fault : Type.
Variable str : fault -> string.

Local Notation ParserStrategy := (Client.ParserStrategy float fault).
Local Notation Transport := (Client.Transport fault).

(** X4.  The parser of a new client: a parser passed to the constructor is
    used whatever the environment says.  Without one, the JSON parser is
    chosen unless GEMINI_PARSER_STRATEGY reads "llm", letter case aside, and
    [LLMParser()] can be built: a failure to build it and an unknown value
    both fall back to the JSON parser, and the letter case of the value
    never matters. *)
Theorem client_parser_selection (tr : option Transport)
    (default_transport : Transport) (strategy : option string)
    (json_parser : ParserStrategy) (llm_parser : fault + ParserStrategy) :
  let chosen v :=
    parser (new_client tr None default_transport v json_parser llm_parser) in
  (forall p,
      parser (new_client tr (Some p) default_transport strategy json_parser
                llm_parser) = p)
  /\ chosen None = json_parser
  /\ (forall e, llm_parser = inl e -> chosen strategy = json_parser)
  /\ (forall v, lower v <> "llm" -> chosen (Some v) = json_parser)
  /\ (forall v p, lower v = "llm" -> llm_parser = inr p ->
                  chosen (Some v) = p)
  /\ (forall v, chosen (Some (lower v)) = chosen (Some v)).
Proof.
  intros chosen. subst chosen. cbn [parser new_client].
  unfold _create_parser.
  split; [reflexivity|]. split; [reflexivity|].
  split; [|split; [|split]].
  - intros e ->.
    destruct strategy as [v|];
      repeat match goal with
             | |- context [if ?c then _ else _] => destruct c
             end; reflexivity.
  - intros v Hv.
    destruct (lower v =? "json")%string; [reflexivity|].
    destruct (String.eqb_spec (lower v) "llm") as [E | _];
      [contradiction | reflexivity].
  - intros v p Hv ->. rewrite Hv. reflexivity.
  - intros v. rewrite lower_idem. reflexivity.
Qed.

Variable float_add : float -> float -> float.
Variable float_of_int : Z -> option float.
Variable float_bool : float -> bool.
Variable json_loads : string -> exn + value float.
Variable now_ms : nat -> Z.
Variable inject : parsing_error -> fault.

Local Notation JSONParser' :=
  (JSONParser float_add float_of_int float_bool json_loads now_ms inject).

(** X24.  A subprocess that prints nothing that looks like JSON gives a run
    without any [ResultMessage]: with the JSON parser, when connect, execute
    and disconnect return and no line of stdout looks like JSON, the
    consumer receives the synthetic init message and the echo of the prompt
    and nothing else, and the run ends normally. *)
Theorem client_without_json_output (env : Client.Environment)
    (tr : Transport) (prompt stdout stderr : string)
    (options : Client.GeminiOptions) (t : nat) :
  Client.connect tr = None ->
  Client.execute tr prompt options = inr (stdout, stderr) ->
  Client.disconnect tr = None ->
  existsb looks_like_json (split_nl stdout) = false ->
  let run := Client.process_query str env tr (JSONParser' t) prompt options in
  run =
    ([Client.Connect;
      Client.Yield (Client.init_message env (JSONParser' t) options);
      Client.Yield (UserMessage (VStr prompt));
      Client.Execute prompt; Client.Parse stdout stderr;
      Client.Disconnect], inr tt)
  /\ filter (@Client.is_result float) (Client.yielded (fst run)) = [].
Proof.
  intros Hc He Hd Hno run. subst run.
  unfold Client.process_query, Client.process_query_try.
  rewrite Hc. cbn. rewrite He. cbn.
  rewrite (parse_no_json_lines _ float_add float_of_int float_bool json_loads
             now_ms stdout stderr t Hno).
  cbn. rewrite Hd. cbn. split; reflexivity.
Qed.

End ConstructionFacts.

End ConstructionFacts.

(* ===================================================================== *)
(** ** The further properties at work on concrete outputs *)
(* ===================================================================== *)

Ltac by_run := vm_compute; reflexivity.

Lemma no_json_no_messages_witness :
  existsb looks_like_json (split_nl "YOLO mode is enabled.") = false
  /\ Ref.parse Ref.frozen "YOLO mode is enabled." "" 0 = inr ([], 0%nat).
Proof.
  assert (H : existsb looks_like_json (split_nl "YOLO mode is enabled.")
              = false) by by_run.
  split; [exact H|].
  exact (proj2 (no_json_no_messages Ref.float Ref.float_add Ref.float_of_int
                  Ref.float_bool Ref.json_loads Ref.frozen
                  "YOLO mode is enabled." "" 0%nat) H).
Defined.

Lemma clean_output_json_first_witness :
  let raw := join_nl ["  " ++ Ref.init_line; "  continued"; ""]%string in
  looks_like_json (hd "" (split_nl (strip raw))) = true
  /\ _clean_output raw = strip raw.
Proof.
  intros raw.
  assert (H : looks_like_json (hd "" (split_nl (strip raw))) = true)
    by by_run.
  split; [exact H | exact (clean_output_json_first raw H)].
Defined.

Lemma client_parser_selection_witness :
  let json : Client.ParserStrategy Ref.float string :=
    Client.mkParser (fun _ _ => inr []) "JSONParser" in
  let llm : Client.ParserStrategy Ref.float string :=
    Client.mkParser (fun _ _ => inl "no key") "LLMParser" in
  let dt : Client.Transport string :=
    Client.mkTransport None (fun _ _ => inr ("", "")) None in
  Construction.lower "LLM" = "llm"
  /\ Construction.parser
       (Construction.new_client None None dt (Some "LLM") json (inr llm))
     = llm.
Proof.
  intros json llm dt.
  assert (H : Construction.lower "LLM" = "llm") by by_run.
  split; [exact H|].
  exact (proj1 (proj2 (proj2 (proj2 (proj2
           (ConstructionFacts.client_parser_selection Ref.float string None
              dt (Some "LLM") json (inr llm))))))
           "LLM" llm H eq_refl).
Defined.

Lemma format_detection_on_lines_witness :
  let raw := join_nl ["YOLO mode is enabled."; Ref.hello_stdout] in
  (startswith "{" (hd "" (json_lines (split_nl raw))) = true
   /\ later_brace (split_nl raw) = false)
  /\ detect_format (_clean_output raw) = SingleJSON.
Proof.
  intros raw.
  assert (H : startswith "{" (hd "" (json_lines (split_nl raw))) = true
              /\ later_brace (split_nl raw) = false)
    by (split; by_run).
  split; [exact H|].
  exact (proj2 (proj1 (format_detection_on_lines raw)) H).
Defined.

Lemma single_line_is_single_json_witness :
  no_LF Ref.init_line = true
  /\ startswith "{" (strip Ref.init_line) = true
  /\ Ref.parse Ref.frozen Ref.init_line "" 0 =
     wrap_error Ref.init_line
       (Ref._parse_single_json Ref.frozen (strip Ref.init_line) 0).
Proof.
  assert (H1 : no_LF Ref.init_line = true) by by_run.
  assert (H2 : startswith "{" (strip Ref.init_line) = true) by by_run.
  split; [exact H1|]. split; [exact H2|].
  exact (single_line_is_single_json Ref.float Ref.float_add Ref.float_of_int
           Ref.float_bool Ref.json_loads Ref.frozen Ref.init_line ""
           0%nat H1 H2).
Defined.

Lemma stream_outcome_by_brace_lines_witness :
  let raw1 := join_nl [Ref.init_line; Ref.result_line] in
  let raw2 :=
    join_nl ["Loading..."; (Ref.init_line ++ "  ")%string; "";
             "[debug]"; Ref.result_line] in
  detect_format (_clean_output raw1) = StreamJSON
  /\ detect_format (_clean_output raw2) = StreamJSON
  /\ brace_lines (split_nl raw1) = brace_lines (split_nl raw2)
  /\ outcome (Ref.parse Ref.ticking raw1 "" 0) =
     outcome (Ref.parse Ref.ticking raw2 "" 0).
Proof.
  intros raw1 raw2.
  assert (H1 : detect_format (_clean_output raw1) = StreamJSON) by by_run.
  assert (H2 : detect_format (_clean_output raw2) = StreamJSON) by by_run.
  assert (H3 : brace_lines (split_nl raw1) = brace_lines (split_nl raw2))
    by by_run.
  split; [exact H1|]. split; [exact H2|]. split; [exact H3|].
  exact (stream_outcome_by_brace_lines Ref.float Ref.float_add
           Ref.float_of_int Ref.float_bool Ref.json_loads Ref.ticking
           raw1 raw2 "" 0%nat H1 H2 H3).
Defined.

Lemma single_json_decode_failure_witness :
  detect_format (_clean_output Ref.corrupt_line) = SingleJSON
  /\ Ref.json_loads (_clean_output Ref.corrupt_line) = inl JSONDecodeError
  /\ Ref.parse Ref.frozen Ref.corrupt_line "" 0 =
     inl (ParsingError "Failed to parse Gemini CLI JSON output"
            Ref.corrupt_line
            (CLIJSONDecodeError (_clean_output Ref.corrupt_line))).
Proof.
  assert (H1 : detect_format (_clean_output Ref.corrupt_line) = SingleJSON)
    by by_run.
  assert (H2 : Ref.json_loads (_clean_output Ref.corrupt_line)
               = inl JSONDecodeError) by by_run.
  split; [exact H1|]. split; [exact H2|].
  exact (single_json_decode_failure Ref.float Ref.float_add Ref.float_of_int
           Ref.float_bool Ref.json_loads Ref.frozen Ref.corrupt_line ""
           JSONDecodeError 0%nat H1 H2).
Defined.

Lemma single_json_shape_witness :
  exists msgs,
    Ref._parse_single_json Ref.frozen Ref.hello_stdout 0 = inr (msgs, 1%nat)
    /\ exists r, msgs = [AssistantMessage [TextBlock (VStr "Hello!")];
                         ResultMessage r]
                 /\ num_turns r = 1
                 /\ session_id r = VStr "gemini-1000".
Proof.
  destruct (Ref._parse_single_json Ref.frozen Ref.hello_stdout 0)
    as [e | [msgs t']] eqn:E; [vm_compute in E; discriminate E|].
  assert (Ht : t' = 1%nat) by (vm_compute in E; congruence).
  subst t'. exists msgs. split; [reflexivity|].
  destruct (single_json_shape Ref.float Ref.float_add Ref.float_of_int
              Ref.float_bool Ref.json_loads Ref.frozen Ref.hello_stdout
              0%nat msgs 1%nat E)
    as (d & r & tokens & calls & models & Hd & _ & Hm & _ & _ & Hn & Hs & _).
  assert (Hd' : Ref.json_loads Ref.hello_stdout = inr (VDict Ref.hello_payload))
    by by_run.
  rewrite Hd' in Hd. injection Hd as <-.
  exists r. split; [exact Hm|]. split; [exact Hn | exact Hs].
Defined.

Lemma single_json_result_bound_witness :
  Ref.json_loads Ref.hello_stdout = inr (VDict Ref.hello_payload)
  /\ wf_payload Ref.hello_payload = true
  /\ dict_get_default Ref.hello_payload "response" (VStr "") = VStr "Hello!"
  /\ "Hello!" <> ""
  /\ exists r x,
       Ref._parse_single_json Ref.frozen Ref.hello_stdout 0 =
       inr ([AssistantMessage [TextBlock (VStr "Hello!")]; ResultMessage r],
            1%nat)
       /\ result r = VStr x
       /\ x = "Hello!".
Proof.
  assert (H1 : Ref.json_loads Ref.hello_stdout = inr (VDict Ref.hello_payload))
    by by_run.
  assert (H2 : wf_payload Ref.hello_payload = true) by by_run.
  assert (H3 : dict_get_default Ref.hello_payload "response" (VStr "")
               = VStr "Hello!") by by_run.
  assert (H4 : "Hello!" <> "") by discriminate.
  split; [exact H1|]. split; [exact H2|]. split; [exact H3|].
  split; [exact H4|].
  destruct (single_json_result_bound Ref.float Ref.float_add Ref.float_of_int
              Ref.float_bool Ref.json_loads Ref.frozen Ref.hello_stdout
              Ref.hello_payload "Hello!" 0%nat H1 H2 H3 H4)
    as (r & x & E & Hr & _ & _ & Hall).
  exists r, x. split; [exact E|]. split; [exact Hr|].
  apply Hall. cbn. lia.
Defined.

Lemma single_json_stats_not_object_witness :
  let raw := q "{'response':'hi','stats':null}" in
  let d : Ref.jdict := [("response", VStr "hi"); ("stats", VNone)] in
  detect_format (_clean_output raw) = SingleJSON
  /\ Ref.json_loads (_clean_output raw) = inr (VDict d)
  /\ (dict_get d "stats" = Some VNone /\ is_dict (@VNone Ref.float) = false)
  /\ Ref.parse Ref.frozen raw "" 0 =
     inl (ParsingError "Failed to parse Gemini CLI JSON output" raw
            AttributeError).
Proof.
  intros raw d.
  assert (H1 : detect_format (_clean_output raw) = SingleJSON) by by_run.
  assert (H2 : Ref.json_loads (_clean_output raw) = inr (VDict d)) by by_run.
  assert (H3 : dict_get d "stats" = Some VNone
               /\ is_dict (@VNone Ref.float) = false)
    by (split; reflexivity).
  split; [exact H1|]. split; [exact H2|]. split; [exact H3|].
  exact (single_json_stats_not_object Ref.float Ref.float_add
           Ref.float_of_int Ref.float_bool Ref.json_loads Ref.frozen raw ""
           d 0%nat H1 H2 (or_introl (ex_intro _ VNone H3))).
Defined.

Lemma single_json_missing_stats_witness :
  let json_str := q "{'response':'hi'}" in
  let d : Ref.jdict := [("response", VStr "hi")] in
  Ref.json_loads json_str = inr (VDict d)
  /\ dict_get d "stats" = None
  /\ dict_get_default d "response" (VStr "") = VStr "hi"
  /\ exists r,
       Ref._parse_single_json Ref.frozen json_str 0 =
       inr ([AssistantMessage [TextBlock (VStr "hi")]; ResultMessage r],
            1%nat)
       /\ duration_ms r = VInt 0.
Proof.
  intros json_str d.
  assert (H1 : Ref.json_loads json_str = inr (VDict d)) by by_run.
  assert (H2 : dict_get d "stats" = None) by reflexivity.
  assert (H3 : dict_get_default d "response" (VStr "") = VStr "hi")
    by reflexivity.
  split; [exact H1|]. split; [exact H2|]. split; [exact H3|].
  eexists. split.
  - exact (single_json_missing_stats Ref.float Ref.float_add Ref.float_of_int
             Ref.float_bool Ref.json_loads Ref.frozen json_str d "hi" 0%nat
             H1 H2 H3).
  - reflexivity.
Defined.

Lemma stream_unknown_event_witness :
  let line := q "{'type':'tool_use','name':'ls'}" in
  let d : Ref.jdict := [("type", VStr "tool_use"); ("name", VStr "ls")] in
  let st : list (Message Ref.float) * Ref.jvalue :=
    ([UserMessage (VStr "hi")], VStr "s") in
  startswith "{" (strip line) = true
  /\ Ref.json_loads (strip line) = inr (VDict d)
  /\ (has_type d "init" = false /\ has_type d "message" = false
      /\ has_type d "result" = false /\ has_type d "error" = false)
  /\ Ref.stream_step Ref.frozen st line 3 = inr (st, 3%nat).
Proof.
  intros line d st.
  assert (H1 : startswith "{" (strip line) = true) by by_run.
  assert (H2 : Ref.json_loads (strip line) = inr (VDict d)) by by_run.
  assert (H3 : has_type d "init" = false /\ has_type d "message" = false
               /\ has_type d "result" = false /\ has_type d "error" = false)
    by (repeat split; reflexivity).
  split; [exact H1|]. split; [exact H2|]. split; [exact H3|].
  exact (stream_unknown_event Ref.float Ref.float_bool Ref.json_loads
           Ref.frozen st line d 3%nat H1 H2 (or_introl H3)).
Defined.

Lemma stream_result_event_witness :
  startswith "{" (strip Ref.result_line) = true
  /\ Ref.json_loads (strip Ref.result_line) = inr (VDict Ref.result_event)
  /\ has_type Ref.result_event "result" = true
  /\ dict_or_absent (dict_get Ref.result_event "stats") = true
  /\ exists r,
       Ref.stream_step Ref.frozen ([], VNone) Ref.result_line 0 =
       inr (([ResultMessage r], VNone), 1%nat)
       /\ duration_ms r = VInt 7
       /\ is_error r = false.
Proof.
  assert (H1 : startswith "{" (strip Ref.result_line) = true) by by_run.
  assert (H2 : Ref.json_loads (strip Ref.result_line)
               = inr (VDict Ref.result_event)) by by_run.
  assert (H3 : has_type Ref.result_event "result" = true) by by_run.
  assert (H4 : dict_or_absent (dict_get Ref.result_event "stats") = true)
    by by_run.
  split; [exact H1|]. split; [exact H2|]. split; [exact H3|].
  split; [exact H4|].
  eexists. split.
  - exact (stream_result_event Ref.float Ref.float_bool Ref.json_loads
             Ref.frozen [] VNone Ref.result_line Ref.result_event 0%nat
             H1 H2 H3 H4).
  - split; reflexivity.
Defined.

Lemma stream_error_event_witness :
  let line := q "{'type':'error'}" in
  let d : Ref.jdict := [("type", VStr "error")] in
  startswith "{" (strip line) = true
  /\ Ref.json_loads (strip line) = inr (VDict d)
  /\ has_type d "error" = true
  /\ exists r,
       Ref.stream_step Ref.frozen ([], VStr "s") line 0 =
       inr (([ResultMessage r], VStr "s"), 0%nat)
       /\ result r = VStr "Unknown error"
       /\ session_id r = VStr "s".
Proof.
  intros line d.
  assert (H1 : startswith "{" (strip line) = true) by by_run.
  assert (H2 : Ref.json_loads (strip line) = inr (VDict d)) by by_run.
  assert (H3 : has_type d "error" = true) by by_run.
  split; [exact H1|]. split; [exact H2|]. split; [exact H3|].
  eexists. split.
  - exact (stream_error_event Ref.float Ref.float_bool Ref.json_loads
             Ref.frozen [] (VStr "s") line d 0%nat H1 H2 H3).
  - split; reflexivity.
Defined.

Lemma result_session_id_never_empty_witness :
  let raw := join_nl [Ref.result_line; Ref.error_line] in
  exists msgs t',
    Ref.parse Ref.ticking raw "" 0 = inr (msgs, t')
    /\ length msgs = 2%nat
    /\ result_ids_truthy Ref.float_bool msgs = true.
Proof.
  intros raw.
  destruct (Ref.parse Ref.ticking raw "" 0) as [e | [msgs t']] eqn:E;
    [vm_compute in E; discriminate E|].
  exists msgs, t'. split; [reflexivity|]. split.
  - vm_compute in E. injection E as <- _. reflexivity.
  - exact (result_session_id_never_empty Ref.float Ref.float_add
             Ref.float_of_int Ref.float_bool Ref.json_loads Ref.ticking
             raw "" 0%nat msgs t' E).
Defined.

Lemma stream_messages_bounded_witness :
  let raw :=
    join_nl [Ref.init_line; "Loading..."; Ref.corrupt_line; Ref.user_line;
             Ref.result_line] in
  detect_format (_clean_output raw) = StreamJSON
  /\ length (brace_lines (split_nl raw)) = 4%nat
  /\ exists msgs t',
       Ref.parse Ref.ticking raw "" 0 = inr (msgs, t')
       /\ (length msgs <= 4)%nat
       /\ (0 <= t' <= 0 + 4)%nat.
Proof.
  intros raw.
  assert (H1 : detect_format (_clean_output raw) = StreamJSON) by by_run.
  assert (H2 : length (brace_lines (split_nl raw)) = 4%nat) by by_run.
  split; [exact H1|]. split; [exact H2|].
  destruct (Ref.parse Ref.ticking raw "" 0) as [e | [msgs t']] eqn:E;
    [vm_compute in E; discriminate E|].
  exists msgs, t'. split; [reflexivity|].
  rewrite <- H2.
  exact (stream_messages_bounded Ref.float Ref.float_add Ref.float_of_int
           Ref.float_bool Ref.json_loads Ref.ticking raw "" 0%nat msgs t'
           H1 E).
Defined.

Lemma stream_bad_result_event_witness :
  let bad := q "{'type':'result','stats':5}" in
  let d : Ref.jdict := [("type", VStr "result"); ("stats", VInt 5)] in
  let json_str := join_nl [Ref.init_line; bad; Ref.user_line] in
  let st1 : list (Message Ref.float) * Ref.jvalue :=
    ([init_system_message Ref.init_event (VStr "s")], VStr "s") in
  split_nl (strip json_str) = [Ref.init_line] ++ bad :: [Ref.user_line]
  /\ Ref.stream_loop Ref.frozen [Ref.init_line] ([], VNone) 0
     = inr (st1, 1%nat)
  /\ startswith "{" (strip bad) = true
  /\ Ref.json_loads (strip bad) = inr (VDict d)
  /\ has_type d "result" = true
  /\ dict_get d "stats" = Some (VInt 5)
  /\ is_dict (@VInt Ref.float 5) = false
  /\ Ref._parse_stream_json Ref.frozen json_str 0 = inl AttributeError.
Proof.
  intros bad d json_str st1.
  assert (H1 : split_nl (strip json_str)
               = [Ref.init_line] ++ bad :: [Ref.user_line]) by by_run.
  assert (H2 : Ref.stream_loop Ref.frozen [Ref.init_line] ([], VNone) 0
               = inr (st1, 1%nat)) by by_run.
  assert (H3 : startswith "{" (strip bad) = true) by by_run.
  assert (H4 : Ref.json_loads (strip bad) = inr (VDict d)) by by_run.
  assert (H5 : has_type d "result" = true) by by_run.
  assert (H6 : dict_get d "stats" = Some (VInt 5)) by reflexivity.
  assert (H7 : is_dict (@VInt Ref.float 5) = false) by reflexivity.
  split; [exact H1|]. split; [exact H2|]. split; [exact H3|].
  split; [exact H4|]. split; [exact H5|]. split; [exact H6|].
  split; [exact H7|].
  exact (stream_bad_result_event Ref.float Ref.float_bool Ref.json_loads
           Ref.frozen json_str [Ref.init_line] [Ref.user_line] bad d
           (VInt 5) st1 0%nat 1%nat H1 H2 H3 H4 H5 H6 H7).
Defined.

Lemma init_and_result_share_session_id_witness :
  let init := q "{'type':'init','model':'m'}" in
  let di : Ref.jdict := [("type", VStr "init"); ("model", VStr "m")] in
  let dl : Ref.jdict := [("type", VStr "error"); ("message", VStr "boom")] in
  let captured : Ref.jvalue := VStr "gemini-1000" in
  let user : Message Ref.float := UserMessage (VStr "hi") in
  Ref.stream_loop Ref.ticking [] ([], VNone) 0 = inr (([], VNone), 0%nat)
  /\ startswith "{" (strip init) = true
  /\ Ref.json_loads (strip init) = inr (VDict di)
  /\ has_type di "init" = true
  /\ dict_get di "session_id" = None
  /\ forallb (not_init Ref.json_loads) [Ref.user_line] = true
  /\ Ref.stream_loop Ref.ticking [Ref.user_line] ([], captured) 1
     = inr (([user], captured), 1%nat)
  /\ startswith "{" (strip Ref.error_line) = true
  /\ Ref.json_loads (strip Ref.error_line) = inr (VDict dl)
  /\ has_type dl "error" = true
  /\ exists r,
       Ref.stream_loop Ref.ticking
         ([] ++ init :: [Ref.user_line] ++ [Ref.error_line]) ([], VNone) 0 =
       inr (([] ++ init_system_message di captured :: [user]
             ++ [ResultMessage r], captured), 1%nat)
       /\ system_data (init_system_message di captured) "session_id"
          = Some captured
       /\ session_id r = captured.
Proof.
  intros init di dl captured user.
  assert (H1 : Ref.stream_loop Ref.ticking [] ([], VNone) 0
               = inr (([], VNone), 0%nat)) by reflexivity.
  assert (H2 : startswith "{" (strip init) = true) by by_run.
  assert (H3 : Ref.json_loads (strip init) = inr (VDict di)) by by_run.
  assert (H4 : has_type di "init" = true) by by_run.
  assert (H5 : dict_get di "session_id" = None) by reflexivity.
  assert (H6 : forallb (not_init Ref.json_loads) [Ref.user_line] = true)
    by by_run.
  assert (H7 : Ref.stream_loop Ref.ticking [Ref.user_line] ([], captured) 1
               = inr (([user], captured), 1%nat)) by by_run.
  assert (H8 : startswith "{" (strip Ref.error_line) = true) by by_run.
  assert (H9 : Ref.json_loads (strip Ref.error_line) = inr (VDict dl))
    by by_run.
  assert (H10 : has_type dl "error" = true) by by_run.
  split; [exact H1|]. split; [exact H2|]. split; [exact H3|].
  split; [exact H4|]. split; [exact H5|]. split; [exact H6|].
  split; [exact H7|]. split; [exact H8|]. split; [exact H9|].
  split; [exact H10|].
  exact (init_and_result_share_session_id Ref.float Ref.float_bool
           Ref.json_loads Ref.ticking [] [Ref.user_line] init Ref.error_line
           di dl [] [user] VNone captured 0%nat 0%nat 1%nat
           H1 H2 H3 H4 (or_introl H5) H6 H7 H8 H9 (or_intror H10)).
Defined.

Lemma process_query_success_witness :
  let hello : list (Message Ref.float) :=
    [AssistantMessage [TextBlock (VStr "Hello!")]] in
  let transport : Client.Transport string :=
    Client.mkTransport None (fun _ _ => inr (Ref.hello_stdout, "")) None in
  let parser : Client.ParserStrategy Ref.float string :=
    Client.mkParser (fun _ _ => inr hello) "JSONParser" in
  let env := Client.mkEnv None "/work" in
  let options := Client.mkOptions None None false false in
  let run :=
    Client.process_query (fun e : string => e) env transport parser "hello"
      options in
  Client.connect transport = None
  /\ Client.execute transport "hello" options = inr (Ref.hello_stdout, "")
  /\ Client.parse parser Ref.hello_stdout "" = inr hello
  /\ Client.disconnect transport = None
  /\ Client.yielded (fst run) =
     Client.init_message env parser options :: UserMessage (VStr "hello")
     :: hello
  /\ snd run = inr tt.
Proof.
  intros hello transport parser env options run.
  assert (H1 : Client.connect transport = None) by reflexivity.
  assert (H2 : Client.execute transport "hello" options
               = inr (Ref.hello_stdout, "")) by reflexivity.
  assert (H3 : Client.parse parser Ref.hello_stdout "" = inr hello)
    by reflexivity.
  assert (H4 : Client.disconnect transport = None) by reflexivity.
  split; [exact H1|]. split; [exact H2|]. split; [exact H3|].
  split; [exact H4|].
  destruct (ClientMore.process_query_success Ref.float string
              (fun e : string => e) env transport parser "hello" options
              (Ref.hello_stdout, "") hello H1 H2 H3)
    as (_ & Hy & Hend).
  split; [exact Hy | exact (Hend H4)].
Defined.

Lemma process_query_stops_at_fault_witness :
  let transport : Client.Transport string :=
    Client.mkTransport (Some "refused") (fun _ _ => inr ("", "")) None in
  let parser : Client.ParserStrategy Ref.float string :=
    Client.mkParser (fun _ _ => inr []) "JSONParser" in
  let env := Client.mkEnv None "/work" in
  let options := Client.mkOptions None None false false in
  Client.connect transport = Some "refused"
  /\ fst (Client.process_query (fun e : string => e) env transport parser
            "hello" options)
     = [Client.Connect;
        Client.Yield
          (@Client.error_message Ref.float string (fun e => e) "refused");
        Client.Disconnect].
Proof.
  intros transport parser env options.
  assert (H1 : Client.connect transport = Some "refused") by reflexivity.
  split; [exact H1|].
  exact (proj1 (ClientMore.process_query_stops_at_fault Ref.float string
                  (fun e : string => e) env transport parser "hello"
                  options) "refused" H1).
Defined.

Lemma process_query_disconnect_fault_witness :
  let hello : list (Message Ref.float) :=
    [AssistantMessage [TextBlock (VStr "Hello!")]] in
  let transport : Client.Transport string :=
    Client.mkTransport None (fun _ _ => inr (Ref.hello_stdout, ""))
      (Some "broken pipe") in
  let parser : Client.ParserStrategy Ref.float string :=
    Client.mkParser (fun _ _ => inr hello) "JSONParser" in
  let env := Client.mkEnv None "/work" in
  let options := Client.mkOptions None None false false in
  let run :=
    Client.process_query (fun e : string => e) env transport parser "hello"
      options in
  Client.disconnect transport = Some "broken pipe"
  /\ snd run = inl "broken pipe"
  /\ Client.yielded (fst run) =
     Client.init_message env parser options :: UserMessage (VStr "hello")
     :: hello.
Proof.
  intros hello transport parser env options run.
  assert (H1 : Client.disconnect transport = Some "broken pipe")
    by reflexivity.
  split; [exact H1|].
  destruct (ClientMore.process_query_disconnect_fault Ref.float string
              (fun e : string => e) env transport parser "hello" options
              "broken pipe" H1)
    as (Hs & _ & Hy).
  split; [exact Hs|].
  exact (Hy (Ref.hello_stdout, "") hello eq_refl eq_refl eq_refl).
Defined.

Lemma client_without_json_output_witness :
  let banner := "YOLO mode is enabled. All tool calls will be approved." in
  let tr : Client.Transport string :=
    Client.mkTransport None (fun _ _ => inr (banner, "")) None in
  let parser : Client.ParserStrategy Ref.float string :=
    Construction.JSONParser Ref.float_add Ref.float_of_int Ref.float_bool
      Ref.json_loads Ref.ticking (fun _ => "parsing failed") 0 in
  let env := Client.mkEnv None "/work" in
  let options := Client.mkOptions None None false true in
  let run :=
    Client.process_query (fun e : string => e) env tr parser "hello"
      options in
  Client.connect tr = None
  /\ Client.execute tr "hello" options = inr (banner, "")
  /\ Client.disconnect tr = None
  /\ existsb looks_like_json (split_nl banner) = false
  /\ snd run = inr tt
  /\ filter (@Client.is_result Ref.float) (Client.yielded (fst run)) = [].
Proof.
  intros banner tr parser env options run.
  assert (H1 : Client.connect tr = None) by reflexivity.
  assert (H2 : Client.execute tr "hello" options = inr (banner, ""))
    by reflexivity.
  assert (H3 : Client.disconnect tr = None) by reflexivity.
  assert (H4 : existsb looks_like_json (split_nl banner) = false) by by_run.
  split; [exact H1|]. split; [exact H2|]. split; [exact H3|].
  split; [exact H4|].
  destruct (ConstructionFacts.client_without_json_output Ref.float string
              (fun e : string => e) Ref.float_add Ref.float_of_int
              Ref.float_bool Ref.json_loads Ref.ticking
              (fun _ => "parsing failed") env tr "hello" banner ""
              options 0%nat H1 H2 H3 H4)
    as (Hrun & Hnone).
  split; [|exact Hnone].
  exact (f_equal snd Hrun).
Defined.
